(** * PID issuer: credential formatting and delivery

    A shallow embedding of [app/formatter_func.py] and of the
    [/eidasnode/lightresponse] route of [app/route_eidasnode.py].

    Python values are modelled by an inductive type of JSON-like values,
    dictionaries by insertion-ordered association lists, exceptions by an
    explicit outcome type.  Third-party libraries (cbor2, base64, hashlib,
    datetime, pymdoccbor, sd_jwt, cryptography) are modelled either by an
    executable definition of the routine that is called or, for the
    cryptographic primitives, by section variables. *)

From Stdlib Require Import ZArith NArith List String Ascii Bool Lia Permutation.
Import ListNotations.

Set Warnings "-register-all".

(** ** Python outcomes, values and dictionaries *)

Module Py.

(** The exceptions the modelled code can raise: Python built-ins, and the
    exception classes of the libraries it calls. *)
Inductive py_exception : Type :=
| KeyError
| IndexError
| TypeError
| AttributeError
| ValueError
| OverflowError
| binascii_Error
| CBORDecodeError
| UnicodeDecodeError
| LibraryError (origin : string).

(** The failure kinds of the specification's error-handling design.  No
    function of [formatter_func.py] or [route_eidasnode.py] defines or
    constructs one of them; they are here so that statements about typed
    failures can be written down. *)
Inductive error_kind : Type :=
| MissingDataError
| MalformedCredentialError
| UnsupportedCurveError
| IncompleteAttributeSetError
| AuthenticationError
| KeyMaterialError.

(** What a call does: it returns a value, raises an exception, or hands a
    typed failure back to its caller. *)
Inductive outcome (A : Type) : Type :=
| Return (a : A)
| Raise (e : py_exception)
| Fail (k : error_kind).

Arguments Return {A} a.
Arguments Raise {A} e.
Arguments Fail {A} k.

(** What a call into a library does: it returns or it raises.  A library
    knows nothing of the specification's typed failures. *)
Inductive call (A : Type) : Type :=
| Returned (a : A)
| Raised (e : py_exception).

Arguments Returned {A} a.
Arguments Raised {A} e.

Definition run {A : Type} (c : call A) : outcome A :=
  match c with
  | Returned a => Return a
  | Raised e => Raise e
  end.

Definition bind {A B : Type} (m : outcome A) (f : A -> outcome B) : outcome B :=
  match m with
  | Return a => f a
  | Raise e => Raise e
  | Fail k => Fail k
  end.

Definition returns {A : Type} (m : outcome A) : bool :=
  match m with Return _ => true | _ => false end.

(** An outcome is untyped when it is not one of the specification's typed
    failures. *)
Definition typed_failure {A : Type} (m : outcome A) : bool :=
  match m with Fail _ => true | _ => false end.

Definition of_option {A : Type} (e : py_exception) (o : option A) : outcome A :=
  match o with Some a => Return a | None => Raise e end.

Fixpoint mapM {A B : Type} (f : A -> outcome B) (l : list A) : outcome (list B) :=
  match l with
  | [] => Return []
  | a :: l' =>
      bind (f a) (fun b => bind (mapM f l') (fun bs => Return (b :: bs)))
  end.

(** JSON-like Python values: [None], [bool], [int], [str], [list] and [dict]
    with [str] keys, as they arrive in a decoded request body. *)
Inductive json : Type :=
| JNull
| JBool (b : bool)
| JInt (z : Z)
| JStr (s : string)
| JList (l : list json)
| JDict (d : list (string * json)).

Section JsonInduction.
Variable P : json -> Prop.
Hypothesis HNull : P JNull.
Hypothesis HBool : forall b, P (JBool b).
Hypothesis HInt : forall z, P (JInt z).
Hypothesis HStr : forall s, P (JStr s).
Hypothesis HList : forall l, Forall P l -> P (JList l).
Hypothesis HDict : forall d, Forall (fun kv => P (snd kv)) d -> P (JDict d).

Fixpoint json_nested_ind (j : json) : P j :=
  match j with
  | JNull => HNull
  | JBool b => HBool b
  | JInt z => HInt z
  | JStr s => HStr s
  | JList l =>
      HList l
        ((fix go (l : list json) : Forall P l :=
            match l with
            | [] => Forall_nil P
            | x :: l' => Forall_cons x (json_nested_ind x) (go l')
            end) l)
  | JDict d =>
      HDict d
        ((fix go (d : list (string * json)) : Forall (fun kv => P (snd kv)) d :=
            match d with
            | [] => Forall_nil _
            | kv :: d' => Forall_cons kv (json_nested_ind (snd kv)) (go d')
            end) d)
  end.
End JsonInduction.

(** Dictionaries keep insertion order.  [dict_set] is [d[k] = v]: it
    overwrites the value of a key that is present and appends a new key. *)
Section Dict.
Context {K V : Type}.
Variable eqb : K -> K -> bool.

Fixpoint dict_get (k : K) (d : list (K * V)) : option V :=
  match d with
  | [] => None
  | (k', v) :: d' => if eqb k k' then Some v else dict_get k d'
  end.

Fixpoint dict_set (k : K) (v : V) (d : list (K * V)) : list (K * V) :=
  match d with
  | [] => [(k, v)]
  | (k', v') :: d' =>
      if eqb k k' then (k', v) :: d' else (k', v') :: dict_set k v d'
  end.

Definition dict_update (d u : list (K * V)) : list (K * V) :=
  fold_left (fun acc kv => dict_set (fst kv) (snd kv) acc) u d.

Definition dict_keys (d : list (K * V)) : list K := map fst d.

(** Setting a key that compares equal to none of the keys present appends
    it. *)
Lemma dict_set_fresh (k : K) (v : V) : forall acc,
  existsb (eqb k) (map fst acc) = false ->
  dict_set k v acc = acc ++ [(k, v)].
Proof.
  induction acc as [|[k' v'] acc IH]; intros H; [reflexivity|].
  cbn [map fst existsb] in H. apply orb_false_iff in H. destruct H as [H1 H2].
  cbn [dict_set app]. rewrite H1, IH by exact H2. reflexivity.
Qed.
End Dict.

(** [d[k]] on a [dict] with [str] keys. *)
Definition lookup (k : string) (d : list (string * json)) : option json :=
  dict_get String.eqb k d.

(** [obj[key]] for a [str] key: only a [dict] can be subscripted by a
    string. *)
Definition getitem (obj : json) (key : string) : outcome json :=
  match obj with
  | JDict d => of_option KeyError (lookup key d)
  | _ => Raise TypeError
  end.

(** [obj[0]]: the first element of a list, the first character of a string;
    a [dict] with [str] keys has no key [0]. *)
Definition getitem0 (obj : json) : outcome json :=
  match obj with
  | JDict _ => Raise KeyError
  | JList l => of_option IndexError (nth_error l 0)
  | JStr s =>
      match s with
      | EmptyString => Raise IndexError
      | String c _ => Return (JStr (String c EmptyString))
      end
  | _ => Raise TypeError
  end.

(** *** Outcomes without a typed failure *)

Definition untyped {A : Type} (m : outcome A) : Prop := typed_failure m = false.

Lemma untyped_bind {A B : Type} (m : outcome A) (f : A -> outcome B) :
  untyped m -> (forall a, untyped (f a)) -> untyped (bind m f).
Proof.
  unfold untyped. destruct m as [a|e|k]; cbn; intros Hm Hf; auto.
Qed.

Lemma untyped_of_option {A : Type} e (o : option A) : untyped (of_option e o).
Proof. destruct o; reflexivity. Qed.

Lemma untyped_run {A : Type} (c : call A) : untyped (run c).
Proof. destruct c; reflexivity. Qed.

Lemma untyped_mapM {A B : Type} (f : A -> outcome B) l :
  (forall a, untyped (f a)) -> untyped (mapM f l).
Proof.
  intros Hf. induction l as [|a l IH]; [reflexivity|].
  cbn [mapM]. apply untyped_bind; [apply Hf|]. intros b.
  apply untyped_bind; [apply IH|]. reflexivity.
Qed.

Ltac untyped_step :=
  match goal with
  | |- untyped (bind _ _) => apply untyped_bind; [|intros ?]
  | |- untyped (of_option _ _) => apply untyped_of_option
  | |- untyped (run _) => apply untyped_run
  | |- untyped (Return _) => reflexivity
  | |- untyped (Raise _) => reflexivity
  | |- untyped (if ?c then _ else _) => destruct c
  | |- untyped (match ?x with _ => _ end) => destruct x
  end.

Lemma bind_Return {A B : Type} (m : outcome A) (f : A -> outcome B) b :
  bind m f = Return b -> exists a, m = Return a /\ f a = Return b.
Proof.
  destruct m as [a|e|k]; cbn; intros H; try discriminate. eauto.
Qed.

Ltac bind_inv H :=
  let a := fresh "a" in
  let Ha := fresh "H" a in
  apply bind_Return in H; destruct H as (a & Ha & H).

End Py.

Export Py.

Declare Scope outcome_scope.
Delimit Scope outcome_scope with outcome.
Notation "x <- m ;; k" := (bind m (fun x => k))
  (at level 61, m at next level, right associativity) : outcome_scope.
Open Scope outcome_scope.

(** ** Calendar dates: [datetime.strptime] and [datetime.timestamp] *)

Module Calendar.

Open Scope Z_scope.

Record date : Type := mkdate { year : Z; month : Z; day : Z }.

(** The proleptic Gregorian ordinal, as [datetime] computes it
    ([_days_before_year], [_days_before_month], [_ymd2ord]). *)
Definition is_leap (y : Z) : bool :=
  (y mod 4 =? 0) && (negb (y mod 100 =? 0) || (y mod 400 =? 0)).

Definition days_in_month (y m : Z) : Z :=
  if m =? 2 then (if is_leap y then 29 else 28)
  else if (m =? 4) || (m =? 6) || (m =? 9) || (m =? 11) then 30
  else 31.

Definition days_before_year (y : Z) : Z :=
  let y' := y - 1 in y' * 365 + y' / 4 - y' / 100 + y' / 400.

Definition days_before_month (y m : Z) : Z :=
  nth (Z.to_nat m) [0; 0; 31; 59; 90; 120; 151; 181; 212; 243; 273; 304; 334] 0
  + (if (2 <? m) && is_leap y then 1 else 0).

Definition ymd2ord (d : date) : Z :=
  days_before_year (year d) + days_before_month (year d) (month d) + day d.

Definition valid_month_day (d : date) : bool :=
  (1 <=? month d) && (month d <=? 12)
  && (1 <=? day d) && (day d <=? days_in_month (year d) (month d)).

(** [datetime] accepts the years [MINYEAR = 1] to [MAXYEAR = 9999]. *)
Definition valid_date (d : date) : bool :=
  (1 <=? year d) && (year d <=? 9999) && valid_month_day d.

Definition epoch : date := mkdate 1970 1 1.

(** *** [datetime.strptime(s, '%Y-%m-%d')]

    The format compiles to the regular expression
    [(?P<Y>\d\d\d\d)-(?P<m>1[0-2]|0[1-9]|[1-9])-(?P<d>3[01]|[12]\d|0[1-9]|[1-9]| [1-9])],
    matched at the start of the string; text left over after the match is
    an error.  Alternatives are tried from left to right.

    In a [str] pattern [\d] also matches the decimal digits of scripts
    other than ASCII.  [digit] is [\d] on ASCII text: the parser below is
    [strptime] on the strings whose characters are all ASCII, and a
    statement about every string it rejects is made of those only. *)
Definition digit (c : ascii) : option Z :=
  let n := Z.of_N (N_of_ascii c) in
  if (48 <=? n) && (n <=? 57) then Some (n - 48) else None.

Definition digit_in (lo hi : Z) (c : ascii) : option Z :=
  match digit c with
  | Some n => if (lo <=? n) && (n <=? hi) then Some n else None
  | None => None
  end.

Definition orelse {A : Type} (a b : option A) : option A :=
  match a with Some _ => a | None => b end.

Definition two_digits (lo1 hi1 lo2 hi2 : Z) (s : string) : option (Z * string) :=
  match s with
  | String c1 (String c2 r) =>
      match digit_in lo1 hi1 c1, digit_in lo2 hi2 c2 with
      | Some a, Some b => Some (10 * a + b, r)
      | _, _ => None
      end
  | _ => None
  end.

Definition one_digit (lo hi : Z) (s : string) : option (Z * string) :=
  match s with
  | String c r =>
      match digit_in lo hi c with Some a => Some (a, r) | None => None end
  | _ => None
  end.

Definition space_digit (s : string) : option (Z * string) :=
  match s with
  | String " " r => one_digit 1 9 r
  | _ => None
  end.

Definition match_year (s : string) : option (Z * string) :=
  match two_digits 0 9 0 9 s with
  | Some (hi, r) =>
      match two_digits 0 9 0 9 r with
      | Some (lo, r') => Some (100 * hi + lo, r')
      | None => None
      end
  | None => None
  end.

Definition match_dash (s : string) : option string :=
  match s with
  | String "-" r => Some r
  | _ => None
  end.

Definition match_day (s : string) : option (Z * string) :=
  orelse (two_digits 3 3 0 1 s)
    (orelse (two_digits 1 2 0 9 s)
       (orelse (two_digits 0 0 1 9 s)
          (orelse (one_digit 1 9 s) (space_digit s)))).

(** A month alternative is kept only if the rest of the pattern, the dash
    and the day, matches after it. *)
Definition month_then_day (alt : option (Z * string)) : option (Z * (Z * string)) :=
  match alt with
  | Some (m, r) =>
      match match_dash r with
      | Some r' =>
          match match_day r' with
          | Some dr => Some (m, dr)
          | None => None
          end
      | None => None
      end
  | None => None
  end.

Definition match_month_day (s : string) : option (Z * (Z * string)) :=
  orelse (month_then_day (two_digits 1 1 0 2 s))
    (orelse (month_then_day (two_digits 0 0 1 9 s))
       (month_then_day (one_digit 1 9 s))).

Definition strptime (s : string) : outcome date :=
  match match_year s with
  | Some (y, r) =>
      match match_dash r with
      | Some r' =>
          match match_month_day r' with
          | Some (m, (d, rest)) =>
              match rest with
              | EmptyString =>
                  let dt := mkdate y m d in
                  if valid_date dt then Return dt else Raise ValueError
              | _ => Raise ValueError
              end
          | None => Raise ValueError
          end
      | None => Raise ValueError
      end
  | None => Raise ValueError
  end.

(** *** [datetime.timestamp()] of a naive [datetime]

    A [datetime] without [tzinfo] is read as local time:
    [local_to_seconds] of [_datetimemodule.c] looks for the instant whose
    local time is the given one, asking [localtime] at a few instants.
    As there, instants and local times are counted in seconds from the
    midnight before 0001-01-01 (the ordinal of the day times 86400), and a
    local time whose year lies outside [MINYEAR..MAXYEAR] is refused with
    [ValueError].  [zone] stands for [localtime]: it gives the offset of
    the process's local zone from UTC, in seconds, in force at an instant
    (in seconds since 1970-01-01T00:00 UTC).  The result is a [float] in
    Python; for the midnights produced by [strptime] it is an integer far
    below 2^53 and is held exactly. *)
Definition epoch_seconds : Z := 719163 * 24 * 60 * 60.
Definition max_fold_seconds : Z := 24 * 3600.

(** The ordinal of 9999-12-31. *)
Definition max_ordinal : Z := 3652059.

Definition utc_to_seconds (d : date) (hour minute second : Z) : outcome Z :=
  if (year d <? 1) || (9999 <? year d) then Raise ValueError
  else
    let ordinal := ymd2ord d in
    Return (((ordinal * 24 + hour) * 60 + minute) * 60 + second).

(** [local(u)]: the local time at the instant [u], put together again by
    [utc_to_seconds].  The year of a day lies in 1..9999 exactly when its
    ordinal lies in 1..[max_ordinal]. *)
Definition local (zone : Z -> Z) (u : Z) : outcome Z :=
  let t := u - epoch_seconds in
  let wall := u + zone t in
  let ordinal := wall / 86400 in
  if (ordinal <? 1) || (max_ordinal <? ordinal) then Raise ValueError
  else Return wall.

(** [local_to_seconds] for [fold = 0], which is what [strptime] gives. *)
Definition local_to_seconds (zone : Z -> Z) (d : date) : outcome Z :=
  t <- utc_to_seconds d 0 0 0 ;;
  (* Our goal is to solve t = local(u) for u. *)
  lt <- local zone t ;;
  let a := lt - t in
  let u1 := t - a in
  t1 <- local zone u1 ;;
  found <-
    (if t1 =? t then
       (* We found one solution, but it may not be the one we need.
          Look for an earlier solution. *)
       let u2 := u1 - max_fold_seconds in
       lt <- local zone u2 ;;
       let b := lt - u2 in
       Return (if a =? b then inl u1 else inr b)
     else Return (inr (t1 - u1))) ;;
  match found with
  | inl u => Return u
  | inr b =>
      let u2 := t - b in
      t2 <- local zone u2 ;;
      if t2 =? t then Return u2
      else if t1 =? t then Return u1
      else
        (* neither t - a nor t - b is a solution: t is in the gap *)
        Return (Z.max u1 u2)
  end.

Definition timestamp (zone : Z -> Z) (d : date) : outcome Z :=
  seconds <- local_to_seconds zone d ;;
  Return (seconds - epoch_seconds).

(** UTC, and a zone one hour east of it all year round. *)
Definition tz_utc : Z -> Z := fun _ => 0.
Definition tz_fixed (offset : Z) : Z -> Z := fun _ => offset.

(** *** Counting days

    The day after a date, and the dates reached from 1970-01-01 by whole
    days, forwards and backwards. *)
Definition next_day (d : date) : date :=
  if day d <? days_in_month (year d) (month d)
  then mkdate (year d) (month d) (day d + 1)
  else if month d <? 12
       then mkdate (year d) (month d + 1) 1
       else mkdate (year d + 1) 1 1.

Inductive days_since_epoch : Z -> date -> Prop :=
| dse_epoch : days_since_epoch 0 epoch
| dse_next : forall n d,
    days_since_epoch n d -> days_since_epoch (n + 1) (next_day d)
| dse_prev : forall n d,
    valid_month_day d = true ->
    days_since_epoch (n + 1) (next_day d) -> days_since_epoch n d.

(** *** The ordinal counts days *)

Lemma is_leap_spec y :
  is_leap y = true <-> (y mod 4 = 0 /\ (y mod 100 <> 0 \/ y mod 400 = 0)).
Proof.
  unfold is_leap. rewrite andb_true_iff, orb_true_iff, negb_true_iff.
  rewrite !Z.eqb_eq, Z.eqb_neq. tauto.
Qed.

Lemma days_before_year_succ y :
  days_before_year (y + 1) = days_before_year y + 365 + (if is_leap y then 1 else 0).
Proof.
  unfold days_before_year. 
  destruct (is_leap y) eqn:E.
  - apply is_leap_spec in E. cbv zeta. replace (y + 1 - 1) with y by lia.
    Z.div_mod_to_equations. lia.
  - assert (~ (y mod 4 = 0 /\ (y mod 100 <> 0 \/ y mod 400 = 0))) as H.
    { intro H. apply is_leap_spec in H. congruence. }
    cbv zeta. replace (y + 1 - 1) with y by lia.
    Z.div_mod_to_equations. lia.
Qed.

Lemma ymd2ord_next_day d :
  valid_month_day d = true -> ymd2ord (next_day d) = ymd2ord d + 1.
Proof.
  destruct d as [y m dd]. unfold valid_month_day, next_day, ymd2ord. simpl.
  rewrite !andb_true_iff, !Z.leb_le. intros [[[H1 H2] H3] H4].
  assert (m = 1 \/ m = 2 \/ m = 3 \/ m = 4 \/ m = 5 \/ m = 6 \/ m = 7 \/ m = 8
          \/ m = 9 \/ m = 10 \/ m = 11 \/ m = 12) as Hm by lia.
  destruct (dd <? days_in_month y m) eqn:E.
  - simpl. lia.
  - apply Z.ltb_ge in E.
    assert (dd = days_in_month y m) as -> by lia. clear E H3 H4.
    repeat (destruct Hm as [-> | Hm]); try subst m;
      unfold days_in_month, days_before_month; simpl;
      try rewrite days_before_year_succ;
      destruct (is_leap y); simpl; lia.
Qed.

Lemma days_in_month_pos y m : 28 <= days_in_month y m <= 31.
Proof.
  unfold days_in_month.
  destruct (m =? 2); [destruct (is_leap y); lia|].
  destruct ((m =? 4) || (m =? 6) || (m =? 9) || (m =? 11)); lia.
Qed.

Lemma next_day_valid d :
  valid_month_day d = true -> valid_month_day (next_day d) = true.
Proof.
  destruct d as [y m dd]. unfold valid_month_day, next_day. simpl.
  rewrite !andb_true_iff, !Z.leb_le. intros [[[H1 H2] H3] H4].
  destruct (dd <? days_in_month y m) eqn:E.
  - apply Z.ltb_lt in E. cbn [year month day]. lia.
  - destruct (m <? 12) eqn:E2; cbn [year month day].
    + apply Z.ltb_lt in E2. pose proof (days_in_month_pos y (m + 1)). lia.
    + pose proof (days_in_month_pos (y + 1) 1). lia.
Qed.

(** A date reached from the epoch in [n] days has ordinal [n] past the
    epoch's. *)
Lemma days_since_epoch_ordinal n d :
  days_since_epoch n d ->
  valid_month_day d = true /\ ymd2ord d - ymd2ord epoch = n.
Proof.
  induction 1 as [| n d _ [V IH] | n d V _ [_ IH]].
  - split; reflexivity.
  - split; [apply next_day_valid, V|]. rewrite ymd2ord_next_day by exact V. lia.
  - split; [exact V|]. rewrite ymd2ord_next_day in IH by exact V. lia.
Qed.

(** *** The timestamp where the offset does not change *)

Lemma days_before_year_le y y' : y <= y' -> days_before_year y <= days_before_year y'.
Proof. unfold days_before_year. intros H. cbv zeta. Z.div_mod_to_equations. lia. Qed.

(** The ordinals of the dates of the calendar. *)
Lemma valid_date_ordinal d : valid_date d = true -> 1 <= ymd2ord d <= max_ordinal.
Proof.
  destruct d as [y m dd]. unfold valid_date, valid_month_day, ymd2ord, max_ordinal.
  cbn [year month day]. rewrite !andb_true_iff, !Z.leb_le.
  intros [[Y1 Y2] [[[M1 M2] D1] D2]].
  pose proof (days_before_year_le 1 y Y1) as L1.
  pose proof (days_before_year_le (y + 1) 10000 ltac:(lia)) as L2.
  rewrite days_before_year_succ in L2.
  change (days_before_year 1) with 0 in L1.
  change (days_before_year 10000) with 3652059 in L2.
  assert (m = 1 \/ m = 2 \/ m = 3 \/ m = 4 \/ m = 5 \/ m = 6 \/ m = 7 \/ m = 8
          \/ m = 9 \/ m = 10 \/ m = 11 \/ m = 12) as Hm by lia.
  repeat (destruct Hm as [-> | Hm]); try subst m;
    unfold days_in_month, days_before_month in *; simpl in D2 |- *;
    destruct (is_leap y); simpl in D2 |- *; lia.
Qed.

(** Where the offset of the zone is [o] from two days before the date
    to one day after it, the instant found is the midnight of the date
    less [o].  The first day of the calendar is left out: see
    [timestamp_first_day]. *)
Lemma timestamp_stable zone d n o :
  valid_date d = true -> days_since_epoch n d ->
  - 719162 < n -> - 86400 < o < 86400 ->
  (forall u, (n - 2) * 86400 <= u <= (n + 1) * 86400 -> zone u = o) ->
  timestamp zone d = Return (n * 86400 - o).
Proof.
  intros V Hn First Ho Hz.
  pose proof (valid_date_ordinal d V) as R. unfold max_ordinal in R.
  apply days_since_epoch_ordinal in Hn. destruct Hn as [_ Hn].
  change (ymd2ord epoch) with 719163 in Hn.
  assert (ymd2ord d = n + 719163) as E by lia. clear Hn.
  unfold timestamp, local_to_seconds, utc_to_seconds.
  unfold valid_date in V. rewrite !andb_true_iff, !Z.leb_le in V.
  destruct V as [[Y1 Y2] _].
  destruct (Z.ltb_spec (year d) 1); [lia|].
  destruct (Z.ltb_spec 9999 (year d)); [lia|]. cbn [orb bind].
  rewrite E.
  replace ((((n + 719163) * 24 + 0) * 60 + 0) * 60 + 0)
    with ((n + 719163) * 86400) by lia.
  assert (forall k, - 2 * 86400 <= k <= 86400 ->
            local zone ((n + 719163) * 86400 + k)
            = if ((n + 719163) * 86400 + k + o) / 86400 <? 1
              then Raise ValueError
              else if max_ordinal <? ((n + 719163) * 86400 + k + o) / 86400
                   then Raise ValueError
                   else Return ((n + 719163) * 86400 + k + o)) as L.
  { intros k Hk. unfold local, epoch_seconds.
    rewrite (Hz ((n + 719163) * 86400 + k - 719163 * 24 * 60 * 60)) by lia.
    destruct (_ <? 1); [reflexivity|]. destruct (max_ordinal <? _); reflexivity. }
  assert (forall k, - 2 * 86400 <= k <= 86400 -> - 86400 <= k + o < 86400 ->
            local zone ((n + 719163) * 86400 + k)
            = Return ((n + 719163) * 86400 + k + o)) as L'.
  { intros k Hk Hko. rewrite (L k Hk). unfold max_ordinal.
    destruct (Z.ltb_spec (((n + 719163) * 86400 + k + o) / 86400) 1) as [B|B].
    { exfalso. revert B. Z.div_mod_to_equations. lia. }
    destruct (Z.ltb_spec 3652059 (((n + 719163) * 86400 + k + o) / 86400)) as [C|C].
    { exfalso. revert C. Z.div_mod_to_equations. lia. }
    reflexivity. }
  pose proof (L' 0 ltac:(lia) ltac:(lia)) as L0.
  rewrite Z.add_0_r in L0. rewrite L0. cbn [bind].
  replace ((n + 719163) * 86400 - ((n + 719163) * 86400 + o - (n + 719163) * 86400))
    with ((n + 719163) * 86400 + (- o)) by lia.
  rewrite (L' (- o)) by lia. cbn [bind].
  replace ((n + 719163) * 86400 + - o + o) with ((n + 719163) * 86400) by lia.
  rewrite Z.eqb_refl. unfold max_fold_seconds.
  replace ((n + 719163) * 86400 + - o - 24 * 3600)
    with ((n + 719163) * 86400 + (- o - 86400)) by lia.
  rewrite (L' (- o - 86400)) by lia. cbn [bind].
  replace ((n + 719163) * 86400 + o - (n + 719163) * 86400) with o by lia.
  replace ((n + 719163) * 86400 + (- o - 86400) + o
           - ((n + 719163) * 86400 + (- o - 86400))) with o by lia.
  rewrite Z.eqb_refl. cbn [bind]. f_equal. unfold epoch_seconds. lia.
Qed.

(** The timestamp of 0001-01-01 is asked for in vain in a zone of constant
    offset: a local time of the year 0 comes up on the way. *)
Lemma timestamp_first_day o :
  - 86400 < o < 86400 -> timestamp (fun _ => o) (mkdate 1 1 1) = Raise ValueError.
Proof.
  intros Ho. unfold timestamp, local_to_seconds.
  change (utc_to_seconds (mkdate 1 1 1) 0 0 0) with (@Return Z 86400).
  cbn [bind].
  assert (forall u, local (fun _ => o) u
                    = if ((u + o) / 86400 <? 1) || (max_ordinal <? (u + o) / 86400)
                      then Raise ValueError else Return (u + o)) as L
    by reflexivity.
  rewrite (L 86400). unfold max_ordinal.
  destruct (Z.ltb_spec ((86400 + o) / 86400) 1) as [B|B]; [reflexivity|].
  destruct (Z.ltb_spec 3652059 ((86400 + o) / 86400)) as [C|C]; [reflexivity|].
  cbn [orb bind].
  assert (0 <= o) as P by (revert B; Z.div_mod_to_equations; lia).
  replace (86400 - (86400 + o - 86400)) with (86400 - o) by lia.
  rewrite (L (86400 - o)).
  replace (86400 - o + o) with 86400 by lia.
  change (86400 / 86400) with 1. unfold max_ordinal.
  cbn [Z.ltb Z.compare Pos.compare Pos.compare_cont orb bind Z.eqb Pos.eqb].
  rewrite (L (86400 - o - max_fold_seconds)). unfold max_fold_seconds.
  destruct (Z.ltb_spec ((86400 - o - 24 * 3600 + o) / 86400) 1) as [D|D];
    [reflexivity|].
  exfalso. revert D. Z.div_mod_to_equations. lia.
Qed.

End Calendar.

(** ** Bytes *)

Module Bytes.

Open Scope Z_scope.

(** Python [bytes] are lists of octets. *)
Definition bytes : Type := list ascii.

Definition Z_of_byte (c : ascii) : Z := Z.of_N (N_of_ascii c).
Definition byte_of_Z (z : Z) : ascii := ascii_of_N (Z.to_N (z mod 256)).

(** [s.encode('utf-8')] and [b.decode('utf-8')]: a [str] is held as its
    UTF-8 octets. *)
Definition encode_utf8 (s : string) : bytes := list_ascii_of_string s.
Definition decode_utf8 (b : bytes) : string := string_of_list_ascii b.

Definition between (lo hi : Z) (c : ascii) : bool :=
  (lo <=? Z_of_byte c) && (Z_of_byte c <=? hi).

(** The octet strings that [b.decode('utf-8')] accepts: well-formed UTF-8,
    shortest forms only, no surrogates, nothing above U+10FFFF.  Only such
    an octet string stands for a [str]. *)
Fixpoint valid_utf8 (b : bytes) : bool :=
  match b with
  | [] => true
  | a :: r =>
      if between 0 127 a then valid_utf8 r
      else if between 194 223 a then
        match r with
        | c1 :: r1 => between 128 191 c1 && valid_utf8 r1
        | _ => false
        end
      else if between 224 239 a then
        match r with
        | c1 :: c2 :: r2 =>
            between (if Z_of_byte a =? 224 then 160 else 128)
                    (if Z_of_byte a =? 237 then 159 else 191) c1
            && between 128 191 c2 && valid_utf8 r2
        | _ => false
        end
      else if between 240 244 a then
        match r with
        | c1 :: c2 :: c3 :: r3 =>
            between (if Z_of_byte a =? 240 then 144 else 128)
                    (if Z_of_byte a =? 244 then 143 else 191) c1
            && between 128 191 c2 && between 128 191 c3 && valid_utf8 r3
        | _ => false
        end
      else false
  end.

(** The strings that stand for a [str]. *)
Definition text (s : string) : bool := valid_utf8 (encode_utf8 s).

(** [int.from_bytes(b, 'big')]. *)
Definition from_bytes_big (b : bytes) : Z :=
  fold_left (fun acc c => acc * 256 + Z_of_byte c) b 0.

(** [n.to_bytes(length, 'big')] for [0 <= n]: the [length] low-order octets
    of [n], most significant first.  Python raises [OverflowError] when [n]
    does not fit or is negative. *)
Fixpoint to_bytes_big_aux (length : nat) (n : Z) (acc : bytes) : bytes :=
  match length with
  | O => acc
  | S k => to_bytes_big_aux k (n / 256) (byte_of_Z n :: acc)
  end.

Definition to_bytes_big (n : Z) (length : Z) : outcome bytes :=
  if (n <? 0) || (2 ^ (8 * length) <=? n) then Raise OverflowError
  else Return (to_bytes_big_aux (Z.to_nat length) n []).

(** [n.bit_length()] for [0 <= n]. *)
Definition bit_length (n : Z) : Z :=
  if n =? 0 then 0 else Z.log2 (Z.abs n) + 1.

Lemma Z_of_byte_range c : 0 <= Z_of_byte c < 256.
Proof.
  unfold Z_of_byte. pose proof (N_ascii_bounded c) as H. lia.
Qed.

Lemma byte_of_Z_of_byte c : byte_of_Z (Z_of_byte c) = c.
Proof.
  unfold byte_of_Z. rewrite Z.mod_small by apply Z_of_byte_range.
  unfold Z_of_byte. rewrite N2Z.id. apply ascii_N_embedding.
Qed.

Lemma Z_of_byte_of_Z z : 0 <= z < 256 -> Z_of_byte (byte_of_Z z) = z.
Proof.
  intros H. unfold Z_of_byte, byte_of_Z. rewrite Z.mod_small by lia.
  rewrite N_ascii_embedding by lia. lia.
Qed.

Lemma lor_shiftl_small a b n :
  0 <= n -> 0 <= b < 2 ^ n -> Z.lor (Z.shiftl a n) b = a * 2 ^ n + b.
Proof.
  intros Hn Hb.
  assert (Z.land (Z.shiftl a n) b = 0) as H0.
  { apply Z.bits_inj'. intros i Hi. rewrite Z.land_spec, Z.bits_0.
    destruct (Z.ltb_spec i n).
    - rewrite Z.shiftl_spec_low by lia. reflexivity.
    - rewrite andb_comm.
      destruct (Z.eq_dec b 0) as [-> | Hne]; [now rewrite Z.bits_0|].
      rewrite (Z.bits_above_log2 b i); [reflexivity | lia |].
      apply Z.log2_lt_pow2; try lia.
      apply Z.lt_le_trans with (2 ^ n); [lia|].
      apply Z.pow_le_mono_r; lia. }
  pose proof (Z.add_lor_land (Z.shiftl a n) b) as E.
  rewrite H0 in E. rewrite Z.shiftl_mul_pow2 in * by lia. lia.
Qed.

End Bytes.

Export Bytes.

(** ** [hashlib.sha256] (FIPS 180-4) *)

Module Sha256.

Open Scope Z_scope.

Definition mask32 : Z := 4294967295.
Definition add32 (a b : Z) : Z := Z.land (a + b) mask32.
Definition rotr (n x : Z) : Z :=
  Z.land (Z.lor (Z.shiftr x n) (Z.shiftl x (32 - n))) mask32.
Definition not32 (x : Z) : Z := Z.lxor x mask32.

Definition Ch (x y z : Z) : Z := Z.lxor (Z.land x y) (Z.land (not32 x) z).
Definition Maj (x y z : Z) : Z :=
  Z.lxor (Z.lxor (Z.land x y) (Z.land x z)) (Z.land y z).
Definition Sigma0 (x : Z) : Z := Z.lxor (Z.lxor (rotr 2 x) (rotr 13 x)) (rotr 22 x).
Definition Sigma1 (x : Z) : Z := Z.lxor (Z.lxor (rotr 6 x) (rotr 11 x)) (rotr 25 x).
Definition sigma0 (x : Z) : Z := Z.lxor (Z.lxor (rotr 7 x) (rotr 18 x)) (Z.shiftr x 3).
Definition sigma1 (x : Z) : Z := Z.lxor (Z.lxor (rotr 17 x) (rotr 19 x)) (Z.shiftr x 10).

(** The round constants are the first thirty-two bits of the fractional
    parts of the cube roots of the first sixty-four primes, the initial
    hash value those of the square roots of the first eight. *)
Definition is_prime (n : Z) : bool :=
  (2 <=? n)
  && forallb (fun d => (n <? d * d) || negb (n mod d =? 0))
       (map Z.of_nat (seq 2 (Z.to_nat (Z.sqrt n)))).

Definition primes (count : nat) : list Z :=
  firstn count (filter is_prime (map Z.of_nat (seq 2 310))).

(** The integer cube root, one bit at a time from bit [bits - 1] down. *)
Fixpoint cube_root_bits (bits : nat) (n r : Z) : Z :=
  match bits with
  | O => r
  | S k =>
      let r' := r + 2 ^ Z.of_nat k in
      cube_root_bits k n (if r' * r' * r' <=? n then r' else r)
  end.

Definition cube_root (n : Z) : Z := cube_root_bits 40 n 0.

Definition K256 : list Z :=
  map (fun p => Z.land (cube_root (p * 2 ^ 96)) mask32) (primes 64).

Definition H0 : list Z :=
  map (fun p => Z.land (Z.sqrt (p * 2 ^ 64)) mask32) (primes 8).

(** Padding: a one bit, zero bits up to 56 modulo 64 octets, then the
    message length in bits as a 64-bit big-endian integer. *)
Definition pad (msg : bytes) : bytes :=
  let len := Z.of_nat (List.length msg) in
  let zeros := Z.to_nat ((55 - len) mod 64) in
  msg ++ [byte_of_Z 128] ++ repeat (byte_of_Z 0) zeros
      ++ to_bytes_big_aux 8 (8 * len) [].

Fixpoint words_of (fuel : nat) (b : bytes) : list Z :=
  match fuel, b with
  | S k, b0 :: b1 :: b2 :: b3 :: r =>
      from_bytes_big [b0; b1; b2; b3] :: words_of k r
  | _, _ => []
  end.

(** The message schedule: sixteen words of the block, extended to sixty-four. *)
Fixpoint schedule (n : nat) (w : list Z) : list Z :=
  match n with
  | O => w
  | S k =>
      let t := List.length w in
      let at_ i := nth (t - i) w 0 in
      schedule k
        (w ++ [add32 (add32 (sigma1 (at_ 2%nat)) (at_ 7%nat))
                     (add32 (sigma0 (at_ 15%nat)) (at_ 16%nat))])
  end.

Definition round (s : list Z) (kw : Z * Z) : list Z :=
  match s with
  | [a; b; c; d; e; f; g; h] =>
      let t1 := add32 (add32 (add32 h (Sigma1 e)) (add32 (Ch e f g) (fst kw))) (snd kw) in
      let t2 := add32 (Sigma0 a) (Maj a b c) in
      [add32 t1 t2; a; b; c; add32 d t1; e; f; g]
  | _ => s
  end.

Definition compress (h : list Z) (block : list Z) : list Z :=
  let w := schedule 48 block in
  let s := fold_left round (combine K256 w) h in
  map (fun p => add32 (fst p) (snd p)) (combine h s).

Fixpoint blocks (fuel : nat) (w : list Z) : list (list Z) :=
  match fuel with
  | O => []
  | S k =>
      match w with
      | [] => []
      | _ => firstn 16 w :: blocks k (skipn 16 w)
      end
  end.

Definition digest (msg : bytes) : bytes :=
  let p := pad msg in
  let w := words_of (List.length p) p in
  let h := fold_left compress (blocks (List.length w) w) H0 in
  flat_map (fun x => to_bytes_big_aux 4 x []) h.

(** [hexdigest()]: two lower-case hexadecimal digits per octet. *)
Definition hex_digit (n : Z) : ascii :=
  if n <? 10 then byte_of_Z (48 + n) else byte_of_Z (87 + n).

Definition hexlify (b : bytes) : string :=
  string_of_list_ascii
    (flat_map (fun c => [hex_digit (Z_of_byte c / 16); hex_digit (Z_of_byte c mod 16)]) b).

(** [int(s, 16)] on a string of hexadecimal digits. *)
Definition hex_value (c : ascii) : option Z :=
  let n := Z_of_byte c in
  if (48 <=? n) && (n <=? 57) then Some (n - 48)
  else if (97 <=? n) && (n <=? 102) then Some (n - 87)
  else if (65 <=? n) && (n <=? 70) then Some (n - 55)
  else None.

Fixpoint int16_aux (l : list ascii) (acc : Z) : outcome Z :=
  match l with
  | [] => Return acc
  | c :: r =>
      match hex_value c with
      | Some v => int16_aux r (16 * acc + v)
      | None => Raise ValueError
      end
  end.

Definition int16 (s : string) : outcome Z :=
  match s with
  | EmptyString => Raise ValueError
  | _ => int16_aux (list_ascii_of_string s) 0
  end.

(** A hash object: the octets fed to it so far.  [hashlib.sha256()] starts
    with none. *)
Definition sha256 : bytes := [].
Definition hexdigest (hash_object : bytes) : string := hexlify (digest hash_object).

End Sha256.

(** ** [base64] and [binascii] *)

Module Base64.

Open Scope Z_scope.

Definition pad_char : ascii := "="%char.

(** The standard alphabet, [table_b2a_base64]. *)
Definition b2a_char (n : Z) : ascii :=
  if n <? 26 then byte_of_Z (65 + n)
  else if n <? 52 then byte_of_Z (71 + n)
  else if n <? 62 then byte_of_Z (n - 4)
  else if n =? 62 then "+"%char
  else "/"%char.

(** Its inverse, [table_a2b_base64]; [None] for an octet outside the
    alphabet. *)
Definition a2b_char (c : ascii) : option Z :=
  let n := Z_of_byte c in
  if (65 <=? n) && (n <=? 90) then Some (n - 65)
  else if (97 <=? n) && (n <=? 122) then Some (n - 71)
  else if (48 <=? n) && (n <=? 57) then Some (n + 4)
  else if n =? 43 then Some 62
  else if n =? 47 then Some 63
  else None.

(** [binascii.b2a_base64(data, newline=False)], three octets at a time. *)
Fixpoint b2a_base64 (data : bytes) : list ascii :=
  match data with
  | [] => []
  | [x] =>
      let x := Z_of_byte x in
      [b2a_char (Z.shiftr x 2); b2a_char (Z.shiftl (Z.land x 3) 4);
       pad_char; pad_char]
  | [x; y] =>
      let x := Z_of_byte x in
      let y := Z_of_byte y in
      [b2a_char (Z.shiftr x 2);
       b2a_char (Z.lor (Z.shiftl (Z.land x 3) 4) (Z.shiftr y 4));
       b2a_char (Z.shiftl (Z.land y 15) 2); pad_char]
  | x :: y :: z :: rest =>
      let x := Z_of_byte x in
      let y := Z_of_byte y in
      let z := Z_of_byte z in
      b2a_char (Z.shiftr x 2)
      :: b2a_char (Z.lor (Z.shiftl (Z.land x 3) 4) (Z.shiftr y 4))
      :: b2a_char (Z.lor (Z.shiftl (Z.land y 15) 2) (Z.shiftr z 6))
      :: b2a_char (Z.land z 63)
      :: b2a_base64 rest
  end.

Definition emit (b : Z) (m : outcome bytes) : outcome bytes :=
  r <- m ;; Return (byte_of_Z b :: r).

(** [binascii.a2b_base64(data)] with [strict_mode=False]: octets outside
    the alphabet are skipped; a pad that completes a quad ends the input;
    input that ends inside a quad is an error.  [quad_pos] counts the
    sextets read in the current quad, [leftchar] holds the bits not yet
    written, [pads] the pads seen since the last sextet. *)
Fixpoint a2b_base64 (data : list ascii) (quad_pos leftchar pads : Z) : outcome bytes :=
  match data with
  | [] => if quad_pos =? 0 then Return [] else Raise binascii_Error
  | c :: rest =>
      if Ascii.eqb c pad_char then
        if 2 <=? quad_pos then
          if 4 <=? quad_pos + (pads + 1) then Return []
          else a2b_base64 rest quad_pos leftchar (pads + 1)
        else a2b_base64 rest quad_pos leftchar pads
      else
        match a2b_char c with
        | None => a2b_base64 rest quad_pos leftchar pads
        | Some v =>
            if quad_pos =? 0 then a2b_base64 rest 1 v 0
            else if quad_pos =? 1 then
              emit (Z.lor (Z.shiftl leftchar 2) (Z.shiftr v 4))
                   (a2b_base64 rest 2 (Z.land v 15) 0)
            else if quad_pos =? 2 then
              emit (Z.lor (Z.shiftl leftchar 4) (Z.shiftr v 2))
                   (a2b_base64 rest 3 (Z.land v 3) 0)
            else
              emit (Z.lor (Z.shiftl leftchar 6) v) (a2b_base64 rest 0 0 0)
        end
  end.

(** [base64.b64encode] and [base64.b64decode] (default arguments). *)
Definition b64encode (s : bytes) : bytes := b2a_base64 s.
Definition b64decode (s : bytes) : outcome bytes := a2b_base64 s 0 0 0.

(** The URL-safe alphabet replaces [+] and [/] by [-] and [_]. *)
Definition urlsafe_encode_translation (c : ascii) : ascii :=
  if Ascii.eqb c "+"%char then "-"%char
  else if Ascii.eqb c "/"%char then "_"%char else c.

Definition urlsafe_decode_translation (c : ascii) : ascii :=
  if Ascii.eqb c "-"%char then "+"%char
  else if Ascii.eqb c "_"%char then "/"%char else c.

Definition urlsafe_b64encode (s : bytes) : bytes :=
  map urlsafe_encode_translation (b64encode s).

(** [base64.urlsafe_b64decode] on [bytes]. *)
Definition urlsafe_b64decode (s : bytes) : outcome bytes :=
  b64decode (map urlsafe_decode_translation s).

(** The same on a [str]: it must consist of ASCII characters. *)
Definition is_ascii (c : ascii) : bool := Z_of_byte c <? 128.

Definition urlsafe_b64decode_str (s : string) : outcome bytes :=
  let b := list_ascii_of_string s in
  if forallb is_ascii b then urlsafe_b64decode b else Raise ValueError.



(** *** Octets and sextets *)

Lemma a2b_b2a_char n : 0 <= n < 64 -> a2b_char (b2a_char n) = Some n.
Proof.
  intros H. unfold b2a_char.
  destruct (Z.ltb_spec n 26); [|destruct (Z.ltb_spec n 52);
    [|destruct (Z.ltb_spec n 62); [|destruct (Z.eqb_spec n 62)]]];
    unfold a2b_char; cbv zeta.
  - rewrite Z_of_byte_of_Z by lia.
    replace ((65 <=? 65 + n) && (65 + n <=? 90)) with true by lia. f_equal; lia.
  - rewrite Z_of_byte_of_Z by lia.
    replace ((65 <=? 71 + n) && (71 + n <=? 90)) with false by lia.
    replace ((97 <=? 71 + n) && (71 + n <=? 122)) with true by lia. f_equal; lia.
  - rewrite Z_of_byte_of_Z by lia.
    replace ((65 <=? n - 4) && (n - 4 <=? 90)) with false by lia.
    replace ((97 <=? n - 4) && (n - 4 <=? 122)) with false by lia.
    replace ((48 <=? n - 4) && (n - 4 <=? 57)) with true by lia. f_equal; lia.
  - subst n. reflexivity.
  - assert (n = 63) as -> by lia. reflexivity.
Qed.

Lemma b2a_char_not_pad n : 0 <= n < 64 -> Ascii.eqb (b2a_char n) pad_char = false.
Proof.
  intros H. apply Ascii.eqb_neq. intros E.
  pose proof (a2b_b2a_char n H) as A. rewrite E in A. discriminate A.
Qed.

(** A sextet of the encoder, read back by the decoder in each position of
    a quad, and the pads that end the input. *)
Lemma a2b_base64_sextet0 n rest l p :
  0 <= n < 64 -> a2b_base64 (b2a_char n :: rest) 0 l p = a2b_base64 rest 1 n 0.
Proof.
  intros H. cbn [a2b_base64].
  rewrite b2a_char_not_pad, a2b_b2a_char by assumption. reflexivity.
Qed.

Lemma a2b_base64_sextet1 n rest l p :
  0 <= n < 64 ->
  a2b_base64 (b2a_char n :: rest) 1 l p =
  emit (Z.lor (Z.shiftl l 2) (Z.shiftr n 4)) (a2b_base64 rest 2 (Z.land n 15) 0).
Proof.
  intros H. cbn [a2b_base64].
  rewrite b2a_char_not_pad, a2b_b2a_char by assumption. reflexivity.
Qed.

Lemma a2b_base64_sextet2 n rest l p :
  0 <= n < 64 ->
  a2b_base64 (b2a_char n :: rest) 2 l p =
  emit (Z.lor (Z.shiftl l 4) (Z.shiftr n 2)) (a2b_base64 rest 3 (Z.land n 3) 0).
Proof.
  intros H. cbn [a2b_base64].
  rewrite b2a_char_not_pad, a2b_b2a_char by assumption. reflexivity.
Qed.

Lemma a2b_base64_sextet3 n rest l p :
  0 <= n < 64 ->
  a2b_base64 (b2a_char n :: rest) 3 l p =
  emit (Z.lor (Z.shiftl l 6) n) (a2b_base64 rest 0 0 0).
Proof.
  intros H. cbn [a2b_base64].
  rewrite b2a_char_not_pad, a2b_b2a_char by assumption. reflexivity.
Qed.

Lemma a2b_base64_pad_pad rest l :
  a2b_base64 (pad_char :: pad_char :: rest) 2 l 0 = Return [].
Proof. reflexivity. Qed.

Lemma a2b_base64_pad rest l : a2b_base64 (pad_char :: rest) 3 l 0 = Return [].
Proof. reflexivity. Qed.

Ltac sextet_bounds :=
  repeat match goal with
  | c : ascii |- _ =>
      lazymatch goal with
      | _ : 0 <= Z_of_byte c < 256 |- _ => fail
      | _ => pose proof (Z_of_byte_range c)
      end
  end.

Ltac bits_to_arith :=
  change 3 with (Z.ones 2) in *; change 15 with (Z.ones 4) in *;
  change 63 with (Z.ones 6) in *;
  rewrite ?Z.land_ones, ?Z.shiftr_div_pow2, ?Z.shiftl_mul_pow2 by lia;
  change (2 ^ 2) with 4 in *; change (2 ^ 4) with 16 in *;
  change (2 ^ 6) with 64 in *.

Lemma sextet1 x : 0 <= x < 256 -> 0 <= Z.shiftr x 2 < 64.
Proof. intros. bits_to_arith. Z.div_mod_to_equations. lia. Qed.

Lemma sextet2 x y :
  0 <= x < 256 -> 0 <= y < 256 ->
  Z.lor (Z.shiftl (Z.land x 3) 4) (Z.shiftr y 4) = (x mod 4) * 16 + y / 16.
Proof.
  intros. rewrite lor_shiftl_small; bits_to_arith; try lia.
  Z.div_mod_to_equations. lia.
Qed.

Lemma sextet3 y z :
  0 <= y < 256 -> 0 <= z < 256 ->
  Z.lor (Z.shiftl (Z.land y 15) 2) (Z.shiftr z 6) = (y mod 16) * 4 + z / 64.
Proof.
  intros. rewrite lor_shiftl_small; bits_to_arith; try lia.
  Z.div_mod_to_equations. lia.
Qed.

Lemma octet1 x y :
  0 <= x < 256 -> 0 <= y < 256 ->
  Z.lor (Z.shiftl (x / 4) 2) (Z.shiftr ((x mod 4) * 16 + y / 16) 4) = x.
Proof.
  intros. rewrite lor_shiftl_small; bits_to_arith; try lia;
  Z.div_mod_to_equations; lia.
Qed.

Lemma octet2 x y z :
  0 <= x < 256 -> 0 <= y < 256 -> 0 <= z < 256 ->
  Z.lor (Z.shiftl (Z.land ((x mod 4) * 16 + y / 16) 15) 4)
        (Z.shiftr ((y mod 16) * 4 + z / 64) 2) = y.
Proof.
  intros. rewrite lor_shiftl_small; bits_to_arith; try lia;
  Z.div_mod_to_equations; lia.
Qed.

Lemma octet3 y z :
  0 <= y < 256 -> 0 <= z < 256 ->
  Z.lor (Z.shiftl (Z.land ((y mod 16) * 4 + z / 64) 3) 6) (z mod 64) = z.
Proof.
  intros. rewrite lor_shiftl_small; bits_to_arith; try lia;
  Z.div_mod_to_equations; lia.
Qed.

Lemma bytes_ind3 (P : bytes -> Prop) :
  P [] -> (forall x, P [x]) -> (forall x y, P [x; y]) ->
  (forall x y z r, P r -> P (x :: y :: z :: r)) ->
  forall b, P b.
Proof.
  intros H0 H1 H2 H3.
  fix IH 1. intros [|x [|y [|z r]]].
  - exact H0.
  - apply H1.
  - apply H2.
  - apply H3. apply IH.
Qed.

(** Decoding what [b64encode] produced gives the octets back. *)
Lemma b64decode_b64encode b : b64decode (b64encode b) = Return b.
Proof.
  unfold b64decode, b64encode.
  induction b as [| x | x y | x y z r IH] using bytes_ind3.
  - reflexivity.
  - sextet_bounds. cbn [b2a_base64].
    assert (Z.shiftl (Z.land (Z_of_byte x) 3) 4 = (Z_of_byte x mod 4) * 16 + 0 / 16) as E.
    { bits_to_arith. Z.div_mod_to_equations. lia. }
    rewrite E.
    rewrite a2b_base64_sextet0 by (apply sextet1; assumption).
    rewrite a2b_base64_sextet1 by (Z.div_mod_to_equations; lia).
    rewrite a2b_base64_pad_pad. unfold emit, bind.
    rewrite (Z.shiftr_div_pow2 (Z_of_byte x)) by lia. change (2 ^ 2) with 4.
    rewrite octet1 by lia. rewrite byte_of_Z_of_byte. reflexivity.
  - sextet_bounds. cbn [b2a_base64].
    assert (Z.shiftl (Z.land (Z_of_byte y) 15) 2 = (Z_of_byte y mod 16) * 4 + 0 / 64) as E.
    { bits_to_arith. Z.div_mod_to_equations. lia. }
    rewrite E, sextet2 by assumption.
    rewrite a2b_base64_sextet0 by (apply sextet1; assumption).
    rewrite a2b_base64_sextet1 by (Z.div_mod_to_equations; lia).
    rewrite a2b_base64_sextet2 by (Z.div_mod_to_equations; lia).
    rewrite a2b_base64_pad. unfold emit, bind.
    rewrite (Z.shiftr_div_pow2 (Z_of_byte x)) by lia. change (2 ^ 2) with 4.
    rewrite octet1, octet2 by lia. rewrite !byte_of_Z_of_byte. reflexivity.
  - sextet_bounds. cbn [b2a_base64].
    rewrite sextet2, sextet3 by assumption.
    replace (Z.land (Z_of_byte z) 63) with (Z_of_byte z mod 64)
      by (bits_to_arith; reflexivity).
    rewrite a2b_base64_sextet0 by (apply sextet1; assumption).
    rewrite a2b_base64_sextet1 by (Z.div_mod_to_equations; lia).
    rewrite a2b_base64_sextet2 by (Z.div_mod_to_equations; lia).
    rewrite a2b_base64_sextet3 by (Z.div_mod_to_equations; lia).
    rewrite IH. unfold emit, bind.
    rewrite (Z.shiftr_div_pow2 (Z_of_byte x)) by lia. change (2 ^ 2) with 4.
    rewrite octet1, octet2, octet3 by lia. rewrite !byte_of_Z_of_byte. reflexivity.
Qed.

(** *** The URL-safe alphabet *)

Definition urlsafe_char_ok (n : Z) : bool :=
  let c := b2a_char n in
  is_ascii (urlsafe_encode_translation c)
  && Ascii.eqb (urlsafe_decode_translation (urlsafe_encode_translation c)) c.

Lemma urlsafe_char_ok_all n : 0 <= n < 64 -> urlsafe_char_ok n = true.
Proof.
  intros H.
  assert (forallb urlsafe_char_ok (map Z.of_nat (seq 0 64)) = true) as A
    by (vm_compute; reflexivity).
  rewrite forallb_forall in A. apply A.
  apply in_map_iff. exists (Z.to_nat n). split; [lia|].
  apply in_seq. lia.
Qed.

Inductive base64_char : ascii -> Prop :=
| bc_pad : base64_char pad_char
| bc_sextet n : 0 <= n < 64 -> base64_char (b2a_char n).

Lemma b2a_base64_chars b : Forall base64_char (b2a_base64 b).
Proof.
  induction b as [| x | x y | x y z r IH] using bytes_ind3;
    cbn [b2a_base64]; sextet_bounds;
    rewrite ?sextet2, ?sextet3 by assumption;
    repeat apply Forall_cons; try apply Forall_nil; try exact IH;
    try apply bc_pad; apply bc_sextet; bits_to_arith;
    Z.div_mod_to_equations; lia.
Qed.

Lemma urlsafe_translation_inverse c :
  base64_char c ->
  urlsafe_decode_translation (urlsafe_encode_translation c) = c
  /\ is_ascii (urlsafe_encode_translation c) = true.
Proof.
  intros [|n H]; [split; reflexivity|].
  pose proof (urlsafe_char_ok_all n H) as A. unfold urlsafe_char_ok in A.
  apply andb_true_iff in A. destruct A as [A1 A2].
  apply Ascii.eqb_eq in A2. split; assumption.
Qed.

Lemma urlsafe_b64decode_b64encode b :
  urlsafe_b64decode (urlsafe_b64encode b) = Return b.
Proof.
  unfold urlsafe_b64decode, urlsafe_b64encode.
  rewrite map_map.
  assert (map (fun c => urlsafe_decode_translation (urlsafe_encode_translation c))
              (b64encode b) = b64encode b) as E.
  { pose proof (b2a_base64_chars b) as F. unfold b64encode.
    induction F as [|c l Hc F IH]; [reflexivity|].
    cbn [map]. rewrite IH. f_equal. apply urlsafe_translation_inverse, Hc. }
  rewrite E. apply b64decode_b64encode.
Qed.

Lemma urlsafe_b64encode_ascii b : forallb is_ascii (urlsafe_b64encode b) = true.
Proof.
  unfold urlsafe_b64encode, b64encode. apply forallb_forall. intros c Hc.
  apply in_map_iff in Hc. destruct Hc as [c' [<- Hc']].
  pose proof (b2a_base64_chars b) as F. rewrite Forall_forall in F.
  apply urlsafe_translation_inverse, F, Hc'.
Qed.

(** The text form of an encoded value decodes to the octets that were
    encoded. *)
Lemma urlsafe_b64decode_str_b64encode b :
  urlsafe_b64decode_str (decode_utf8 (urlsafe_b64encode b)) = Return b.
Proof.
  unfold urlsafe_b64decode_str, decode_utf8.
  rewrite list_ascii_of_string_of_list_ascii, urlsafe_b64encode_ascii.
  apply urlsafe_b64decode_b64encode.
Qed.

(** *** The decoder raises or returns *)

Lemma untyped_a2b_base64 s : forall q l p, untyped (a2b_base64 s q l p).
Proof.
  induction s as [|c s IH]; intros q l p; cbn [a2b_base64];
    unfold emit; repeat (untyped_step || apply IH).
Qed.

Lemma untyped_urlsafe_b64decode_str s : untyped (urlsafe_b64decode_str s).
Proof.
  unfold urlsafe_b64decode_str, urlsafe_b64decode, b64decode.
  repeat (untyped_step || apply untyped_a2b_base64).
Qed.

Lemma untyped_urlsafe_b64decode b : untyped (urlsafe_b64decode b).
Proof. unfold urlsafe_b64decode, b64decode. apply untyped_a2b_base64. Qed.

End Base64.


(** ** [cbor2]: CBOR data items *)

Module Cbor.

Open Scope Z_scope.

(** The Python objects [cbor2] encodes and decodes. *)
Inductive cbor : Type :=
| CInt (z : Z)
| CBytes (b : bytes)
| CText (s : string)
| CArray (l : list cbor)
| CMap (m : list (cbor * cbor))
| CTag (tag : Z) (value : cbor)
| CBool (b : bool)
| CNull
| CUndefined
| CSimple (n : Z)
| CFloat (raw : bytes).

Section CborInduction.
Variable P : cbor -> Prop.
Hypothesis HInt : forall z, P (CInt z).
Hypothesis HBytes : forall b, P (CBytes b).
Hypothesis HText : forall s, P (CText s).
Hypothesis HArray : forall l, Forall P l -> P (CArray l).
Hypothesis HMap :
  forall m, Forall (fun kv => P (fst kv) /\ P (snd kv)) m -> P (CMap m).
Hypothesis HTag : forall t v, P v -> P (CTag t v).
Hypothesis HBool : forall b, P (CBool b).
Hypothesis HNull : P CNull.
Hypothesis HUndefined : P CUndefined.
Hypothesis HSimple : forall n, P (CSimple n).
Hypothesis HFloat : forall raw, P (CFloat raw).

Fixpoint cbor_nested_ind (v : cbor) : P v :=
  match v with
  | CInt z => HInt z
  | CBytes b => HBytes b
  | CText s => HText s
  | CArray l =>
      HArray l
        ((fix go (l : list cbor) : Forall P l :=
            match l with
            | [] => Forall_nil P
            | x :: l' => Forall_cons x (cbor_nested_ind x) (go l')
            end) l)
  | CMap m =>
      HMap m
        ((fix go (m : list (cbor * cbor))
            : Forall (fun kv => P (fst kv) /\ P (snd kv)) m :=
            match m with
            | [] => Forall_nil _
            | kv :: m' =>
                Forall_cons kv
                  (conj (cbor_nested_ind (fst kv)) (cbor_nested_ind (snd kv)))
                  (go m')
            end) m)
  | CTag t v' => HTag t v' (cbor_nested_ind v')
  | CBool b => HBool b
  | CNull => HNull
  | CUndefined => HUndefined
  | CSimple n => HSimple n
  | CFloat raw => HFloat raw
  end.
End CborInduction.

Definition bytes_eqb (a b : bytes) : bool :=
  String.eqb (string_of_list_ascii a) (string_of_list_ascii b).

(** [a == b] as [dict] keys compare: structural, with [False == 0] and
    [True == 1].  Floats are compared by their encoding. *)
Fixpoint py_eq (a b : cbor) : bool :=
  match a, b with
  | CInt x, CInt y => x =? y
  | CInt x, CBool y => x =? (if y then 1 else 0)
  | CBool x, CInt y => (if x then 1 else 0) =? y
  | CBool x, CBool y => Bool.eqb x y
  | CBytes x, CBytes y => bytes_eqb x y
  | CText x, CText y => String.eqb x y
  | CArray x, CArray y =>
      (fix all2 (x y : list cbor) : bool :=
         match x, y with
         | [], [] => true
         | u :: x', w :: y' => py_eq u w && all2 x' y'
         | _, _ => false
         end) x y
  | CMap x, CMap y =>
      (fix all2 (x y : list (cbor * cbor)) : bool :=
         match x, y with
         | [], [] => true
         | u :: x', w :: y' =>
             py_eq (fst u) (fst w) && py_eq (snd u) (snd w) && all2 x' y'
         | _, _ => false
         end) x y
  | CTag t v, CTag t' v' => (t =? t') && py_eq v v'
  | CNull, CNull => true
  | CUndefined, CUndefined => true
  | CSimple n, CSimple m => n =? m
  | CFloat r, CFloat r' => bytes_eqb r r'
  | _, _ => false
  end.

(** The [dict] a decoder builds from the pairs of a map, in order. *)
Definition dict_of_pairs (m : list (cbor * cbor)) : list (cbor * cbor) :=
  dict_update py_eq [] m.

(** *** Encoding: [cbor2.dumps] *)

Definition initial_byte (major subtype : Z) : ascii :=
  byte_of_Z (Z.lor (Z.shiftl major 5) subtype).

Definition len {A : Type} (l : list A) : Z := Z.of_nat (List.length l).

(** [encode_length]: the initial byte and the argument that follows it. *)
Definition encode_length (major length : Z) : bytes :=
  if length <? 24 then [initial_byte major length]
  else if length <? 256 then initial_byte major 24 :: to_bytes_big_aux 1 length []
  else if length <? 65536 then initial_byte major 25 :: to_bytes_big_aux 2 length []
  else if length <? 4294967296
       then initial_byte major 26 :: to_bytes_big_aux 4 length []
       else initial_byte major 27 :: to_bytes_big_aux 8 length [].

Definition bignum_length (n : Z) : Z := (bit_length n + 7) / 8.

(** An integer outside the 64-bit range is written as a bignum: tag 2 or
    3 around its big-endian octets. *)
Definition encode_int (z : Z) : bytes :=
  if (18446744073709551616 <=? z) then
    encode_length 6 2 ++ encode_length 2 (bignum_length z)
      ++ to_bytes_big_aux (Z.to_nat (bignum_length z)) z []
  else if (z <? -18446744073709551616) then
    let n := - (z + 1) in
    encode_length 6 3 ++ encode_length 2 (bignum_length n)
      ++ to_bytes_big_aux (Z.to_nat (bignum_length n)) n []
  else if 0 <=? z then encode_length 0 z
  else encode_length 1 (- (z + 1)).

Fixpoint encode (v : cbor) : bytes :=
  match v with
  | CInt z => encode_int z
  | CBytes b => encode_length 2 (len b) ++ b
  | CText s => encode_length 3 (len (encode_utf8 s)) ++ encode_utf8 s
  | CArray l => encode_length 4 (len l) ++ flat_map encode l
  | CMap m =>
      encode_length 5 (len m)
        ++ flat_map (fun kv => encode (fst kv) ++ encode (snd kv)) m
  | CTag t v' => encode_length 6 t ++ encode v'
  | CBool false => [byte_of_Z 244]
  | CBool true => [byte_of_Z 245]
  | CNull => [byte_of_Z 246]
  | CUndefined => [byte_of_Z 247]
  | CSimple n =>
      if n <? 20 then [initial_byte 7 n] else [byte_of_Z 248; byte_of_Z n]
  | CFloat raw =>
      (if len raw =? 2 then byte_of_Z 249
       else if len raw =? 4 then byte_of_Z 250 else byte_of_Z 251) :: raw
  end.

Definition two64 : Z := 18446744073709551616.

(** No key compares equal to one before it, [seen] being the keys before. *)
Fixpoint distinct_keys_from (seen : list cbor) (m : list (cbor * cbor)) : bool :=
  match m with
  | [] => true
  | kv :: m' =>
      negb (existsb (py_eq (fst kv)) seen) && distinct_keys_from (seen ++ [fst kv]) m'
  end.

Definition distinct_keys (m : list (cbor * cbor)) : bool := distinct_keys_from [] m.

(** The tags [cbor2] hands to a semantic decoder instead of returning a
    [CBORTag]: dates and times, bignums, fractions, string and value
    references, rationals, regular expressions, MIME messages, UUIDs,
    sets, network addresses and the self-description tag.  (Releases after
    5.4 add to this list; tag 1004 is left out of it, for line 115 of
    [formatter_func.py] reads the [.value] of a [CBORTag] 1004.) *)
Definition semantic_tags : list Z :=
  [0; 1; 2; 3; 4; 5; 25; 28; 29; 30; 35; 36; 37; 52; 54; 100; 256; 258; 260;
   261; 43000; 55799].

Definition has_semantic_decoder (tag : Z) : bool := existsb (Z.eqb tag) semantic_tags.

Definition scalar_key (k : cbor) : bool :=
  match k with
  | CInt _ | CBytes _ | CText _ => true
  | _ => false
  end.

(** A value is plain when [cbor2] reads its encoding back as the value
    itself: none of its tags has a semantic decoder, its text is UTF-8,
    and the keys of its maps are integers, byte strings or text. *)
Fixpoint plain (v : cbor) : bool :=
  match v with
  | CText s => text s
  | CArray l => forallb plain l
  | CMap m =>
      forallb (fun kv => plain (fst kv) && plain (snd kv)) m
      && forallb (fun kv => scalar_key (fst kv)) m
  | CTag t v' => negb (has_semantic_decoder t) && plain v'
  | _ => true
  end.

(** The values that stand for a Python object [cbor2] can write: lengths
    and tag numbers fit the 64-bit argument of an initial byte
    ([struct.error] otherwise), the keys of a [dict] are distinct, simple
    values and floats have one of their encodings. *)
Fixpoint encodable (v : cbor) : bool :=
  match v with
  | CInt z => (bignum_length z <? two64) && (bignum_length (- (z + 1)) <? two64)
  | CBytes b => len b <? two64
  | CText s => len (encode_utf8 s) <? two64
  | CArray l => (len l <? two64) && forallb encodable l
  | CMap m =>
      (len m <? two64) && distinct_keys m
      && forallb (fun kv => encodable (fst kv) && encodable (snd kv)) m
  | CTag t v' => (0 <=? t) && (t <? two64) && encodable v'
  | CBool _ | CNull | CUndefined => true
  | CSimple n => ((0 <=? n) && (n <? 20)) || ((32 <=? n) && (n <? 256))
  | CFloat raw => (len raw =? 2) || (len raw =? 4) || (len raw =? 8)
  end.

Definition dumps (v : cbor) : outcome bytes :=
  if encodable v then Return (encode v) else Raise OverflowError.

(** *** Canonical encoding: [cbor2.dumps(obj, canonical=True)]

    The canonical encoder writes the entries of every [dict] sorted by the
    encoding of their keys: a shorter encoding first, encodings of one
    length in the order of their octets ([encode_sortable_key]).  (It also
    writes a float in its shortest form; the documents encoded here hold
    none, and [canonical] leaves the octets of a float alone.) *)
Fixpoint bytes_leb (a b : bytes) : bool :=
  match a, b with
  | [], _ => true
  | _ :: _, [] => false
  | x :: a', y :: b' =>
      (Z_of_byte x <? Z_of_byte y)
      || ((Z_of_byte x =? Z_of_byte y) && bytes_leb a' b')
  end.

Definition sortable_leb (a b : bytes) : bool :=
  (len a <? len b) || ((len a =? len b) && bytes_leb a b).

Fixpoint insert_sorted (kv : cbor * cbor) (m : list (cbor * cbor))
  : list (cbor * cbor) :=
  match m with
  | [] => [kv]
  | x :: m' =>
      if sortable_leb (encode (fst kv)) (encode (fst x)) then kv :: m
      else x :: insert_sorted kv m'
  end.

(** [sorted(...)] of the entries of a [dict]. *)
Definition sorted_items (m : list (cbor * cbor)) : list (cbor * cbor) :=
  fold_right insert_sorted [] m.

(** The value whose plain encoding is the canonical encoding of [v]. *)
Fixpoint canonical (v : cbor) : cbor :=
  match v with
  | CArray l => CArray (map canonical l)
  | CMap m =>
      CMap (sorted_items (map (fun kv => (canonical (fst kv), canonical (snd kv))) m))
  | CTag t v' => CTag t (canonical v')
  | _ => v
  end.

Definition dumps_canonical (v : cbor) : outcome bytes := dumps (canonical v).

(** *** Decoding: [cbor2.loads]

    The decoder of the encodings [cbor2.dumps] writes: items of definite
    length, text checked to be UTF-8, the bignum tags 2 and 3 read back as
    integers.  Two parts of [cbor2] are not spelt out, and every statement
    below keeps away from them: the items of indefinite length (subtype
    31), which [dumps] never writes and which stand here as a decoding
    error, and the semantic decoders of the other [semantic_tags], whose
    tags stand here as a [CBORTag].  The statements about [loads] are about
    the encoding of a [plain] value, where neither occurs. *)
Definition read (n : Z) (b : bytes) : outcome (bytes * bytes) :=
  if n <=? len b
  then Return (firstn (Z.to_nat n) b, skipn (Z.to_nat n) b)
  else Raise CBORDecodeError.

Definition read_uint (n : Z) (b : bytes) : outcome (Z * bytes) :=
  xr <- read n b ;; Return (from_bytes_big (fst xr), snd xr).

Definition decode_length (subtype : Z) (b : bytes) : outcome (Z * bytes) :=
  if subtype <? 24 then Return (subtype, b)
  else if subtype =? 24 then read_uint 1 b
  else if subtype =? 25 then read_uint 2 b
  else if subtype =? 26 then read_uint 4 b
  else if subtype =? 27 then read_uint 8 b
  else Raise CBORDecodeError.

Definition decode_special (subtype : Z) (b : bytes) : outcome (cbor * bytes) :=
  if subtype <? 20 then Return (CSimple subtype, b)
  else if subtype =? 20 then Return (CBool false, b)
  else if subtype =? 21 then Return (CBool true, b)
  else if subtype =? 22 then Return (CNull, b)
  else if subtype =? 23 then Return (CUndefined, b)
  else if subtype =? 24 then
    nr <- read_uint 1 b ;;
    if fst nr <? 32 then Raise CBORDecodeError else Return (CSimple (fst nr), snd nr)
  else if subtype =? 25 then xr <- read 2 b ;; Return (CFloat (fst xr), snd xr)
  else if subtype =? 26 then xr <- read 4 b ;; Return (CFloat (fst xr), snd xr)
  else if subtype =? 27 then xr <- read 8 b ;; Return (CFloat (fst xr), snd xr)
  else Raise CBORDecodeError.

(** The semantic decoders of tags 2 and 3. *)
Definition decode_semantic (tag : Z) (v : cbor) : outcome cbor :=
  if (tag =? 2) || (tag =? 3) then
    match v with
    | CBytes [] => Raise ValueError
    | CBytes x =>
        Return (CInt (if tag =? 2 then from_bytes_big x else - from_bytes_big x - 1))
    | _ => Raise CBORDecodeError
    end
  else Return (CTag tag v).

Section DecodeItems.
Variable decode : bytes -> outcome (cbor * bytes).

Fixpoint decode_items (n : nat) (b : bytes) : outcome (list cbor * bytes) :=
  match n with
  | O => Return ([], b)
  | S k =>
      vr <- decode b ;;
      lr <- decode_items k (snd vr) ;;
      Return (fst vr :: fst lr, snd lr)
  end.

Fixpoint decode_pairs (n : nat) (b : bytes)
  : outcome (list (cbor * cbor) * bytes) :=
  match n with
  | O => Return ([], b)
  | S k =>
      kr <- decode b ;;
      vr <- decode (snd kr) ;;
      lr <- decode_pairs k (snd vr) ;;
      Return ((fst kr, fst vr) :: fst lr, snd lr)
  end.
End DecodeItems.

(** What follows the initial byte of an item of major type 0 to 6 whose
    argument is [n]. *)
Definition decode_body (decode_item : bytes -> outcome (cbor * bytes))
    (major n : Z) (r1 : bytes) : outcome (cbor * bytes) :=
  if major =? 0 then Return (CInt n, r1)
  else if major =? 1 then Return (CInt (- n - 1), r1)
  else if major =? 2 then
    xr <- read n r1 ;; Return (CBytes (fst xr), snd xr)
  else if major =? 3 then
    xr <- read n r1 ;;
    if valid_utf8 (fst xr) then Return (CText (decode_utf8 (fst xr)), snd xr)
    else Raise UnicodeDecodeError
  else if major =? 4 then
    if n <=? len r1 then
      lr <- decode_items decode_item (Z.to_nat n) r1 ;;
      Return (CArray (fst lr), snd lr)
    else Raise CBORDecodeError
  else if major =? 5 then
    if n <=? len r1 then
      lr <- decode_pairs decode_item (Z.to_nat n) r1 ;;
      Return (CMap (dict_of_pairs (fst lr)), snd lr)
    else Raise CBORDecodeError
  else
    vr <- decode_item r1 ;;
    t <- decode_semantic n (fst vr) ;;
    Return (t, snd vr).

(** One data item from the front of [b].  Every item takes at least one
    octet, so [fuel] never runs out when it starts at the length of the
    input. *)
Fixpoint decode (fuel : nat) (b : bytes) : outcome (cbor * bytes) :=
  match fuel with
  | O => Raise CBORDecodeError
  | S f =>
      match b with
      | [] => Raise CBORDecodeError
      | h :: r =>
          let major := Z.shiftr (Z_of_byte h) 5 in
          let subtype := Z.land (Z_of_byte h) 31 in
          if major =? 7 then decode_special subtype r
          else
            nr <- decode_length subtype r ;;
            decode_body (decode f) major (fst nr) (snd nr)
      end
  end.

(** [cbor2.loads]: the first data item; octets after it are ignored. *)
Definition loads (b : bytes) : outcome cbor :=
  vr <- decode (List.length b) b ;; Return (fst vr).

(** *** Big-endian integers *)

Lemma to_bytes_big_aux_app k : forall n acc,
  to_bytes_big_aux k n acc = to_bytes_big_aux k n [] ++ acc.
Proof.
  induction k as [|k IH]; intros n acc; [reflexivity|].
  cbn [to_bytes_big_aux]. rewrite (IH _ (_ :: acc)), (IH _ [_]).
  rewrite <- app_assoc. reflexivity.
Qed.

Lemma to_bytes_big_aux_length k : forall n acc,
  List.length (to_bytes_big_aux k n acc) = (k + List.length acc)%nat.
Proof.
  induction k as [|k IH]; intros n acc; [reflexivity|].
  cbn [to_bytes_big_aux]. rewrite IH. cbn [List.length]. lia.
Qed.

Lemma from_bytes_big_app a : forall b,
  from_bytes_big (a ++ b) = from_bytes_big a * 256 ^ len b + from_bytes_big b.
Proof.
  unfold from_bytes_big.
  assert (forall b acc,
    fold_left (fun acc c => acc * 256 + Z_of_byte c) b acc
    = acc * 256 ^ len b + fold_left (fun acc c => acc * 256 + Z_of_byte c) b 0) as G.
  { induction b as [|c b IH]; intros acc.
    - cbn. lia.
    - cbn [fold_left]. rewrite IH, (IH (0 * 256 + _)).
      unfold len. cbn [List.length]. rewrite Nat2Z.inj_succ, Z.pow_succ_r by lia.
      lia. }
  intros b. rewrite fold_left_app. apply G.
Qed.

Lemma from_bytes_to_bytes k : forall n,
  0 <= n < 256 ^ Z.of_nat k -> from_bytes_big (to_bytes_big_aux k n []) = n.
Proof.
  induction k as [|k IH]; intros n H.
  - cbn in *. lia.
  - cbn [to_bytes_big_aux]. rewrite to_bytes_big_aux_app, from_bytes_big_app.
    rewrite Nat2Z.inj_succ, Z.pow_succ_r in H by lia.
    rewrite IH by (Z.div_mod_to_equations; nia).
    unfold len. cbn [List.length from_bytes_big fold_left].
    unfold Z_of_byte at 1. unfold byte_of_Z.
    rewrite N_ascii_embedding by (apply N2Z.inj_lt; rewrite Z2N.id;
      Z.div_mod_to_equations; lia).
    rewrite Z2N.id by (Z.div_mod_to_equations; lia).
    change (256 ^ Z.of_nat 1) with 256. Z.div_mod_to_equations. lia.
Qed.

Lemma bit_length_bound n : 0 <= n -> n < 256 ^ bignum_length n.
Proof.
  intros H. unfold bignum_length, bit_length.
  destruct (Z.eqb_spec n 0) as [->|Hn]; [reflexivity|].
  rewrite Z.abs_eq by lia.
  pose proof (Z.log2_nonneg n) as L.
  assert (n < 2 ^ (Z.log2 n + 1)) as B.
  { replace (Z.log2 n + 1) with (Z.succ (Z.log2 n)) by lia.
    apply Z.log2_spec. lia. }
  change 256 with (2 ^ 8). rewrite <- Z.pow_mul_r by (Z.div_mod_to_equations; lia).
  eapply Z.lt_le_trans; [exact B|].
  apply Z.pow_le_mono_r; [lia|]. Z.div_mod_to_equations. lia.
Qed.

(** *** Initial bytes *)

Lemma initial_byte_major major subtype :
  0 <= major < 8 -> 0 <= subtype < 32 ->
  Z.shiftr (Z_of_byte (initial_byte major subtype)) 5 = major
  /\ Z.land (Z_of_byte (initial_byte major subtype)) 31 = subtype.
Proof.
  intros Hm Hs. unfold initial_byte.
  rewrite lor_shiftl_small by lia. change (2 ^ 5) with 32.
  rewrite Z_of_byte_of_Z by lia.
  change 31 with (Z.ones 5). rewrite Z.land_ones, Z.shiftr_div_pow2 by lia.
  change (2 ^ 5) with 32. split; Z.div_mod_to_equations; lia.
Qed.

Lemma read_app x rest : read (len x) (x ++ rest) = Return (x, rest).
Proof.
  unfold read, len. rewrite length_app.
  destruct (Z.leb_spec (Z.of_nat (List.length x))
              (Z.of_nat (List.length x + List.length rest))) as [_|H]; [|lia].
  rewrite Nat2Z.id, firstn_app, skipn_app, Nat.sub_diag, firstn_all, skipn_all.
  cbn. rewrite app_nil_r. reflexivity.
Qed.

Lemma read_uint_to_bytes k n rest :
  0 <= n < 256 ^ Z.of_nat k ->
  read_uint (Z.of_nat k) (to_bytes_big_aux k n [] ++ rest) = Return (n, rest).
Proof.
  intros H. unfold read_uint.
  replace (Z.of_nat k) with (len (to_bytes_big_aux k n []))
    by (unfold len; rewrite to_bytes_big_aux_length; cbn; lia).
  rewrite read_app. unfold bind. cbn [fst snd].
  rewrite from_bytes_to_bytes by exact H. reflexivity.
Qed.

(** The decoder reads back the initial byte and argument that
    [encode_length] wrote. *)
Lemma decode_length_encode_length major n rest :
  0 <= major < 8 -> 0 <= n < two64 ->
  exists h r,
    encode_length major n ++ rest = h :: r
    /\ Z.shiftr (Z_of_byte h) 5 = major
    /\ decode_length (Z.land (Z_of_byte h) 31) r = Return (n, rest).
Proof.
  intros Hm Hn. unfold encode_length, two64 in *.
  destruct (Z.ltb_spec n 24);
    [|destruct (Z.ltb_spec n 256);
      [|destruct (Z.ltb_spec n 65536); [|destruct (Z.ltb_spec n 4294967296)]]];
    cbn [app]; eexists; eexists; (split; [reflexivity|]).
  - destruct (initial_byte_major major n) as [-> ->]; try lia.
    split; [reflexivity|]. unfold decode_length.
    replace (n <? 24) with true by lia. reflexivity.
  - destruct (initial_byte_major major 24) as [-> ->]; try lia.
    split; [reflexivity|]. cbn -[read_uint to_bytes_big_aux].
    apply (read_uint_to_bytes 1). cbn. lia.
  - destruct (initial_byte_major major 25) as [-> ->]; try lia.
    split; [reflexivity|]. cbn -[read_uint to_bytes_big_aux].
    apply (read_uint_to_bytes 2). cbn. lia.
  - destruct (initial_byte_major major 26) as [-> ->]; try lia.
    split; [reflexivity|]. cbn -[read_uint to_bytes_big_aux].
    apply (read_uint_to_bytes 4). cbn. lia.
  - destruct (initial_byte_major major 27) as [-> ->]; try lia.
    split; [reflexivity|]. cbn -[read_uint to_bytes_big_aux].
    apply (read_uint_to_bytes 8). cbn. lia.
Qed.

Lemma decode_encode_length f major n rest :
  0 <= major < 7 -> 0 <= n < two64 ->
  decode (S f) (encode_length major n ++ rest) = decode_body (decode f) major n rest.
Proof.
  intros Hm Hn.
  destruct (decode_length_encode_length major n rest) as (h & r & E & M & L);
    try lia.
  rewrite E. cbn [decode]. cbv zeta. rewrite M, L.
  replace (major =? 7) with false by lia. reflexivity.
Qed.

Lemma encode_length_nonempty major n : (1 <= List.length (encode_length major n))%nat.
Proof.
  unfold encode_length.
  repeat match goal with |- context [if ?c then _ else _] => destruct c end;
    cbn [List.length]; lia.
Qed.

Lemma encode_nonempty v : (1 <= List.length (encode v))%nat.
Proof.
  destruct v; cbn [encode]; rewrite ?length_app;
    try (pose proof (encode_length_nonempty 2 (len b)); lia);
    try (pose proof (encode_length_nonempty 3 (len (encode_utf8 s))); lia);
    try (pose proof (encode_length_nonempty 4 (len l)); lia);
    try (pose proof (encode_length_nonempty 5 (len m)); lia);
    try (pose proof (encode_length_nonempty 6 tag); lia).
  - unfold encode_int.
    repeat match goal with |- context [if ?c then _ else _] => destruct c end;
      rewrite ?length_app.
    + pose proof (encode_length_nonempty 6 2). lia.
    + pose proof (encode_length_nonempty 6 3). lia.
    + apply encode_length_nonempty.
    + apply encode_length_nonempty.
  - destruct b; cbn; lia.
  - cbn; lia.
  - cbn; lia.
  - destruct (n <? 20); cbn; lia.
  - cbn; lia.
Qed.

(** *** Decoding an encoded value *)

Lemma dict_update_distinct m : forall acc,
  distinct_keys_from (map fst acc) m = true ->
  dict_update py_eq acc m = acc ++ m.
Proof.
  unfold dict_update.
  induction m as [|[k v] m IH]; intros acc H.
  - cbn. rewrite app_nil_r. reflexivity.
  - cbn [distinct_keys_from fst] in H. apply andb_true_iff in H.
    destruct H as [H1 H2]. apply negb_true_iff in H1. cbn [fold_left fst snd].
    rewrite (dict_set_fresh py_eq) by exact H1.
    rewrite IH.
    + rewrite <- app_assoc. reflexivity.
    + rewrite map_app. exact H2.
Qed.

Lemma dict_of_pairs_distinct m : distinct_keys m = true -> dict_of_pairs m = m.
Proof.
  intros H. unfold dict_of_pairs. apply (dict_update_distinct m []). exact H.
Qed.

Lemma decode_special_initial_byte f subtype rest :
  0 <= subtype < 32 ->
  decode (S f) (initial_byte 7 subtype :: rest) = decode_special subtype rest.
Proof.
  intros H. cbn [decode]. cbv zeta.
  destruct (initial_byte_major 7 subtype) as [-> ->]; try lia. reflexivity.
Qed.

Lemma flat_map_encode_length (l : list cbor) :
  (List.length l <= List.length (flat_map encode l))%nat.
Proof.
  induction l as [|x l IH]; [reflexivity|].
  cbn [flat_map List.length]. rewrite length_app.
  pose proof (encode_nonempty x). lia.
Qed.

Lemma flat_map_encode_pairs_length (m : list (cbor * cbor)) :
  (List.length m
   <= List.length (flat_map (fun kv => encode (fst kv) ++ encode (snd kv)) m))%nat.
Proof.
  induction m as [|x m IH]; [reflexivity|].
  cbn [flat_map List.length]. rewrite !length_app.
  pose proof (encode_nonempty (fst x)). lia.
Qed.

Definition decodes_back (v : cbor) : Prop :=
  encodable v = true -> plain v = true ->
  forall f rest,
    (List.length (encode v ++ rest) <= f)%nat ->
    decode f (encode v ++ rest) = Return (v, rest).

Lemma decode_items_encode f l :
  Forall decodes_back l ->
  forallb encodable l = true -> forallb plain l = true ->
  forall rest,
    (List.length (flat_map encode l ++ rest) <= f)%nat ->
    decode_items (decode f) (List.length l) (flat_map encode l ++ rest)
    = Return (l, rest).
Proof.
  induction 1 as [|x l Hx _ IH]; intros E Pl rest Hf; [reflexivity|].
  cbn [forallb] in E, Pl. apply andb_true_iff in E, Pl.
  destruct E as [E1 E2], Pl as [P1 P2].
  cbn [flat_map List.length decode_items] in *. rewrite <- app_assoc in *.
  rewrite (Hx E1 P1) by exact Hf. unfold bind at 1. cbn [fst snd].
  rewrite IH; [reflexivity|assumption|assumption|].
  rewrite length_app in Hf. lia.
Qed.

Lemma decode_pairs_encode f m :
  Forall (fun kv => decodes_back (fst kv) /\ decodes_back (snd kv)) m ->
  forallb (fun kv => encodable (fst kv) && encodable (snd kv)) m = true ->
  forallb (fun kv => plain (fst kv) && plain (snd kv)) m = true ->
  forall rest,
    (List.length (flat_map (fun kv => encode (fst kv) ++ encode (snd kv)) m ++ rest)
     <= f)%nat ->
    decode_pairs (decode f) (List.length m)
      (flat_map (fun kv => encode (fst kv) ++ encode (snd kv)) m ++ rest)
    = Return (m, rest).
Proof.
  induction 1 as [|[k v] m [Hk Hv] _ IH]; intros E Pl rest Hf; [reflexivity|].
  cbn [forallb fst snd] in E, Pl. apply andb_true_iff in E, Pl.
  destruct E as [E1 E2], Pl as [P1 P2].
  apply andb_true_iff in E1, P1. destruct E1 as [Ek Ev], P1 as [Pk Pv].
  cbn [flat_map List.length decode_pairs fst snd] in *.
  rewrite <- !app_assoc in *.
  rewrite (Hk Ek Pk) by exact Hf. unfold bind at 1. cbn [fst snd].
  rewrite length_app in Hf.
  rewrite (Hv Ev Pv) by lia. unfold bind at 1. cbn [fst snd].
  rewrite length_app in Hf.
  rewrite IH; [reflexivity|assumption|assumption|lia].
Qed.

Lemma bignum_decode f n rest tag :
  two64 <= n -> bignum_length n < two64 -> tag = 2 \/ tag = 3 ->
  (List.length (encode_length 6 tag ++ encode_length 2 (bignum_length n)
     ++ to_bytes_big_aux (Z.to_nat (bignum_length n)) n [] ++ rest) <= f)%nat ->
  decode f (encode_length 6 tag ++ encode_length 2 (bignum_length n)
     ++ to_bytes_big_aux (Z.to_nat (bignum_length n)) n [] ++ rest)
  = Return (CInt (if tag =? 2 then n else - n - 1), rest).
Proof.
  intros Hn HL Ht Hf. unfold two64 in *.
  assert (9 <= bignum_length n) as L9.
  { pose proof (bit_length_bound n ltac:(lia)) as B.
    destruct (Z.le_gt_cases 9 (bignum_length n)) as [?|G]; [assumption|].
    assert (256 ^ bignum_length n <= 256 ^ 8) as C.
    { destruct (Z.le_gt_cases 0 (bignum_length n)).
      - apply Z.pow_le_mono_r; lia.
      - rewrite Z.pow_neg_r by lia. lia. }
    change (256 ^ 8) with 18446744073709551616 in C. lia. }
  destruct f as [|f];
    [rewrite length_app in Hf; pose proof (encode_length_nonempty 6 tag); lia|].
  rewrite decode_encode_length by (unfold two64; lia).
  rewrite length_app in Hf. pose proof (encode_length_nonempty 6 tag) as N6.
  destruct f as [|f];
    [rewrite length_app in Hf;
     pose proof (encode_length_nonempty 2 (bignum_length n)); lia|].
  unfold decode_body. replace (tag =? 0) with false by lia.
  replace (tag =? 1) with false by lia.
  assert (decode_body (decode f) 6 tag = decode_body (decode f) 6 tag) as _ by reflexivity.
  change (6 =? 0) with false. change (6 =? 1) with false.
  change (6 =? 2) with false. change (6 =? 3) with false.
  change (6 =? 4) with false. change (6 =? 5) with false. cbv iota.
  rewrite decode_encode_length by (unfold two64; lia).
  unfold decode_body.
  change (2 =? 0) with false. change (2 =? 1) with false.
  change (2 =? 2) with true. cbv iota.
  set (payload := to_bytes_big_aux (Z.to_nat (bignum_length n)) n []).
  assert (len payload = bignum_length n) as LP.
  { unfold len, payload. rewrite to_bytes_big_aux_length. cbn [List.length]. lia. }
  rewrite <- LP, read_app. unfold bind. cbn [fst snd].
  unfold decode_semantic.
  replace ((tag =? 2) || (tag =? 3)) with true by lia.
  destruct payload as [|p0 payload'] eqn:EP; [unfold len in LP; cbn in LP; lia|].
  rewrite <- EP. unfold payload.
  rewrite from_bytes_to_bytes.
  - reflexivity.
  - split; [lia|]. rewrite Z2Nat.id by lia. apply bit_length_bound. lia.
Qed.

(** A plain, encodable value is decoded from its encoding, and what follows
    the encoding is left over. *)
Lemma decode_encode v : decodes_back v.
Proof.
  induction v as [z|b|s|l IH|m IH|t v IH|b| | |n|raw] using cbor_nested_ind;
    intros E Pl f rest Hf.
  - (* int *)
    cbn [encode encodable] in *. unfold encode_int in *.
    apply andb_true_iff in E. destruct E as [E1 E2].
    apply Z.ltb_lt in E1, E2.
    destruct (Z.leb_spec 18446744073709551616 z) as [Hbig|Hbig].
    + rewrite <- !app_assoc in *.
      rewrite (bignum_decode f z rest 2); try (unfold two64; lia); auto.
    + destruct (Z.ltb_spec z (-18446744073709551616)) as [Hneg|Hneg].
      * rewrite <- !app_assoc in *.
        rewrite (bignum_decode f (- (z + 1)) rest 3); try (unfold two64; lia); auto.
        change (3 =? 2) with false. cbv iota. f_equal. f_equal. f_equal. lia.
      * destruct f as [|f];
          [rewrite length_app in Hf;
           pose proof (encode_length_nonempty 0 z);
           pose proof (encode_length_nonempty 1 (- (z + 1)));
           destruct (0 <=? z); lia|].
        destruct (Z.leb_spec 0 z).
        -- rewrite decode_encode_length by (unfold two64; lia). reflexivity.
        -- rewrite decode_encode_length by (unfold two64; lia).
           unfold decode_body. change (1 =? 0) with false. change (1 =? 1) with true.
           cbv iota. f_equal. f_equal. f_equal. lia.
  - (* bytes *)
    cbn [encode encodable] in *. apply Z.ltb_lt in E.
    rewrite <- app_assoc in *.
    destruct f as [|f];
      [rewrite length_app in Hf; pose proof (encode_length_nonempty 2 (len b)); lia|].
    rewrite decode_encode_length by (unfold len in *; lia).
    unfold decode_body. cbn [Z.eqb Pos.eqb]. rewrite read_app. reflexivity.
  - (* text *)
    cbn [encode encodable] in *. apply Z.ltb_lt in E.
    rewrite <- app_assoc in *.
    destruct f as [|f];
      [rewrite length_app in Hf;
       pose proof (encode_length_nonempty 3 (len (encode_utf8 s))); lia|].
    rewrite decode_encode_length by (unfold len in *; lia).
    unfold decode_body. cbn [Z.eqb Pos.eqb]. rewrite read_app. unfold bind.
    cbn [fst snd]. cbn [plain] in Pl. unfold text in Pl. rewrite Pl.
    unfold decode_utf8, encode_utf8.
    rewrite string_of_list_ascii_of_string. reflexivity.
  - (* array *)
    cbn [encode encodable plain] in *. apply andb_true_iff in E.
    destruct E as [E1 E2]. apply Z.ltb_lt in E1.
    rewrite <- app_assoc in *.
    destruct f as [|f];
      [rewrite length_app in Hf; pose proof (encode_length_nonempty 4 (len l)); lia|].
    rewrite decode_encode_length by (unfold len in *; lia).
    unfold decode_body. cbn [Z.eqb Pos.eqb].
    rewrite length_app in Hf. pose proof (encode_length_nonempty 4 (len l)).
    pose proof (flat_map_encode_length l) as FL.
    replace (len l <=? len (flat_map encode l ++ rest)) with true
      by (unfold len; rewrite length_app; symmetry; apply Z.leb_le; lia).
    unfold len at 1. rewrite Nat2Z.id.
    rewrite decode_items_encode; [reflexivity|assumption|assumption|assumption|lia].
  - (* map *)
    cbn [encode encodable plain] in *. apply andb_true_iff in E.
    destruct E as [E1 E3]. apply andb_true_iff in E1. destruct E1 as [E1 E2].
    apply Z.ltb_lt in E1. apply andb_true_iff in Pl. destruct Pl as [Pl _].
    rewrite <- app_assoc in *.
    destruct f as [|f];
      [rewrite length_app in Hf; pose proof (encode_length_nonempty 5 (len m)); lia|].
    rewrite decode_encode_length by (unfold len in *; lia).
    unfold decode_body. cbn [Z.eqb Pos.eqb].
    rewrite length_app in Hf. pose proof (encode_length_nonempty 5 (len m)).
    pose proof (flat_map_encode_pairs_length m) as FL.
    match goal with |- context [len m <=? ?x] =>
      replace (len m <=? x) with true
        by (unfold len; rewrite length_app; symmetry; apply Z.leb_le; lia) end.
    unfold len at 1. rewrite Nat2Z.id.
    rewrite decode_pairs_encode; [|assumption|assumption|assumption|lia].
    unfold bind. cbn [fst snd]. rewrite dict_of_pairs_distinct by exact E2.
    reflexivity.
  - (* tag *)
    cbn [encode encodable plain] in *. apply andb_true_iff in E, Pl.
    destruct E as [E1 E2], Pl as [P1 P2]. apply andb_true_iff in E1.
    destruct E1 as [E0 E1]. apply Z.leb_le in E0. apply Z.ltb_lt in E1.
    apply negb_true_iff in P1.
    rewrite <- app_assoc in *.
    destruct f as [|f];
      [rewrite length_app in Hf; pose proof (encode_length_nonempty 6 t); lia|].
    rewrite decode_encode_length by lia.
    unfold decode_body. cbn [Z.eqb Pos.eqb].
    rewrite length_app in Hf. pose proof (encode_length_nonempty 6 t).
    rewrite (IH E2 P2) by lia. unfold bind. cbn [fst snd].
    unfold decode_semantic.
    replace ((t =? 2) || (t =? 3)) with false; [reflexivity|].
    unfold has_semantic_decoder in P1. cbn [existsb semantic_tags] in P1.
    repeat (apply orb_false_iff in P1; destruct P1 as [? P1]).
    symmetry. apply orb_false_iff. split; assumption.
  - (* bool *)
    destruct f as [|f]; [destruct b; cbn in Hf; lia|].
    destruct b; cbn [encode app].
    + change (byte_of_Z 245) with (initial_byte 7 21).
      rewrite decode_special_initial_byte by lia. reflexivity.
    + change (byte_of_Z 244) with (initial_byte 7 20).
      rewrite decode_special_initial_byte by lia. reflexivity.
  - destruct f as [|f]; [cbn in Hf; lia|]. cbn [encode app].
    change (byte_of_Z 246) with (initial_byte 7 22).
    rewrite decode_special_initial_byte by lia. reflexivity.
  - destruct f as [|f]; [cbn in Hf; lia|]. cbn [encode app].
    change (byte_of_Z 247) with (initial_byte 7 23).
    rewrite decode_special_initial_byte by lia. reflexivity.
  - (* simple value *)
    cbn [encode encodable] in *.
    destruct f as [|f]; [destruct (n <? 20); cbn in Hf; lia|].
    destruct (Z.ltb_spec n 20) as [Hn|Hn].
    + assert (0 <= n) by lia. cbn [app].
      rewrite decode_special_initial_byte by lia.
      unfold decode_special. replace (n <? 20) with true by lia. reflexivity.
    + assert (32 <= n < 256) as R by lia. cbn [app].
      change (byte_of_Z 248) with (initial_byte 7 24).
      rewrite decode_special_initial_byte by lia.
      unfold decode_special. cbn [Z.ltb Z.eqb Z.compare Pos.compare Pos.compare_cont Pos.eqb].
      change (byte_of_Z n :: rest) with (to_bytes_big_aux 1 n [] ++ rest).
      rewrite (read_uint_to_bytes 1) by (cbn; lia).
      unfold bind. cbn [fst snd]. replace (n <? 32) with false by lia. reflexivity.
  - (* float *)
    cbn [encode encodable] in *.
    destruct f as [|f]; [cbn in Hf; lia|].
    destruct (Z.eqb_spec (len raw) 2) as [L|L2];
      [|destruct (Z.eqb_spec (len raw) 4) as [L|L4];
        [|destruct (Z.eqb_spec (len raw) 8) as [L|L8]; [|discriminate E]]];
      cbn [app].
    + change (byte_of_Z 249) with (initial_byte 7 25).
      rewrite decode_special_initial_byte by lia.
      unfold decode_special. cbn [Z.ltb Z.eqb Z.compare Pos.compare Pos.compare_cont Pos.eqb].
      rewrite <- L, read_app. reflexivity.
    + change (byte_of_Z 250) with (initial_byte 7 26).
      rewrite decode_special_initial_byte by lia.
      unfold decode_special. cbn [Z.ltb Z.eqb Z.compare Pos.compare Pos.compare_cont Pos.eqb].
      rewrite <- L, read_app. reflexivity.
    + change (byte_of_Z 251) with (initial_byte 7 27).
      rewrite decode_special_initial_byte by lia.
      unfold decode_special. cbn [Z.ltb Z.eqb Z.compare Pos.compare Pos.compare_cont Pos.eqb].
      rewrite <- L, read_app. reflexivity.
Qed.

(** [loads (dumps v)] is [v]. *)
Lemma loads_dumps v b :
  plain v = true -> dumps v = Return b -> loads b = Return v.
Proof.
  unfold dumps, loads. intros Pl H.
  destruct (encodable v) eqn:E; [|discriminate H].
  injection H as <-.
  pose proof (decode_encode v E Pl (List.length (encode v)) []) as D.
  rewrite app_nil_r in D. rewrite D by lia. reflexivity.
Qed.

(** *** The canonical order *)

Lemma insert_sorted_perm kv m : Permutation (insert_sorted kv m) (kv :: m).
Proof.
  induction m as [|x m IH]; [reflexivity|].
  cbn [insert_sorted]. destruct (sortable_leb _ _); [reflexivity|].
  rewrite IH. apply perm_swap.
Qed.

Lemma sorted_items_perm m : Permutation (sorted_items m) m.
Proof.
  induction m as [|kv m IH]; [reflexivity|].
  cbn [sorted_items fold_right]. rewrite insert_sorted_perm.
  constructor. exact IH.
Qed.

Lemma forallb_perm {A : Type} (p : A -> bool) l l' :
  Permutation l l' -> forallb p l = forallb p l'.
Proof.
  induction 1 as [|x l l' _ IH|x y l|l l' l'' _ IH1 _ IH2]; cbn [forallb].
  - reflexivity.
  - rewrite IH. reflexivity.
  - destruct (p x), (p y); reflexivity.
  - rewrite IH1. exact IH2.
Qed.

Lemma scalar_key_canonical k : scalar_key k = true -> canonical k = k.
Proof. destruct k; cbn; intros H; try discriminate H; reflexivity. Qed.

(** The canonical form of a plain value is plain. *)
Lemma plain_canonical v : plain v = true -> plain (canonical v) = true.
Proof.
  induction v as [z|b|s|l IH|m IH|t v IH|b| | |n|raw] using cbor_nested_ind;
    cbn [canonical plain]; intros H; try exact H.
  - induction IH as [|x l Hx _ IHl]; [reflexivity|].
    cbn [forallb map] in *. apply andb_true_iff in H. destruct H as [H1 H2].
    rewrite (Hx H1), (IHl H2). reflexivity.
  - apply andb_true_iff in H. destruct H as [H1 H2].
    rewrite !(forallb_perm _ _ _ (sorted_items_perm _)).
    induction IH as [|[k x] m [Hk Hx] _ IHm]; [reflexivity|].
    cbn [forallb map fst snd] in *.
    apply andb_true_iff in H1, H2. destruct H1 as [H1 H1'], H2 as [H2 H2'].
    apply andb_true_iff in H1. destruct H1 as [Pk Px].
    specialize (IHm H1' H2'). apply andb_true_iff in IHm. destruct IHm as [I1 I2].
    rewrite (Hk Pk), (Hx Px), I1, I2.
    rewrite (scalar_key_canonical k H2), H2. reflexivity.
  - apply andb_true_iff in H. destruct H as [H1 H2].
    rewrite H1, (IH H2). reflexivity.
Qed.

(** *** The decoder raises or returns *)

Lemma untyped_read n b : untyped (read n b).
Proof. unfold read. repeat untyped_step. Qed.

Lemma untyped_read_uint n b : untyped (read_uint n b).
Proof. unfold read_uint. repeat (untyped_step || apply untyped_read). Qed.

Lemma untyped_decode_length s b : untyped (decode_length s b).
Proof. unfold decode_length. repeat (untyped_step || apply untyped_read_uint). Qed.

Lemma untyped_decode_special s b : untyped (decode_special s b).
Proof.
  unfold decode_special.
  repeat (untyped_step || apply untyped_read_uint || apply untyped_read).
Qed.

Lemma untyped_decode_semantic t v : untyped (decode_semantic t v).
Proof. unfold decode_semantic. repeat untyped_step. Qed.

Lemma untyped_decode_items dec n : 
  (forall b, untyped (dec b)) -> forall b, untyped (decode_items dec n b).
Proof.
  intros Hd. induction n as [|n IH]; intros b; cbn [decode_items];
    repeat (untyped_step || apply Hd || apply IH).
Qed.

Lemma untyped_decode_pairs dec n : 
  (forall b, untyped (dec b)) -> forall b, untyped (decode_pairs dec n b).
Proof.
  intros Hd. induction n as [|n IH]; intros b; cbn [decode_pairs];
    repeat (untyped_step || apply Hd || apply IH).
Qed.

Lemma untyped_decode f : forall b, untyped (decode f b).
Proof.
  induction f as [|f IH]; intros b; [reflexivity|].
  cbn [decode]. destruct b as [|h r]; [reflexivity|]. cbv zeta.
  destruct (Z.shiftr (Z_of_byte h) 5 =? 7); [apply untyped_decode_special|].
  apply untyped_bind; [apply untyped_decode_length|]. intros nr.
  unfold decode_body.
  repeat (untyped_step || apply untyped_read || apply IH
          || apply untyped_decode_semantic
          || (apply untyped_decode_items; exact IH)
          || (apply untyped_decode_pairs; exact IH)).
Qed.

Lemma untyped_loads b : untyped (loads b).
Proof. unfold loads. repeat (untyped_step || apply untyped_decode). Qed.

End Cbor.

(** ** [formatter_func.py]: the mdoc builder and its decoder *)

Module Mdoc.

Import Base64 Cbor.
Open Scope string_scope.
Open Scope list_scope.
Open Scope Z_scope.

(** *** Python objects decoded from CBOR *)

(** [l[i]], with Python's negative indices. *)
Definition index {A : Type} (l : list A) (i : Z) : option A :=
  if (0 <=? i) && (i <? len l) then nth_error l (Z.to_nat i)
  else if (- len l <=? i) && (i <? 0) then nth_error l (Z.to_nat (i + len l))
  else None.

Definition as_index (key : cbor) : option Z :=
  match key with
  | CInt i => Some i
  | CBool b => Some (if b then 1 else 0)
  | _ => None
  end.

(** The characters of a [str], each a [str] of its own: one UTF-8
    sequence after the other. *)
Definition char_width (a : ascii) : nat :=
  if between 0 127 a then 1%nat
  else if between 194 223 a then 2%nat
  else if between 224 239 a then 3%nat
  else 4%nat.

Fixpoint chars_of (fuel : nat) (b : bytes) : list cbor :=
  match fuel, b with
  | S f, a :: _ =>
      CText (decode_utf8 (firstn (char_width a) b))
      :: chars_of f (skipn (char_width a) b)
  | _, _ => []
  end.

Definition chars (s : string) : list cbor :=
  chars_of (String.length s) (encode_utf8 s).

Definition byte_int (c : ascii) : cbor := CInt (Z_of_byte c).

(** [obj[key]]: a [dict] is looked up ([KeyError]), a [list], [str] or
    [bytes] is indexed by an integer ([IndexError], or [TypeError] for
    another key), nothing else can be subscripted. *)
Definition subscript (obj key : cbor) : outcome cbor :=
  match obj with
  | CMap m => of_option KeyError (dict_get py_eq key m)
  | CArray l =>
      match as_index key with
      | Some i => of_option IndexError (index l i)
      | None => Raise TypeError
      end
  | CText s =>
      match as_index key with
      | Some i => of_option IndexError (index (chars s) i)
      | None => Raise TypeError
      end
  | CBytes b =>
      match as_index key with
      | Some i => of_option IndexError (option_map byte_int (index b i))
      | None => Raise TypeError
      end
  | _ => Raise TypeError
  end.

(** [obj.keys()]: only a [dict] has the method. *)
Definition keys (obj : cbor) : outcome (list cbor) :=
  match obj with
  | CMap m => Return (dict_keys m)
  | _ => Raise AttributeError
  end.

(** [for e in obj]. *)
Definition iterate (obj : cbor) : outcome (list cbor) :=
  match obj with
  | CArray l => Return l
  | CMap m => Return (dict_keys m)
  | CText s => Return (chars s)
  | CBytes b => Return (map byte_int b)
  | _ => Raise TypeError
  end.

(** [obj.value]: the attribute of a [CBORTag] and of a [CBORSimpleValue]. *)
Definition attr_value (obj : cbor) : outcome cbor :=
  match obj with
  | CTag _ v => Return v
  | CSimple n => Return (CInt n)
  | _ => Raise AttributeError
  end.

(** [cbor2.decoder.loads(obj)]: the argument must be [bytes]. *)
Definition loads_obj (obj : cbor) : outcome cbor :=
  match obj with
  | CBytes b => loads b
  | _ => Raise TypeError
  end.

(** *** [cbor2elems] *)

(** The body of the inner loop: one [(id, value)] pair from an element. *)
Definition element (e : cbor) : outcome (cbor * cbor) :=
  ev <- attr_value e ;;
  val <- loads_obj ev ;;
  id <- subscript val (CText "elementIdentifier") ;;
  if py_eq id (CText "birth_date") || py_eq id (CText "expiry_date")
     || py_eq id (CText "issuance_date")
  then
    x <- subscript val (CText "elementValue") ;;
    xv <- attr_value x ;;
    Return (id, xv)
  else
    x <- subscript val (CText "elementValue") ;;
    Return (id, x).

Definition elems_dict : Type := list (cbor * list (cbor * cbor)).

(** The outer loop over [namespaces.keys()], [d] being the dictionary built
    so far. *)
Fixpoint namespaces_loop (namespaces : cbor) (ks : list cbor) (d : elems_dict)
  : outcome elems_dict :=
  match ks with
  | [] => Return d
  | n :: ks' =>
      es <- subscript namespaces n ;;
      es' <- iterate es ;;
      l <- mapM element es' ;;
      namespaces_loop namespaces ks' (dict_set py_eq n l d)
  end.

Definition cbor2elems (mdoc : string) : outcome elems_dict :=
  raw <- urlsafe_b64decode_str mdoc ;;
  top <- loads raw ;;
  documents <- subscript top (CText "documents") ;;
  document <- subscript documents (CInt 0) ;;
  issuerSigned <- subscript document (CText "issuerSigned") ;;
  namespaces <- subscript issuerSigned (CText "nameSpaces") ;;
  ks <- keys namespaces ;;
  namespaces_loop namespaces ks [].

(** *** The issuer of [pymdoccbor]

    [MdocCborIssuer.new] wraps every element of every namespace in a
    record [{digestID, random, elementIdentifier, elementValue}], encoded
    and tagged 24; the value of an element named in [CBORTAGS_ATTR_MAP] is
    tagged 1004 (a calendar date).  The records of a namespace are laid out
    in the order [shuffle_dict] gives them.  The signed document is
    [{version, documents: [{docType, issuerSigned: {nameSpaces,
    issuerAuth}}], status}], [issuerAuth] being the COSE_Sign1 array of
    the signature; [MdocCborIssuer.dump] is its canonical encoding. *)

(** The Python value of a JSON-like value, as [cbor2] sees it. *)
Fixpoint embed (j : json) : cbor :=
  match j with
  | JNull => CNull
  | JBool b => CBool b
  | JInt z => CInt z
  | JStr s => CText s
  | JList l => CArray (map embed l)
  | JDict d => CMap (map (fun kv => (CText (fst kv), embed (snd kv))) d)
  end.

(** The text of a JSON-like value is text: every string in it, keys
    included, stands for a [str]. *)
Fixpoint json_text (j : json) : bool :=
  match j with
  | JStr s => text s
  | JList l => forallb json_text l
  | JDict d => forallb (fun kv => text (fst kv) && json_text (snd kv)) d
  | _ => true
  end.

Definition CBORTAGS_ATTR_MAP (k : string) : option Z :=
  if String.eqb k "birth_date" || String.eqb k "expiry_date"
     || String.eqb k "issue_date" || String.eqb k "issuance_date"
  then Some 1004 else None.

Definition element_value (k : string) (v : json) : cbor :=
  match CBORTAGS_ATTR_MAP k with
  | Some t => CTag t (embed v)
  | None => embed v
  end.

Definition disclosure (digest_id : nat) (salt : bytes) (k : string) (v : json) : cbor :=
  CMap [(CText "digestID", CInt (Z.of_nat digest_id));
        (CText "random", CBytes salt);
        (CText "elementIdentifier", CText k);
        (CText "elementValue", element_value k v)].

Record cose_key : Type := mk_cose_key {
  KTY : string; CURVE : string; ALG : string; D : bytes; KID : bytes }.

(** A COSE_Sign1 message: the encoded protected header, the unprotected
    header (integer labels, here with byte strings as values: the
    certificate), the payload and the signature.  [sign1_array] is the
    array that stands for it in the signed document. *)
Record cose_sign1 : Type := mk_cose_sign1 {
  protected : bytes;
  unprotected : list (Z * bytes);
  payload : bytes;
  signature : bytes }.

Definition sign1_array (s : cose_sign1) : cbor :=
  CArray [CBytes (protected s);
          CMap (map (fun lv => (CInt (fst lv), CBytes (snd lv))) (unprotected s));
          CBytes (payload s);
          CBytes (signature s)].

Record country_config : Type := mk_country_config {
  pid_mdoc_privkey : string;
  pid_mdoc_privkey_passwd : option bytes;
  pid_mdoc_cert : string }.

(** What the builder takes from its surroundings: the configured countries
    ([ConfCountries.supported_countries]), the file system, the parser of
    PEM private keys (giving the private value of the key), the salts drawn
    by [secrets.token_bytes], the order [shuffle_dict] produces, and the
    COSE signature over the mobile security object. *)
Record mdoc_env : Type := mk_mdoc_env {
  supported_countries : string -> option country_config;
  read_file : string -> call bytes;
  load_pem_private_key : bytes -> option bytes -> call Z;
  token_bytes : nat -> bytes;
  shuffle_dict : list (string * json) -> list (string * json);
  issuer_auth :
    cose_key -> string -> json -> json * json -> string -> string
    -> call cose_sign1 }.

Section Builder.
Variable env : mdoc_env.

(** The records of one namespace, [digest_cnt] counting the elements
    wrapped so far. *)
Fixpoint issuer_items (digest_cnt : nat) (elems : list (string * json))
  : outcome (list cbor) :=
  match elems with
  | [] => Return []
  | kv :: rest =>
      b <- dumps (disclosure digest_cnt (token_bytes env digest_cnt) (fst kv) (snd kv)) ;;
      items <- issuer_items (S digest_cnt) rest ;;
      Return (CTag 24 (CBytes b) :: items)
  end.

Fixpoint issuer_namespaces (digest_cnt : nat) (data : list (string * json))
  : outcome (list (cbor * cbor)) :=
  match data with
  | [] => Return []
  | nv :: rest =>
      match snd nv with
      | JDict elems =>
          items <- issuer_items digest_cnt (shuffle_dict env elems) ;;
          more <- issuer_namespaces (digest_cnt + List.length elems) rest ;;
          Return ((CText (fst nv), CArray items) :: more)
      | _ => Raise AttributeError
      end
  end.

Definition MdocCborIssuer_new (private_key : cose_key) (doctype : string)
    (data : json) (validity : json * json) (devicekeyinfo cert_path : string)
  : outcome cbor :=
  match data with
  | JDict namespaces =>
      nameSpaces <- issuer_namespaces 0 namespaces ;;
      issuerAuth <-
        run (issuer_auth env private_key doctype data validity devicekeyinfo cert_path) ;;
      Return
        (CMap [(CText "version", CText "1.0");
               (CText "documents",
                CArray [CMap [(CText "docType", CText doctype);
                              (CText "issuerSigned",
                               CMap [(CText "nameSpaces", CMap nameSpaces);
                                     (CText "issuerAuth", sign1_array issuerAuth)])]]);
               (CText "status", CInt 0)])
  | _ => Raise AttributeError
  end.

(** *** [mdocFormatter] *)

Definition pid_namespace : string := "eu.europa.ec.eudiw.pid.1".

Definition mdocFormatter (data : json) (doctype country device_publickey : string)
  : outcome string :=
  (* Load the private key *)
  cfg <- of_option KeyError (supported_countries env country) ;;
  key_file <- run (read_file env (pid_mdoc_privkey cfg)) ;;
  priv_d <- run (load_pem_private_key env key_file (pid_mdoc_privkey_passwd cfg)) ;;
  ns1 <- getitem data pid_namespace ;;
  issuance_date <- getitem ns1 "issuance_date" ;;
  ns2 <- getitem data pid_namespace ;;
  expiry_date <- getitem ns2 "expiry_date" ;;
  let validity := (issuance_date, expiry_date) in
  (* Construct the COSE private key *)
  d <- to_bytes_big priv_d ((bit_length priv_d + 7) / 8) ;;
  let cose_pkey := mk_cose_key "EC2" "P_256" "ES256" d (encode_utf8 "mdocIssuer") in
  (* Construct and sign the mdoc *)
  signed <- MdocCborIssuer_new cose_pkey doctype data validity device_publickey
              (pid_mdoc_cert cfg) ;;
  dump <- dumps_canonical signed ;;
  Return (decode_utf8 (urlsafe_b64encode dump)).

End Builder.

(** *** A deployment to run the builder in

    One configured country, keys and salts fixed, the elements of a
    namespace laid out in reverse order. *)
Definition demo_env : mdoc_env :=
  mk_mdoc_env
    (fun c => if String.eqb c "FC"
              then Some (mk_country_config "keys/FC.pem" None "keys/FC.der")
              else None)
    (fun path => Returned (encode_utf8 path))
    (fun _ _ => Returned 65537)
    (fun n => repeat (byte_of_Z (Z.of_nat n)) 4)
    (fun l => rev l)
    (fun _ _ _ _ _ _ =>
       Returned
         (mk_cose_sign1 (encode_utf8 "protected") [(33, encode_utf8 "certificate")]
            (encode_utf8 "payload") (encode_utf8 "signature"))).

Definition demo_data : json :=
  JDict [("eu.europa.ec.eudiw.pid.1",
          JDict [("family_name", JStr "Doe"); ("given_name", JStr "Jane");
                 ("birth_date", JStr "1990-01-01"); ("age_over_18", JBool true);
                 ("issuance_date", JStr "2024-01-01");
                 ("expiry_date", JStr "2034-01-01")])].

Definition demo_mdoc : string :=
  match mdocFormatter demo_env demo_data pid_namespace "FC" "device-key" with
  | Return m => m
  | _ => ""
  end.

(** *** No step of the decoder hands back a typed failure *)

Lemma untyped_subscript obj key : untyped (subscript obj key).
Proof. unfold subscript. repeat untyped_step. Qed.

Lemma untyped_element e : untyped (element e).
Proof.
  unfold element, attr_value, loads_obj.
  repeat (untyped_step || apply untyped_subscript || apply untyped_loads).
Qed.

Lemma untyped_namespaces_loop namespaces ks :
  forall d, untyped (namespaces_loop namespaces ks d).
Proof.
  induction ks as [|n ks IH]; intros d; cbn [namespaces_loop]; unfold iterate;
    repeat (untyped_step || apply untyped_subscript || apply IH
            || (apply untyped_mapM; exact untyped_element)).
Qed.

Lemma untyped_cbor2elems mdoc : untyped (cbor2elems mdoc).
Proof.
  unfold cbor2elems, keys.
  repeat (untyped_step || apply untyped_subscript || apply untyped_loads
          || apply untyped_urlsafe_b64decode_str || apply untyped_namespaces_loop).
Qed.

(** *** Reading back what the issuer wrote *)

Lemma plain_embed j : json_text j = true -> plain (embed j) = true.
Proof.
  induction j as [| | | |l IH|d IH] using json_nested_ind;
    cbn [json_text embed plain]; intros H; try reflexivity.
  - exact H.
  - induction IH as [|x l Hx _ IHl]; [reflexivity|].
    cbn [map forallb] in *. apply andb_true_iff in H. destruct H as [H1 H2].
    rewrite (Hx H1), (IHl H2). reflexivity.
  - induction IH as [|[k x] d Hx _ IHd]; [reflexivity|].
    cbn [map forallb fst snd plain scalar_key] in *.
    apply andb_true_iff in H. destruct H as [H1 H2].
    apply andb_true_iff in H1. destruct H1 as [Hk Hv].
    specialize (IHd H2). apply andb_true_iff in IHd. destruct IHd as [I1 I2].
    rewrite Hk, (Hx Hv), I1, I2. reflexivity.
Qed.

(** What the decoder gives for an element of the attribute set: its
    identifier and its value; the value of [issue_date], which the issuer
    tags and the decoder does not list among the dates, under its tag. *)
Definition pair_of (kv : string * json) : cbor * cbor :=
  (CText (fst kv),
   if String.eqb (fst kv) "issue_date" then CTag 1004 (embed (snd kv))
   else embed (snd kv)).

Lemma plain_disclosure n salt k v :
  text k = true -> json_text v = true -> plain (disclosure n salt k v) = true.
Proof.
  intros Hk Hv. apply plain_embed in Hv.
  unfold disclosure, element_value. cbn [plain forallb fst snd scalar_key].
  rewrite Hk.
  destruct (CBORTAGS_ATTR_MAP k) as [t|] eqn:E.
  - unfold CBORTAGS_ATTR_MAP in E.
    destruct (_ || _); [|discriminate E]. injection E as <-.
    cbn [plain]. rewrite Hv. reflexivity.
  - rewrite Hv. reflexivity.
Qed.

(** The decoder's inner loop body on a record the issuer wrote. *)
Lemma element_disclosure n salt k v b :
  text k = true -> json_text v = true ->
  dumps (disclosure n salt k v) = Return b ->
  element (CTag 24 (CBytes b)) = Return (pair_of (k, v)).
Proof.
  intros Hk Hv H. apply loads_dumps in H; [|apply plain_disclosure; assumption].
  unfold element. cbn [attr_value bind loads_obj]. rewrite H.
  unfold disclosure at 1.
  cbn [bind subscript dict_get py_eq String.eqb Ascii.eqb Bool.eqb of_option].
  cbn [py_eq]. unfold disclosure, element_value, CBORTAGS_ATTR_MAP, pair_of.
  cbn [fst snd].
  destruct (String.eqb_spec k "birth_date") as [->|N1]; [reflexivity|].
  destruct (String.eqb_spec k "expiry_date") as [->|N2]; [reflexivity|].
  destruct (String.eqb_spec k "issuance_date") as [->|N3]; [reflexivity|].
  destruct (String.eqb_spec k "issue_date") as [->|N4]; reflexivity.
Qed.

Definition element_text (kv : string * json) : bool :=
  text (fst kv) && json_text (snd kv).

Lemma issuer_items_elements env : forall elems cnt items,
  forallb element_text elems = true ->
  issuer_items env cnt elems = Return items ->
  mapM element items = Return (map pair_of elems)
  /\ forallb plain items = true
  /\ map canonical items = items.
Proof.
  induction elems as [|[k v] elems IH]; intros cnt items T H.
  - injection H as <-. repeat split; reflexivity.
  - cbn [issuer_items fst snd] in H. bind_inv H. bind_inv H. injection H as <-.
    cbn [forallb] in T. apply andb_true_iff in T. destruct T as [T1 T2].
    unfold element_text in T1. cbn [fst snd] in T1.
    apply andb_true_iff in T1. destruct T1 as [Tk Tv].
    apply (element_disclosure _ _ _ _ _ Tk Tv) in Ha.
    apply (IH _ _ T2) in Ha0. destruct Ha0 as (M & P & C).
    repeat split.
    + cbn [mapM map]. rewrite Ha, M. reflexivity.
    + cbn [forallb]. rewrite P. reflexivity.
    + cbn [map canonical]. rewrite C. reflexivity.
Qed.

(** What the decoder is to find for a namespace of the attribute set. *)
Definition decoded (env : mdoc_env) (nv : string * json) : cbor * list (cbor * cbor) :=
  (CText (fst nv),
   match snd nv with
   | JDict elems => map pair_of (shuffle_dict env elems)
   | _ => []
   end).

Definition reads_as (env : mdoc_env) (nv : string * json) (kv : cbor * cbor) : Prop :=
  fst kv = CText (fst nv)
  /\ text (fst nv) = true
  /\ exists items,
       snd kv = CArray items
       /\ mapM element items = Return (snd (decoded env nv))
       /\ forallb plain items = true
       /\ map canonical items = items.

Lemma issuer_namespaces_reads env :
  (forall l, Permutation (shuffle_dict env l) l) ->
  forall data cnt nameSpaces,
  json_text (JDict data) = true ->
  issuer_namespaces env cnt data = Return nameSpaces ->
  Forall2 (reads_as env) data nameSpaces.
Proof.
  intros Hshuffle.
  induction data as [|[ns values] data IH]; intros cnt nameSpaces T H.
  - injection H as <-. constructor.
  - cbn [issuer_namespaces fst snd] in H.
    destruct values as [| | | | |elems]; try discriminate H.
    bind_inv H. bind_inv H. injection H as <-.
    cbn [json_text forallb fst snd] in T.
    apply andb_true_iff in T. destruct T as [T1 T2].
    apply andb_true_iff in T1. destruct T1 as [Tn Te].
    apply issuer_items_elements in Ha.
    2:{ rewrite (forallb_perm _ _ _ (Hshuffle elems)). exact Te. }
    destruct Ha as (M & P & C).
    constructor; [|eapply IH; [exact T2|exact Ha0]].
    split; [reflexivity|]. split; [exact Tn|].
    exists a. repeat split; assumption.
Qed.

Lemma distinct_keys_from_app pre : forall seen suf,
  distinct_keys_from seen (pre ++ suf) = true ->
  distinct_keys_from (seen ++ map fst pre) suf = true.
Proof.
  induction pre as [|kv pre IH]; intros seen suf H.
  - cbn. rewrite app_nil_r. exact H.
  - cbn [app distinct_keys_from] in H. apply andb_true_iff in H.
    destruct H as [_ H]. apply IH in H.
    cbn [map]. rewrite <- app_assoc in H. exact H.
Qed.

Lemma dict_get_fresh {V : Type} (k : cbor) (v : V) pre suf :
  existsb (py_eq k) (map fst pre) = false -> py_eq k k = true ->
  dict_get py_eq k (pre ++ (k, v) :: suf) = Some v.
Proof.
  intros H R. induction pre as [|[k' v'] pre IH].
  - cbn. rewrite R. reflexivity.
  - cbn [map fst existsb] in H. apply orb_false_iff in H. destruct H as [H1 H2].
    cbn [app dict_get]. rewrite H1. apply IH, H2.
Qed.

(** The decoder's outer loop over a dictionary of namespaces with distinct
    keys: one entry per namespace, in the order of the dictionary. *)
Lemma namespaces_loop_reads env : forall data suf pre dpre,
  distinct_keys (pre ++ suf) = true ->
  Forall2 (reads_as env) data suf ->
  map fst dpre = map fst pre ->
  namespaces_loop (CMap (pre ++ suf)) (map fst suf) dpre
  = Return (dpre ++ map (decoded env) data).
Proof.
  induction data as [|nv data IH]; intros suf pre dpre D F E.
  - inversion F; subst. cbn. rewrite app_nil_r. reflexivity.
  - inversion F as [|? kv ? suf' R F']; subst. clear F.
    destruct kv as [k v]. destruct R as (Rk & _ & items & Rv & RM & _).
    cbn [fst snd] in Rk, Rv. subst k v.
    cbn [map fst namespaces_loop subscript].
    pose proof (distinct_keys_from_app pre [] _ D) as D'.
    cbn [app distinct_keys_from fst] in D'. apply andb_true_iff in D'.
    destruct D' as [D1 _]. apply negb_true_iff in D1.
    rewrite (dict_get_fresh (CText (fst nv)) (CArray items) pre suf' D1)
      by (cbn; apply String.eqb_refl).
    cbn [of_option bind iterate]. rewrite RM. cbn [bind].
    rewrite (dict_set_fresh py_eq) by (rewrite E; exact D1).
    replace (pre ++ (CText (fst nv), CArray items) :: suf')
      with ((pre ++ [(CText (fst nv), CArray items)]) ++ suf')
      by (rewrite <- app_assoc; reflexivity).
    rewrite IH.
    + rewrite <- app_assoc. reflexivity.
    + rewrite <- app_assoc. exact D.
    + exact F'.
    + rewrite !map_app, E. reflexivity.
Qed.

(** The namespaces the issuer wrote are plain, and sorting them is all the
    canonical encoder does to them. *)
Lemma reads_as_plain env : forall data nameSpaces,
  Forall2 (reads_as env) data nameSpaces ->
  plain (CMap nameSpaces) = true
  /\ map (fun kv => (canonical (fst kv), canonical (snd kv))) nameSpaces
     = nameSpaces.
Proof.
  induction 1 as [|nv [k v] data nss (Rk & Rt & items & Rv & _ & P & C) _ [IH1 IH2]];
    [split; reflexivity|].
  cbn [fst snd] in Rk, Rv. subst k v.
  cbn [plain] in IH1. apply andb_true_iff in IH1. destruct IH1 as [I1 I2].
  split.
  - cbn [plain forallb fst snd scalar_key]. rewrite Rt, P, I1, I2. reflexivity.
  - cbn [map fst snd canonical]. rewrite C, IH2. reflexivity.
Qed.

Lemma issuer_namespaces_dicts env : forall data cnt nameSpaces,
  issuer_namespaces env cnt data = Return nameSpaces ->
  Forall (fun nv => exists elems, snd nv = JDict elems) data.
Proof.
  induction data as [|[ns values] data IH]; intros cnt nameSpaces H; [constructor|].
  cbn [issuer_namespaces fst snd] in H.
  destruct values as [| | | | |elems]; try discriminate H.
  bind_inv H. bind_inv H. constructor; [exists elems; reflexivity|].
  eapply IH. exact Ha0.
Qed.

Ltac split_andb :=
  repeat match goal with
  | H : _ && _ = true |- _ => apply andb_true_iff in H; destruct H
  end.

Lemma plain_sign1_array s : plain (sign1_array s) = true.
Proof.
  unfold sign1_array. cbn [plain forallb].
  induction (unprotected s) as [|[l v] u IH]; [reflexivity|].
  cbn [map forallb fst snd plain scalar_key andb]. exact IH.
Qed.

(** The signed document in canonical form: the entries of each of its
    dictionaries in the order of the canonical encoder. *)
Lemma canonical_signed doctype nameSpaces issuerAuth :
  canonical
    (CMap [(CText "version", CText "1.0");
           (CText "documents",
            CArray [CMap [(CText "docType", CText doctype);
                          (CText "issuerSigned",
                           CMap [(CText "nameSpaces", CMap nameSpaces);
                                 (CText "issuerAuth", issuerAuth)])]]);
           (CText "status", CInt 0)])
  = CMap [(CText "status", CInt 0);
          (CText "version", CText "1.0");
          (CText "documents",
           CArray [CMap [(CText "docType", CText doctype);
                         (CText "issuerSigned",
                          CMap [(CText "issuerAuth", canonical issuerAuth);
                                (CText "nameSpaces",
                                 canonical (CMap nameSpaces))])]])].
Proof. reflexivity. Qed.

Lemma Forall2_perm_r {A B : Type} (R : A -> B -> Prop) l1 l2 l2' :
  Forall2 R l1 l2 -> Permutation l2 l2' ->
  exists l1', Permutation l1 l1' /\ Forall2 R l1' l2'.
Proof.
  intros F P. revert l1 F.
  induction P as [|y l2 l2' _ IH|x y l2|l2 l2' l2'' _ IH1 _ IH2]; intros l1 F.
  - inversion F; subst. exists []. split; constructor.
  - inversion F as [|a ? l1' ? Ha F']; subst.
    destruct (IH _ F') as (l1'' & P1 & F1).
    exists (a :: l1''). split; constructor; assumption.
  - inversion F as [|a ? l1' ? Ha F']; subst.
    inversion F' as [|a' ? l1'' ? Ha' F'']; subst.
    exists (a' :: a :: l1''). split; [apply perm_swap|].
    constructor; [assumption|]. constructor; assumption.
  - destruct (IH1 _ F) as (l1' & P1 & F1).
    destruct (IH2 _ F1) as (l1'' & P2 & F2).
    exists l1''. split; [eapply perm_trans; eassumption|exact F2].
Qed.

(** The decoder applied to the builder's output: the namespaces in the
    order of the canonical encoding, the elements of each in the order the
    issuer laid them out. *)
Lemma cbor2elems_mdocFormatter env A doctype country device_publickey m :
  (forall l, Permutation (shuffle_dict env l) l) ->
  json_text (JDict A) = true -> text doctype = true ->
  mdocFormatter env (JDict A) doctype country device_publickey = Return m ->
  exists A',
    Permutation A A'
    /\ cbor2elems m = Return (map (decoded env) A')
    /\ Forall (fun nv => exists elems, snd nv = JDict elems) A.
Proof.
  intros Hshuffle TA Td H. unfold mdocFormatter in H.
  do 8 bind_inv H. bind_inv H. bind_inv H. injection H as <-.
  unfold MdocCborIssuer_new in Ha7. bind_inv Ha7. bind_inv Ha7.
  injection Ha7 as <-.
  pose proof (issuer_namespaces_reads _ Hshuffle _ _ _ TA Ha9) as R.
  pose proof (issuer_namespaces_dicts _ _ _ _ Ha9) as Dicts.
  destruct (reads_as_plain env A a9 R) as [Pns Cns].
  unfold dumps_canonical in Ha8.
  assert (canonical (CMap a9) = CMap (sorted_items a9)) as CN
    by (cbn [canonical]; rewrite Cns; reflexivity).
  assert (distinct_keys (sorted_items a9) = true) as DK.
  { unfold dumps in Ha8.
    match type of Ha8 with (if ?c then _ else _) = _ => destruct c eqn:E end;
      [|discriminate Ha8].
    rewrite canonical_signed, CN in E.
    cbn [encodable forallb fst snd] in E. split_andb. assumption. }
  apply loads_dumps in Ha8.
  2:{ apply plain_canonical. cbn [plain] in Pns.
      cbn [plain forallb fst snd scalar_key].
      change (forallb plain _ && _ && _ && _) with (plain (sign1_array a10)).
      rewrite Pns, plain_sign1_array, Td. reflexivity. }
  destruct (Forall2_perm_r _ _ _ _ R (Permutation_sym (sorted_items_perm a9)))
    as (A' & PA & R').
  exists A'. split; [exact PA|]. split; [|exact Dicts].
  unfold cbor2elems. rewrite urlsafe_b64decode_str_b64encode. cbn [bind].
  rewrite Ha8, canonical_signed, CN.
  cbn [bind subscript dict_get py_eq String.eqb Ascii.eqb Bool.eqb of_option
       as_index index len List.length Z.of_nat Z.leb Z.ltb Z.compare andb
       nth_error Z.to_nat keys dict_keys].
  apply (namespaces_loop_reads env A' (sorted_items a9) [] []);
    [exact DK|exact R'|reflexivity].
Qed.

(** *** The round trip *)

(** An attribute set that has the required namespace, but not the two
    validity dates the builder reads from it. *)
Definition undated_data : list (string * json) :=
  [(pid_namespace, JDict [("family_name", JStr "Doe"); ("given_name", JStr "Jane")])].

(** C1, as stated, fails: the attribute set [undated_data] contains the
    required namespace, and the builder raises [KeyError] at
    [data[...]["issuance_date"]] instead of producing an mdoc to decode. *)
Lemma mdoc_round_trip_needs_validity_dates :
  lookup pid_namespace undated_data
  = Some (JDict [("family_name", JStr "Doe"); ("given_name", JStr "Jane")])
  /\ mdocFormatter demo_env (JDict undated_data) pid_namespace "FC" "device-key"
     = Raise KeyError.
Proof. split; reflexivity. Qed.

(** An attribute set maps its namespaces to dictionaries of elements. *)
Definition attribute_set (A : list (string * json)) : bool :=
  forallb (fun nv => match snd nv with JDict _ => true | _ => false end) A.

Lemma attribute_set_dicts A :
  attribute_set A = true ->
  Forall (fun nv => exists elems, snd nv = JDict elems) A.
Proof.
  unfold attribute_set. rewrite forallb_forall, Forall_forall.
  intros H nv I. specialize (H nv I).
  destruct (snd nv) as [| | | | |elems]; try discriminate H. eauto.
Qed.

(** A decoded pair recovers an element of the attribute set: it holds the
    identifier of the element and, for an element not named [issue_date],
    the value of the element. *)
Definition recovers (p : cbor * cbor) (kv : string * json) : Prop :=
  fst p = CText (fst kv)
  /\ (fst kv <> "issue_date" -> snd p = embed (snd kv)).

Lemma pair_of_recovers elems : Forall2 recovers (map pair_of elems) elems.
Proof.
  induction elems as [|[k v] elems IH]; constructor; [|exact IH].
  split; [reflexivity|]. cbn [fst snd pair_of]. intros N.
  destruct (String.eqb_spec k "issue_date") as [E|_]; [contradiction|reflexivity].
Qed.

(** C1 (amended): whenever [mdocFormatter] returns an mdoc for an attribute
    set [A] -- which it does only if the required namespace of [A] holds
    [issuance_date] and [expiry_date] -- [cbor2elems] decodes that mdoc to
    a dictionary with one entry for every namespace of [A], under the name
    of the namespace, and the entry holds one pair for every element of
    the namespace (in some order): the identifier of the element and, for
    every element not named [issue_date], its value, the values of
    [birth_date], [issuance_date] and [expiry_date] being the values
    themselves and not tag 1004 around them.  ([A] is an attribute set of
    text: every namespace of it is a dictionary of elements, its strings
    and the document type are UTF-8; the issuer's shuffle permutes the
    elements of a namespace.) *)
Theorem mdoc_round_trip
    (env : mdoc_env) (A : list (string * json))
    (doctype country device_publickey m : string) :
  (forall l, Permutation (shuffle_dict env l) l) ->
  attribute_set A = true ->
  json_text (JDict A) = true -> text doctype = true ->
  mdocFormatter env (JDict A) doctype country device_publickey = Return m ->
  exists d A',
    cbor2elems m = Return d
    /\ Permutation A A'
    /\ Forall2
         (fun nl nv =>
            fst nl = CText (fst nv)
            /\ exists elems elems',
                 snd nv = JDict elems
                 /\ Permutation elems elems'
                 /\ Forall2 recovers (snd nl) elems')
         d A'
    /\ exists ns issuance expiry,
         lookup pid_namespace A = Some ns
         /\ getitem ns "issuance_date" = Return issuance
         /\ getitem ns "expiry_date" = Return expiry.
Proof.
  intros Hshuffle HA TA Td H.
  destruct (cbor2elems_mdocFormatter _ _ _ _ _ _ Hshuffle TA Td H)
    as (A' & PA & D & _).
  pose proof (attribute_set_dicts A HA) as Dicts.
  exists (map (decoded env) A'), A'. split; [exact D|]. split; [exact PA|]. split.
  - assert (Forall (fun nv => exists elems, snd nv = JDict elems) A') as Dicts'.
    { rewrite Forall_forall in *. intros nv I. apply Dicts.
      apply (Permutation_in _ (Permutation_sym PA)). exact I. }
    clear D H PA Dicts TA. induction Dicts' as [|nv A'' [elems E] _ IH];
      [constructor|].
    cbn [map]. constructor; [|exact IH].
    split; [reflexivity|]. exists elems, (shuffle_dict env elems).
    split; [exact E|]. split; [apply Permutation_sym, Hshuffle|].
    unfold decoded. cbn [snd]. rewrite E. apply pair_of_recovers.
  - unfold mdocFormatter in H. do 7 bind_inv H.
    unfold getitem in Ha2 at 1. unfold getitem in Ha4 at 1.
    destruct (lookup pid_namespace A) as [ns|]; [|discriminate Ha2].
    injection Ha2 as <-. injection Ha4 as <-.
    exists ns, a3, a5. repeat split; assumption.
Qed.

Lemma mdoc_round_trip_witness :
  mdocFormatter demo_env demo_data pid_namespace "FC" "device-key" = Return demo_mdoc
  /\ exists d A',
       cbor2elems demo_mdoc = Return d
       /\ Permutation
            [(pid_namespace,
              JDict [("family_name", JStr "Doe"); ("given_name", JStr "Jane");
                     ("birth_date", JStr "1990-01-01"); ("age_over_18", JBool true);
                     ("issuance_date", JStr "2024-01-01");
                     ("expiry_date", JStr "2034-01-01")])] A'
       /\ Forall2
            (fun nl nv =>
               fst nl = CText (fst nv)
               /\ exists elems elems',
                    snd nv = JDict elems
                    /\ Permutation elems elems'
                    /\ Forall2 recovers (snd nl) elems')
            d A'
       /\ exists ns issuance expiry,
            lookup pid_namespace
              [(pid_namespace,
                JDict [("family_name", JStr "Doe"); ("given_name", JStr "Jane");
                       ("birth_date", JStr "1990-01-01"); ("age_over_18", JBool true);
                       ("issuance_date", JStr "2024-01-01");
                       ("expiry_date", JStr "2034-01-01")])] = Some ns
            /\ getitem ns "issuance_date" = Return issuance
            /\ getitem ns "expiry_date" = Return expiry.
Proof.
  assert (mdocFormatter demo_env demo_data pid_namespace "FC" "device-key"
          = Return demo_mdoc) as H by (vm_compute; reflexivity).
  split; [exact H|].
  apply (mdoc_round_trip demo_env _ pid_namespace "FC" "device-key" demo_mdoc).
  - intros l. apply Permutation_sym, Permutation_rev.
  - reflexivity.
  - vm_compute. reflexivity.
  - vm_compute. reflexivity.
  - exact H.
Defined.

(** *** A missing namespace *)

(** The attribute set of the specification's concrete scenario: its only
    namespace is named [pid]. *)
Definition scenario_data : list (string * json) :=
  [("pid",
    JDict [("family_name", JStr "Doe"); ("given_name", JStr "Jane");
           ("birth_date", JStr "1990-01-01");
           ("issuance_date", JStr "2024-01-01");
           ("expiry_date", JStr "2034-01-01")])].

(** C6, as stated, fails: [scenario_data] lacks the required namespace, and
    the builder raises the [KeyError] of the dictionary lookup, not a
    [MissingDataError]. *)
Lemma missing_namespace_raises_KeyError :
  lookup pid_namespace scenario_data = None
  /\ mdocFormatter demo_env (JDict scenario_data) pid_namespace "FC" "device-key"
     = Raise KeyError.
Proof. split; reflexivity. Qed.

(** C6 (amended): for every attribute set without the namespace
    [eu.europa.ec.eudiw.pid.1], [mdocFormatter] produces no mdoc and no
    typed failure: it raises an exception, and once the country's signing
    key has been loaded that exception is the [KeyError] of
    [data["eu.europa.ec.eudiw.pid.1"]]. *)
Theorem mdocFormatter_missing_namespace
    (env : mdoc_env) (A : list (string * json))
    (doctype country device_publickey : string) :
  lookup pid_namespace A = None ->
  (exists e,
     mdocFormatter env (JDict A) doctype country device_publickey = Raise e)
  /\ (forall cfg key_file priv_d,
        supported_countries env country = Some cfg ->
        read_file env (pid_mdoc_privkey cfg) = Returned key_file ->
        load_pem_private_key env key_file (pid_mdoc_privkey_passwd cfg)
        = Returned priv_d ->
        mdocFormatter env (JDict A) doctype country device_publickey
        = Raise KeyError).
Proof.
  intros Hns. unfold mdocFormatter. split.
  - destruct (supported_countries env country) as [cfg|]; cbn [of_option bind];
      [|eauto].
    destruct (read_file env (pid_mdoc_privkey cfg)) as [key_file|e];
      cbn [run bind]; [|eauto].
    destruct (load_pem_private_key env key_file (pid_mdoc_privkey_passwd cfg))
      as [priv_d|e]; cbn [run bind]; [|eauto].
    unfold getitem at 1. rewrite Hns. cbn. eauto.
  - intros cfg key_file priv_d H1 H2 H3.
    rewrite H1. cbn [of_option bind]. rewrite H2. cbn [run bind].
    rewrite H3. cbn [run bind].
    unfold getitem at 1. rewrite Hns. reflexivity.
Qed.

Lemma mdocFormatter_missing_namespace_witness :
  lookup pid_namespace scenario_data = None
  /\ (exists e,
        mdocFormatter demo_env (JDict scenario_data) pid_namespace "FC" "device-key"
        = Raise e)
  /\ (forall cfg key_file priv_d,
        supported_countries demo_env "FC" = Some cfg ->
        read_file demo_env (pid_mdoc_privkey cfg) = Returned key_file ->
        load_pem_private_key demo_env key_file (pid_mdoc_privkey_passwd cfg)
        = Returned priv_d ->
        mdocFormatter demo_env (JDict scenario_data) pid_namespace "FC" "device-key"
        = Raise KeyError).
Proof.
  split; [reflexivity|].
  apply (mdocFormatter_missing_namespace demo_env scenario_data pid_namespace
           "FC" "device-key").
  reflexivity.
Defined.

(** *** Malformed input to the decoder *)

(** [top['documents'][0]['issuerSigned']['nameSpaces']] *)
Definition signed_namespaces (top : cbor) : outcome cbor :=
  documents <- subscript top (CText "documents") ;;
  document <- subscript documents (CInt 0) ;;
  issuerSigned <- subscript document (CText "issuerSigned") ;;
  subscript issuerSigned (CText "nameSpaces").

(** The decoder on the text of an encoded value. *)
Lemma cbor2elems_dumps top b :
  plain top = true -> dumps top = Return b ->
  cbor2elems (decode_utf8 (urlsafe_b64encode b))
  = (namespaces <- signed_namespaces top ;;
     ks <- keys namespaces ;;
     namespaces_loop namespaces ks []).
Proof.
  intros Pl Hb. unfold cbor2elems, signed_namespaces.
  rewrite urlsafe_b64decode_str_b64encode. cbn [bind].
  rewrite (loads_dumps _ _ Pl Hb). cbn [bind].
  destruct (subscript top (CText "documents")) as [documents| |];
    cbn [bind]; try reflexivity.
  destruct (subscript documents (CInt 0)) as [document| |];
    cbn [bind]; try reflexivity.
  destruct (subscript document (CText "issuerSigned")) as [issuerSigned| |];
    cbn [bind]; reflexivity.
Qed.

(** C7, as stated, fails: [oA==] is the base64url text of the CBOR item
    [a0], the empty map.  It is no mdoc, and the decoder raises the
    [KeyError] of [...['documents']], not a [MalformedCredentialError]. *)
Lemma malformed_mdoc_raises_KeyError :
  urlsafe_b64decode_str "oA==" = Return (encode (CMap []))
  /\ cbor2elems "oA==" = Raise KeyError.
Proof. split; reflexivity. Qed.

(** C7 (amended): [cbor2elems] answers an encoded value that lacks the
    structure of an mdoc with the exception of the step that cannot
    proceed, not with a [MalformedCredentialError].  For the base64url
    text of the encoding of any plain value [top]: when a lookup of
    [top['documents'][0]['issuerSigned']['nameSpaces']] raises, the decoder
    raises that exception -- [KeyError] when [top] is a map without the key
    [documents], [TypeError] when [top] is not a map --, and when what is
    found under [nameSpaces] is not a map, it raises [AttributeError]. *)
Theorem cbor2elems_not_an_mdoc (top : cbor) (b : bytes) :
  plain top = true -> dumps top = Return b ->
  (forall e, signed_namespaces top = Raise e ->
     cbor2elems (decode_utf8 (urlsafe_b64encode b)) = Raise e)
  /\ ((forall m, top = CMap m -> dict_get py_eq (CText "documents") m = None) ->
      cbor2elems (decode_utf8 (urlsafe_b64encode b))
      = Raise (match top with CMap _ => KeyError | _ => TypeError end))
  /\ (forall namespaces,
        signed_namespaces top = Return namespaces ->
        (forall m, namespaces <> CMap m) ->
        cbor2elems (decode_utf8 (urlsafe_b64encode b)) = Raise AttributeError).
Proof.
  intros Pl Hb. rewrite (cbor2elems_dumps top b Pl Hb). repeat split.
  - intros e He. rewrite He. reflexivity.
  - intros Hm. unfold signed_namespaces.
    destruct top as [z|x|s|l|m|t v|x| | |n|raw]; try reflexivity.
    cbn [subscript]. rewrite (Hm m eq_refl). reflexivity.
  - intros namespaces Hn Hm. rewrite Hn. cbn [bind].
    destruct namespaces as [z|x|s|l|m|t v|x| | |n|raw]; try reflexivity.
    destruct (Hm m eq_refl).
Qed.

(** The list [[1, 2]] is no mdoc either: [ggEC] is its text. *)
Lemma cbor2elems_not_an_mdoc_witness :
  plain (CArray [CInt 1; CInt 2]) = true
  /\ dumps (CArray [CInt 1; CInt 2]) = Return (encode (CArray [CInt 1; CInt 2]))
  /\ decode_utf8 (urlsafe_b64encode (encode (CArray [CInt 1; CInt 2]))) = "ggEC"
  /\ cbor2elems "ggEC" = Raise TypeError.
Proof.
  split; [reflexivity|]. split; [reflexivity|]. split; [reflexivity|].
  destruct (cbor2elems_not_an_mdoc (CArray [CInt 1; CInt 2])
              (encode (CArray [CInt 1; CInt 2])) eq_refl eq_refl) as (_ & H & _).
  apply H. intros m E. discriminate E.
Defined.

(** ** Further properties of the mdoc builder and decoder *)

(** *** The validity dates *)

(** X8: [mdocFormatter] takes the validity of the mdoc from the elements
    [issuance_date] and [expiry_date] of the namespace
    [eu.europa.ec.eudiw.pid.1].  For every attribute set whose namespace of
    that name lacks one of the two, and whatever else it holds, the builder
    (once the signing key of the country is loaded) raises the [KeyError]
    of the lookup and produces no mdoc. *)
Theorem mdocFormatter_missing_validity_date
    (env : mdoc_env) (A elems : list (string * json))
    (doctype country device_publickey : string)
    (cfg : country_config) (key_file : bytes) (priv_d : Z) :
  supported_countries env country = Some cfg ->
  read_file env (pid_mdoc_privkey cfg) = Returned key_file ->
  load_pem_private_key env key_file (pid_mdoc_privkey_passwd cfg) = Returned priv_d ->
  lookup pid_namespace A = Some (JDict elems) ->
  lookup "issuance_date" elems = None \/ lookup "expiry_date" elems = None ->
  mdocFormatter env (JDict A) doctype country device_publickey = Raise KeyError.
Proof.
  intros H1 H2 H3 Hns Hd. unfold mdocFormatter.
  rewrite H1. cbn [of_option bind]. rewrite H2. cbn [run bind].
  rewrite H3. cbn [run bind].
  unfold getitem at 1. rewrite Hns. cbn [of_option bind].
  unfold getitem at 1.
  destruct (lookup "issuance_date" elems) as [issuance|] eqn:Ei; [|reflexivity].
  destruct Hd as [Hd|Hd]; [discriminate Hd|].
  cbn [of_option bind]. unfold getitem at 1. rewrite Hns. cbn [of_option bind].
  unfold getitem at 1. rewrite Hd. reflexivity.
Qed.

Lemma mdocFormatter_missing_validity_date_witness :
  mdocFormatter demo_env
    (JDict [(pid_namespace,
             JDict [("family_name", JStr "Doe");
                    ("issuance_date", JStr "2024-01-01")])])
    pid_namespace "FC" "device-key"
  = Raise KeyError.
Proof.
  apply (mdocFormatter_missing_validity_date demo_env
           [(pid_namespace,
             JDict [("family_name", JStr "Doe");
                    ("issuance_date", JStr "2024-01-01")])]
           [("family_name", JStr "Doe"); ("issuance_date", JStr "2024-01-01")]
           pid_namespace "FC" "device-key"
           (mk_country_config "keys/FC.pem" None "keys/FC.der")
           (encode_utf8 "keys/FC.pem") 65537).
  - reflexivity.
  - reflexivity.
  - reflexivity.
  - reflexivity.
  - right. reflexivity.
Defined.

(** *** The signing key *)

Lemma run_Return {A : Type} (c : call A) a : run c = Return a -> c = Returned a.
Proof. destruct c; cbn; intros H; [injection H as ->; reflexivity|discriminate H]. Qed.

Lemma of_option_Return {A : Type} e (o : option A) a :
  of_option e o = Return a -> o = Some a.
Proof. destruct o; cbn; intros H; [injection H as ->; reflexivity|discriminate H]. Qed.

(** The shortest big-endian form of a natural number reads back as the
    number. *)
Lemma from_bytes_big_minimal n l b :
  to_bytes_big n l = Return b -> l = (bit_length n + 7) / 8 ->
  0 <= n /\ from_bytes_big b = n.
Proof.
  intros H ->. unfold to_bytes_big in H.
  destruct (Z.ltb_spec n 0) as [N|N]; [discriminate H|].
  cbn [orb] in H.
  destruct (2 ^ (8 * ((bit_length n + 7) / 8)) <=? n); [discriminate H|].
  injection H as <-. split; [exact N|].
  apply from_bytes_to_bytes.
  pose proof (bit_length_bound n N) as B. unfold bignum_length in B.
  assert (0 <= (bit_length n + 7) / 8) as L.
  { unfold bit_length. destruct (n =? 0); [cbn; lia|].
    pose proof (Z.log2_nonneg (Z.abs n)). Z.div_mod_to_equations. lia. }
  rewrite Z2Nat.id by exact L. lia.
Qed.

(** X9: every mdoc that [mdocFormatter] returns was signed under the COSE
    key made from the private key of the issuing country: the key file and
    password configured for [country] are the ones read, the key is
    declared as EC2 / P_256 / ES256 with key id [mdocIssuer], and its [D]
    is the private value written big-endian, which reads back as that
    private value.  The signature is made over the document type and the
    data as given, with the validity dates taken from the namespace
    [eu.europa.ec.eudiw.pid.1], for the device key given and with the
    certificate configured for the country. *)
Theorem mdocFormatter_signing_key
    (env : mdoc_env) (data : json)
    (doctype country device_publickey m : string) :
  mdocFormatter env data doctype country device_publickey = Return m ->
  exists cfg key_file priv_d ns issuance expiry d signature,
    supported_countries env country = Some cfg
    /\ read_file env (pid_mdoc_privkey cfg) = Returned key_file
    /\ load_pem_private_key env key_file (pid_mdoc_privkey_passwd cfg)
       = Returned priv_d
    /\ getitem data pid_namespace = Return ns
    /\ getitem ns "issuance_date" = Return issuance
    /\ getitem ns "expiry_date" = Return expiry
    /\ 0 <= priv_d
    /\ from_bytes_big d = priv_d
    /\ issuer_auth env
         (mk_cose_key "EC2" "P_256" "ES256" d (encode_utf8 "mdocIssuer"))
         doctype data (issuance, expiry) device_publickey (pid_mdoc_cert cfg)
       = Returned signature.
Proof.
  intros H. unfold mdocFormatter in H.
  apply bind_Return in H. destruct H as (cfg & H1 & H).
  apply bind_Return in H. destruct H as (key_file & H2 & H).
  apply bind_Return in H. destruct H as (priv_d & H3 & H).
  apply bind_Return in H. destruct H as (ns1 & H4 & H).
  apply bind_Return in H. destruct H as (issuance & H5 & H).
  apply bind_Return in H. destruct H as (ns2 & H6 & H).
  apply bind_Return in H. destruct H as (expiry & H7 & H).
  apply bind_Return in H. destruct H as (d & H8 & H).
  apply bind_Return in H. destruct H as (signed & H9 & H).
  rewrite H4 in H6. injection H6 as <-.
  destruct (from_bytes_big_minimal _ _ _ H8 eq_refl) as [N F].
  unfold MdocCborIssuer_new in H9. destruct data as [| | | | |namespaces];
    try discriminate H9.
  apply bind_Return in H9. destruct H9 as (nameSpaces & _ & H9).
  apply bind_Return in H9. destruct H9 as (signature & H10 & _).
  apply of_option_Return in H1. apply run_Return in H2, H3, H10.
  exists cfg, key_file, priv_d, ns1, issuance, expiry, d, signature.
  repeat split; assumption.
Qed.

Lemma mdocFormatter_signing_key_witness :
  exists cfg key_file priv_d ns issuance expiry d signature,
    supported_countries demo_env "FC" = Some cfg
    /\ read_file demo_env (pid_mdoc_privkey cfg) = Returned key_file
    /\ load_pem_private_key demo_env key_file (pid_mdoc_privkey_passwd cfg)
       = Returned priv_d
    /\ getitem demo_data pid_namespace = Return ns
    /\ getitem ns "issuance_date" = Return issuance
    /\ getitem ns "expiry_date" = Return expiry
    /\ 0 <= priv_d
    /\ from_bytes_big d = priv_d
    /\ issuer_auth demo_env
         (mk_cose_key "EC2" "P_256" "ES256" d (encode_utf8 "mdocIssuer"))
         pid_namespace demo_data (issuance, expiry) "device-key" (pid_mdoc_cert cfg)
       = Returned signature.
Proof.
  apply (mdocFormatter_signing_key demo_env demo_data pid_namespace "FC"
           "device-key" demo_mdoc).
  vm_compute. reflexivity.
Defined.

(** *** The text of an mdoc *)

(** The characters of the URL-safe alphabet: letters, digits, [-] and [_],
    and the pad [=]. *)
Definition url_safe (c : ascii) : bool :=
  let n := Z_of_byte c in
  ((65 <=? n) && (n <=? 90)) || ((97 <=? n) && (n <=? 122))
  || ((48 <=? n) && (n <=? 57)) || (n =? 45) || (n =? 95) || (n =? 61).

Lemma urlsafe_b64encode_url_safe b : forallb url_safe (urlsafe_b64encode b) = true.
Proof.
  assert (forallb (fun n => url_safe (urlsafe_encode_translation (b2a_char n)))
            (map Z.of_nat (seq 0 64)) = true) as A by (vm_compute; reflexivity).
  rewrite forallb_forall in A.
  unfold urlsafe_b64encode, b64encode. apply forallb_forall. intros c Hc.
  apply in_map_iff in Hc. destruct Hc as [c' [<- Hc']].
  pose proof (b2a_base64_chars b) as F. rewrite Forall_forall in F.
  destruct (F c' Hc') as [|n Hn]; [reflexivity|].
  apply A. apply in_map_iff. exists (Z.to_nat n). split; [lia|].
  apply in_seq. lia.
Qed.

(** X10: the text [mdocFormatter] returns is written in the URL-safe
    base64 alphabet only -- letters, digits, [-], [_] and the pad [=],
    never [+] or [/] -- and [urlsafe_b64decode] reads it back to the
    encoded document it was made from. *)
Theorem mdocFormatter_returns_urlsafe_text
    (env : mdoc_env) (data : json)
    (doctype country device_publickey m : string) :
  mdocFormatter env data doctype country device_publickey = Return m ->
  forallb url_safe (list_ascii_of_string m) = true
  /\ exists signed dump,
       dumps signed = Return dump
       /\ urlsafe_b64decode_str m = Return dump.
Proof.
  intros H. unfold mdocFormatter in H.
  repeat (apply bind_Return in H; destruct H as (? & ? & H)).
  injection H as <-. split.
  - unfold decode_utf8. rewrite list_ascii_of_string_of_list_ascii.
    apply urlsafe_b64encode_url_safe.
  - eexists _, _. split; [eassumption|]. apply urlsafe_b64decode_str_b64encode.
Qed.

Lemma mdocFormatter_returns_urlsafe_text_witness :
  forallb url_safe (list_ascii_of_string demo_mdoc) = true
  /\ exists signed dump,
       dumps signed = Return dump
       /\ urlsafe_b64decode_str demo_mdoc = Return dump.
Proof.
  apply (mdocFormatter_returns_urlsafe_text demo_env demo_data pid_namespace "FC"
           "device-key" demo_mdoc).
  vm_compute. reflexivity.
Defined.

(** *** What the decoder reads *)

(** X11: [cbor2elems] reads [documents[0].issuerSigned.nameSpaces] and
    nothing else.  Two encoded documents with the same value there are
    decoded alike (to the same elements, or to the same exception),
    whatever their issuer signature, document type, version, status and
    further documents: the decoder checks no signature. *)
Theorem cbor2elems_reads_only_the_namespaces (top top' : cbor) (b b' : bytes) :
  plain top = true -> dumps top = Return b ->
  plain top' = true -> dumps top' = Return b' ->
  signed_namespaces top = signed_namespaces top' ->
  cbor2elems (decode_utf8 (urlsafe_b64encode b))
  = cbor2elems (decode_utf8 (urlsafe_b64encode b')).
Proof.
  intros Pl Hb Pl' Hb' E.
  rewrite (cbor2elems_dumps top b Pl Hb), (cbor2elems_dumps top' b' Pl' Hb').
  rewrite E. reflexivity.
Qed.

(** An element as an issuer wraps it. *)
Definition wrapped (record : cbor) : cbor := CTag 24 (CBytes (encode record)).

Definition signed_document (docType : string) (nameSpaces : cbor) (issuerAuth : string)
  : cbor :=
  CMap [(CText "docType", CText docType);
        (CText "issuerSigned",
         CMap [(CText "nameSpaces", nameSpaces);
               (CText "issuerAuth", CBytes (encode_utf8 issuerAuth))])].

Definition one_name : cbor :=
  CMap [(CText "org.iso.18013.5.1",
         CArray [wrapped (CMap [(CText "digestID", CInt 0);
                                (CText "random", CBytes (encode_utf8 "salt"));
                                (CText "elementIdentifier", CText "family_name");
                                (CText "elementValue", CText "Doe")])])].

Definition genuine : cbor :=
  CMap [(CText "version", CText "1.0");
        (CText "documents",
         CArray [signed_document "org.iso.18013.5.1.mDL" one_name "signature"]);
        (CText "status", CInt 0)].

Definition altered : cbor :=
  CMap [(CText "documents",
         CArray [signed_document "another" one_name "forged";
                 signed_document "org.iso.18013.5.1.mDL" (CMap []) "signature"])].

Lemma cbor2elems_reads_only_the_namespaces_witness :
  cbor2elems (decode_utf8 (urlsafe_b64encode (encode genuine)))
  = cbor2elems (decode_utf8 (urlsafe_b64encode (encode altered))).
Proof.
  apply (cbor2elems_reads_only_the_namespaces genuine altered
           (encode genuine) (encode altered)).
  - vm_compute. reflexivity.
  - vm_compute. reflexivity.
  - vm_compute. reflexivity.
  - vm_compute. reflexivity.
  - reflexivity.
Defined.

(** X12: [cbor2elems] takes [.value] of the element value of every element
    named [birth_date], [expiry_date] or [issuance_date].  An mdoc whose
    first element is the tagged encoding of a plain record with one of
    these names and a text string as its value (a date that is not wrapped
    in a CBOR tag) is not decoded: the decoder raises [AttributeError]. *)
Theorem cbor2elems_untagged_date
    (top namespaces n es e val id : cbor) (ks rest : list cbor)
    (s : string) (b inner : bytes) :
  plain top = true -> dumps top = Return b ->
  signed_namespaces top = Return namespaces ->
  keys namespaces = Return (n :: ks) ->
  subscript namespaces n = Return es ->
  iterate es = Return (e :: rest) ->
  attr_value e = Return (CBytes inner) ->
  plain val = true -> dumps val = Return inner ->
  subscript val (CText "elementIdentifier") = Return id ->
  py_eq id (CText "birth_date") || py_eq id (CText "expiry_date")
  || py_eq id (CText "issuance_date") = true ->
  subscript val (CText "elementValue") = Return (CText s) ->
  cbor2elems (decode_utf8 (urlsafe_b64encode b)) = Raise AttributeError.
Proof.
  intros Pl Hb Hns Hk Hes Hit He Pv Hev Hid Hdate Hval.
  rewrite (cbor2elems_dumps top b Pl Hb). rewrite Hns. cbn [bind].
  rewrite Hk. cbn [bind namespaces_loop]. rewrite Hes. cbn [bind].
  rewrite Hit. cbn [bind mapM]. unfold element at 1.
  rewrite He. cbn [bind loads_obj]. rewrite (loads_dumps _ _ Pv Hev). cbn [bind].
  rewrite Hid. cbn [bind].
  rewrite Hdate. rewrite Hval. reflexivity.
Qed.

Definition untagged_birth_date : cbor :=
  CMap [(CText "documents",
         CArray [signed_document "eu.europa.ec.eudiw.pid.1"
                   (CMap [(CText "eu.europa.ec.eudiw.pid.1",
                           CArray [wrapped
                                     (CMap [(CText "elementIdentifier",
                                             CText "birth_date");
                                            (CText "elementValue",
                                             CText "1990-01-01")])])])
                   "signature"])].

Lemma cbor2elems_untagged_date_witness :
  cbor2elems (decode_utf8 (urlsafe_b64encode (encode untagged_birth_date)))
  = Raise AttributeError.
Proof.
  apply (cbor2elems_untagged_date untagged_birth_date
           (CMap [(CText "eu.europa.ec.eudiw.pid.1",
                   CArray [wrapped
                             (CMap [(CText "elementIdentifier", CText "birth_date");
                                    (CText "elementValue", CText "1990-01-01")])])])
           (CText "eu.europa.ec.eudiw.pid.1")
           (CArray [wrapped
                      (CMap [(CText "elementIdentifier", CText "birth_date");
                             (CText "elementValue", CText "1990-01-01")])])
           (wrapped (CMap [(CText "elementIdentifier", CText "birth_date");
                           (CText "elementValue", CText "1990-01-01")]))
           (CMap [(CText "elementIdentifier", CText "birth_date");
                  (CText "elementValue", CText "1990-01-01")])
           (CText "birth_date") [] [] "1990-01-01"
           (encode untagged_birth_date)
           (encode (CMap [(CText "elementIdentifier", CText "birth_date");
                          (CText "elementValue", CText "1990-01-01")]))).
  - vm_compute. reflexivity.
  - vm_compute. reflexivity.
  - reflexivity.
  - reflexivity.
  - reflexivity.
  - reflexivity.
  - reflexivity.
  - vm_compute. reflexivity.
  - vm_compute. reflexivity.
  - reflexivity.
  - reflexivity.
  - reflexivity.
Defined.

(** *** The decoder on a document in the layout of an mdoc *)

(** An element as it stands in an mdoc: digest id, salt, identifier and
    element value.  [signed_item] is its record, encoded and tagged 24. *)
Definition item : Type := (nat * bytes * string * cbor)%type.

Definition item_record (it : item) : cbor :=
  let '(digest_id, salt, k, x) := it in
  CMap [(CText "digestID", CInt (Z.of_nat digest_id));
        (CText "random", CBytes salt);
        (CText "elementIdentifier", CText k);
        (CText "elementValue", x)].

Definition signed_item (it : item) : cbor :=
  CTag 24 (CBytes (encode (item_record it))).

Definition signed_namespace (ns : string * list item) : cbor * cbor :=
  (CText (fst ns), CArray (map signed_item (snd ns))).

(** The names the decoder takes for dates. *)
Definition decoder_date (k : string) : bool :=
  String.eqb k "birth_date" || String.eqb k "expiry_date"
  || String.eqb k "issuance_date".

(** The record of an item can be read back, and a date is under a tag. *)
Definition well_formed (it : item) : bool :=
  let '(_, _, k, x) := it in
  plain (item_record it) && encodable (item_record it)
  && (if decoder_date k then match x with CTag _ _ => true | _ => false end
      else true).

(** What the decoder is to give for it. *)
Definition item_pair (it : item) : cbor * cbor :=
  let '(_, _, k, x) := it in
  (CText k,
   if decoder_date k then match x with CTag _ date => date | _ => x end else x).

Definition namespace_pairs (ns : string * list item) : cbor * list (cbor * cbor) :=
  (CText (fst ns), map item_pair (snd ns)).

Lemma element_signed_item it :
  well_formed it = true -> element (signed_item it) = Return (item_pair it).
Proof.
  destruct it as [[[digest_id salt] k] x]. unfold well_formed, signed_item.
  intros W. apply andb_true_iff in W. destruct W as [W W3].
  apply andb_true_iff in W. destruct W as [W1 W2].
  unfold element. cbn [attr_value bind loads_obj].
  rewrite (loads_dumps _ _ W1) by (unfold dumps; rewrite W2; reflexivity).
  cbn [item_record bind subscript dict_get py_eq String.eqb Ascii.eqb Bool.eqb
       of_option].
  cbn [py_eq]. unfold item_pair. fold (decoder_date k).
  destruct (decoder_date k); [|reflexivity].
  destruct x; try discriminate W3. reflexivity.
Qed.

Lemma mapM_element_signed_items items :
  forallb well_formed items = true ->
  mapM element (map signed_item items) = Return (map item_pair items).
Proof.
  induction items as [|it items IH]; intros W; [reflexivity|].
  cbn [forallb] in W. apply andb_true_iff in W. destruct W as [W1 W2].
  cbn [map mapM]. rewrite (IH W2), (element_signed_item it W1). reflexivity.
Qed.

Lemma fresh_namespace n (pre : list (string * list item)) :
  ~ In n (map fst pre) ->
  existsb (py_eq (CText n)) (map fst (map signed_namespace pre)) = false.
Proof.
  induction pre as [|[n' items] pre IH]; intros H; [reflexivity|].
  cbn [map fst In] in H. cbn [map fst existsb signed_namespace py_eq].
  destruct (String.eqb_spec n n') as [->|_]; [tauto|]. apply IH. tauto.
Qed.

Lemma namespaces_loop_signed : forall suf pre dpre,
  NoDup (map fst (pre ++ suf)) ->
  Forall (fun ns => forallb well_formed (snd ns) = true) suf ->
  map fst dpre = map fst (map signed_namespace pre) ->
  namespaces_loop (CMap (map signed_namespace (pre ++ suf)))
    (map fst (map signed_namespace suf)) dpre
  = Return (dpre ++ map namespace_pairs suf).
Proof.
  induction suf as [|[n items] suf IH]; intros pre dpre N F E.
  - cbn. rewrite app_nil_r. reflexivity.
  - inversion F as [|? ? Fi F']; subst. cbn [snd] in Fi.
    assert (~ In n (map fst pre)) as Fresh.
    { rewrite map_app in N. apply NoDup_remove_2 in N.
      intros I. apply N. apply in_or_app. left. exact I. }
    cbn [map fst signed_namespace namespaces_loop subscript].
    rewrite map_app. cbn [map].
    change (signed_namespace (n, items))
      with (CText n, CArray (map signed_item items)).
    change (namespace_pairs (n, items)) with (CText n, map item_pair items).
    rewrite (dict_get_fresh (CText n) (CArray (map signed_item items))
               (map signed_namespace pre) (map signed_namespace suf)
               (fresh_namespace n pre Fresh))
      by (cbn; apply String.eqb_refl).
    cbn [of_option bind iterate].
    rewrite (mapM_element_signed_items items Fi). cbn [bind].
    rewrite (dict_set_fresh py_eq)
      by (rewrite E; exact (fresh_namespace n pre Fresh)).
    replace (map signed_namespace pre
             ++ (CText n, CArray (map signed_item items)) :: map signed_namespace suf)
      with (map signed_namespace ((pre ++ [(n, items)]) ++ suf))
      by (rewrite <- app_assoc, map_app; reflexivity).
    rewrite IH.
    + rewrite <- app_assoc. reflexivity.
    + rewrite <- app_assoc. exact N.
    + exact F'.
    + rewrite !map_app, E. reflexivity.
Qed.

(** X19: [cbor2elems] reads a document in the layout of an mdoc, whoever
    wrote it.  Let [top] be a plain value whose
    [documents[0].issuerSigned.nameSpaces] maps distinct namespace names
    to arrays of elements, each the tag-24 encoding of a plain record
    [{digestID, random, elementIdentifier, elementValue}] in which the
    value of an element named [birth_date], [expiry_date] or
    [issuance_date] stands under a tag.  On the base64url text of the
    encoding of [top] the decoder returns the namespaces in the order of
    the document, each with its (identifier, value) pairs in the order of
    the document, the three dates without their tag and every other value
    as it stands in the record; digest ids, salts and everything else in
    the document are of no influence. *)
Theorem cbor2elems_reads_the_layout
    (top : cbor) (b : bytes) (nss : list (string * list item)) :
  plain top = true -> dumps top = Return b ->
  signed_namespaces top = Return (CMap (map signed_namespace nss)) ->
  NoDup (map fst nss) ->
  Forall (fun ns => forallb well_formed (snd ns) = true) nss ->
  cbor2elems (decode_utf8 (urlsafe_b64encode b))
  = Return (map namespace_pairs nss).
Proof.
  intros Pl Hb Hns N F.
  rewrite (cbor2elems_dumps top b Pl Hb). rewrite Hns. cbn [bind keys dict_keys].
  exact (namespaces_loop_signed nss [] [] N F eq_refl).
Qed.

Definition two_namespaces : list (string * list item) :=
  [("eu.europa.ec.eudiw.pid.1",
    [(7%nat, encode_utf8 "salt-7", "birth_date", CTag 1004 (CText "1990-01-01"));
     (3%nat, encode_utf8 "salt-3", "family_name", CText "Doe")]);
   ("eu.europa.ec.eudiw.pid.fc.1",
    [(0%nat, encode_utf8 "salt-0", "age_over_18", CBool true)])].

Definition other_issuer : cbor :=
  CMap [(CText "documents",
         CArray [signed_document "eu.europa.ec.eudiw.pid.1"
                   (CMap (map signed_namespace two_namespaces)) "signature"])].

Lemma cbor2elems_reads_the_layout_witness :
  cbor2elems (decode_utf8 (urlsafe_b64encode (encode other_issuer)))
  = Return
      [(CText "eu.europa.ec.eudiw.pid.1",
        [(CText "birth_date", CText "1990-01-01");
         (CText "family_name", CText "Doe")]);
       (CText "eu.europa.ec.eudiw.pid.fc.1",
        [(CText "age_over_18", CBool true)])].
Proof.
  apply (cbor2elems_reads_the_layout other_issuer (encode other_issuer)
           two_namespaces).
  - vm_compute. reflexivity.
  - vm_compute. reflexivity.
  - reflexivity.
  - repeat constructor; cbn; intuition discriminate.
  - repeat constructor.
Defined.

(** *** The element [issue_date] *)

(** X23: the issuer tags the value of an element named [issue_date] as a
    date, like those of [birth_date], [issuance_date] and [expiry_date],
    but [cbor2elems] takes the tag off these three only.  In the decoding
    of an mdoc that [mdocFormatter] returned, an element [issue_date] of a
    namespace of the attribute set (namespaces of elements, all text)
    stands with tag 1004 around its value. *)
Theorem mdoc_issue_date_keeps_its_tag
    (env : mdoc_env) (A elems : list (string * json)) (v : json)
    (doctype country device_publickey m ns : string) :
  (forall l, Permutation (shuffle_dict env l) l) ->
  attribute_set A = true ->
  json_text (JDict A) = true -> text doctype = true ->
  mdocFormatter env (JDict A) doctype country device_publickey = Return m ->
  In (ns, JDict elems) A -> In ("issue_date", v) elems ->
  exists d l,
    cbor2elems m = Return d
    /\ In (CText ns, l) d
    /\ In (CText "issue_date", CTag 1004 (embed v)) l.
Proof.
  intros Hshuffle _ TA Td H Hns Hv.
  destruct (cbor2elems_mdocFormatter _ _ _ _ _ _ Hshuffle TA Td H)
    as (A' & PA & D & _).
  exists (map (decoded env) A'), (map pair_of (shuffle_dict env elems)).
  split; [exact D|]. split.
  - apply (Permutation_in _ PA) in Hns.
    apply (in_map (decoded env)) in Hns. exact Hns.
  - apply (Permutation_in _ (Permutation_sym (Hshuffle elems))) in Hv.
    apply (in_map pair_of) in Hv. exact Hv.
Qed.

Definition issue_dated_data : list (string * json) :=
  [(pid_namespace,
    JDict [("family_name", JStr "Doe");
           ("issue_date", JStr "2024-01-01");
           ("issuance_date", JStr "2024-01-01");
           ("expiry_date", JStr "2034-01-01")])].

Definition issue_dated_mdoc : string :=
  match mdocFormatter demo_env (JDict issue_dated_data) pid_namespace "FC"
          "device-key" with
  | Return m => m
  | _ => ""
  end.

Lemma mdoc_issue_date_keeps_its_tag_witness :
  mdocFormatter demo_env (JDict issue_dated_data) pid_namespace "FC" "device-key"
  = Return issue_dated_mdoc
  /\ exists d l,
       cbor2elems issue_dated_mdoc = Return d
       /\ In (CText pid_namespace, l) d
       /\ In (CText "issue_date", CTag 1004 (CText "2024-01-01")) l.
Proof.
  assert (mdocFormatter demo_env (JDict issue_dated_data) pid_namespace "FC"
            "device-key" = Return issue_dated_mdoc) as H
    by (vm_compute; reflexivity).
  split; [exact H|].
  apply (mdoc_issue_date_keeps_its_tag demo_env issue_dated_data
           [("family_name", JStr "Doe");
            ("issue_date", JStr "2024-01-01");
            ("issuance_date", JStr "2024-01-01");
            ("expiry_date", JStr "2034-01-01")]
           (JStr "2024-01-01") pid_namespace "FC" "device-key"
           issue_dated_mdoc pid_namespace).
  - intros l. apply Permutation_sym, Permutation_rev.
  - reflexivity.
  - vm_compute. reflexivity.
  - vm_compute. reflexivity.
  - exact H.
  - left. reflexivity.
  - right. left. reflexivity.
Defined.

End Mdoc.

(** ** [formatter_func.py]: the SD-JWT builder *)

Module SdJwt.

Import Base64 Sha256 Calendar.
Open Scope string_scope.
Open Scope list_scope.
Open Scope Z_scope.

(** *** Python values *)

(** [a == b] on JSON-like values, with [False == 0] and [True == 1]. *)
Fixpoint json_eqb (a b : json) : bool :=
  match a, b with
  | JNull, JNull => true
  | JBool x, JBool y => Bool.eqb x y
  | JInt x, JInt y => x =? y
  | JInt x, JBool y => x =? (if y then 1 else 0)
  | JBool x, JInt y => (if x then 1 else 0) =? y
  | JStr x, JStr y => String.eqb x y
  | JList x, JList y =>
      (fix all2 (x y : list json) : bool :=
         match x, y with
         | [], [] => true
         | u :: x', w :: y' => json_eqb u w && all2 x' y'
         | _, _ => false
         end) x y
  | JDict x, JDict y =>
      (fix all2 (x y : list (string * json)) : bool :=
         match x, y with
         | [], [] => true
         | u :: x', w :: y' =>
             String.eqb (fst u) (fst w) && json_eqb (snd u) (snd w) && all2 x' y'
         | _, _ => false
         end) x y
  | _, _ => false
  end.

(** The truth value of an object. *)
Definition truthy (j : json) : bool :=
  match j with
  | JNull => false
  | JBool b => b
  | JInt z => negb (z =? 0)
  | JStr s => negb (String.eqb s "")
  | JList l => match l with [] => false | _ => true end
  | JDict d => match d with [] => false | _ => true end
  end.

(** [obj.get(key, default)]: a method of [dict] only. *)
Definition dict_get_default (obj : json) (key : string) (default : json)
  : outcome json :=
  match obj with
  | JDict d =>
      Return (match lookup key d with Some v => v | None => default end)
  | _ => Raise AttributeError
  end.

(** [list(obj.keys())]. *)
Definition keys_list (obj : json) : outcome (list string) :=
  match obj with
  | JDict d => Return (dict_keys d)
  | _ => Raise AttributeError
  end.

(** [l[i]] on the list of keys. *)
Definition key_at (l : list string) (i : nat) : outcome string :=
  of_option IndexError (nth_error l i).

(** [for i in obj]: the keys of a [dict], the elements of a [list], the
    characters of a [str]. *)
Definition iterate (obj : json) : outcome (list json) :=
  match obj with
  | JDict d => Return (map JStr (dict_keys d))
  | JList l => Return l
  | JStr s =>
      Return (map (fun c => JStr (String c EmptyString)) (list_ascii_of_string s))
  | _ => Raise TypeError
  end.

Definition index {A : Type} (l : list A) (i : Z) : option A :=
  let n := Z.of_nat (List.length l) in
  if (0 <=? i) && (i <? n) then nth_error l (Z.to_nat i)
  else if (- n <=? i) && (i <? 0) then nth_error l (Z.to_nat (i + n))
  else None.

Definition as_index (key : json) : option Z :=
  match key with
  | JInt i => Some i
  | JBool b => Some (if b then 1 else 0)
  | _ => None
  end.

(** [obj[key]] for an arbitrary key. *)
Definition subscript (obj key : json) : outcome json :=
  match obj with
  | JDict d =>
      match key with
      | JStr k => of_option KeyError (lookup k d)
      | JList _ | JDict _ => Raise TypeError
      | _ => Raise KeyError
      end
  | JList l =>
      match as_index key with
      | Some i => of_option IndexError (index l i)
      | None => Raise TypeError
      end
  | JStr s =>
      match as_index key with
      | Some i =>
          of_option IndexError
            (option_map (fun c => JStr (String c EmptyString))
               (index (list_ascii_of_string s) i))
      | None => Raise TypeError
      end
  | _ => Raise TypeError
  end.

(** *** The claims handed to the issuer

    A key of a dictionary of claims is a [str], or a string wrapped as
    [SDObj(value=...)] to mark the claim selectively disclosable. *)
Inductive claim_key : Type :=
| Plain (s : string)
| SDObj (value : json).

Inductive claim : Type :=
| PNone
| PBool (b : bool)
| PInt (z : Z)
| PStr (s : string)
| PList (l : list claim)
| PDict (d : list (claim_key * claim)).

Definition claim_key_eqb (a b : claim_key) : bool :=
  match a, b with
  | Plain x, Plain y => String.eqb x y
  | SDObj x, SDObj y => json_eqb x y
  | _, _ => false
  end.

Fixpoint of_json (j : json) : claim :=
  match j with
  | JNull => PNone
  | JBool b => PBool b
  | JInt z => PInt z
  | JStr s => PStr s
  | JList l => PList (map of_json l)
  | JDict d => PDict (map (fun kv => (Plain (fst kv), of_json (snd kv))) d)
  end.

(** *** [DATA_sd_jwt] *)

Fixpoint DATA_sd_jwt_loop (PID : json) (items : list json)
    (Data : list (claim_key * claim)) : outcome (list (claim_key * claim)) :=
  match items with
  | [] => Return Data
  | i :: rest =>
      v <- subscript PID i ;;
      let data := [(SDObj i, of_json v)] in
      DATA_sd_jwt_loop PID rest (dict_update claim_key_eqb Data data)
  end.

Definition DATA_sd_jwt (PID : json) : outcome (list (claim_key * claim)) :=
  items <- iterate PID ;;
  DATA_sd_jwt_loop PID items [].

(** *** [DatestringFormatter] *)

(** [int(x)] truncates towards zero.  The quotient is exact in [float]
    arithmetic for the timestamps of calendar dates, so the truncated
    quotient of the integers is what Python computes. *)
Definition DatestringFormatter (utcoffset : Z -> Z) (date : json) : outcome Z :=
  match date with
  | JStr s =>
      date_objectiat <- strptime s ;;
      seconds <- timestamp utcoffset date_objectiat ;;
      let datefinal := Z.quot seconds (24 * 60 * 60) in
      Return datefinal
  | _ => Raise TypeError
  end.

(** *** The issuer of [sd_jwt]

    [SDJWTIssuer] walks the claims.  A claim under a plain key stays in the
    signed body under that key.  A claim under an [SDObj] key is taken out
    of the body: a disclosure [(salt, name, value)] is created for it with
    a fresh salt, and the digest of the disclosure is added to the [_sd]
    list of the object it was in.  Decoy digests are added to every object
    when asked for; the [_sd] list is sorted, and left out when empty. *)
Record disclosure : Type := mk_disclosure {
  salt : string; name : json; value : claim }.

Record sd_state : Type := mk_sd_state {
  draws : nat;                      (* random draws made so far *)
  ii_disclosures : list disclosure  (* disclosures created so far *) }.

Definition jwk : Type := json.

Record jwk_keys : Type := mk_jwk_keys {
  issuer_key : jwk; holder_key : jwk; issuer_public_key : jwk }.

Inductive public_key : Type :=
| EllipticCurvePublicKey (curve_name : string) (x y : Z)
| OtherPublicKey.

(** What the builder takes from its surroundings: the two YAML files, the
    key helper [get_jwk] of [sd_jwt], [uuid4], the local time zone, the
    parser of PEM public keys, and of the issuer the salts, the decoy
    digests, the digest of a disclosure and the signature with the
    serialisation of the result. *)
Record sdjwt_env : Type := mk_sdjwt_env {
  load_yaml_settings : string -> call json;
  load_yaml_specification : string -> call json;
  get_jwk : json -> bool -> Z -> call jwk_keys;
  uuid4 : string;
  utcoffset : Z -> Z;
  load_pem_public_key : bytes -> call public_key;
  generate_salt : nat -> string;
  decoy_digests : nat -> list string;
  disclosure_hash : disclosure -> string;
  sign_and_combine : claim -> list disclosure -> jwk -> jwk -> call string }.

Fixpoint insert_sorted (s : string) (l : list string) : list string :=
  match l with
  | [] => [s]
  | x :: l' => if String.leb s x then s :: l else x :: insert_sorted s l'
  end.

(** [list.sort()] on strings. *)
Definition sort_strings (l : list string) : list string :=
  fold_right insert_sorted [] l.

Definition SD_DIGESTS_KEY : string := "_sd".

Section Issuer.
Variable env : sdjwt_env.
Variable add_decoy_claims : bool.

Section Object.
Variable create : claim -> sd_state -> claim * sd_state.

(** The entries of one object: the claims that stay, the digests of those
    taken out, and the state after. *)
Fixpoint create_sd_entries (entries : list (claim_key * claim)) (st : sd_state)
  : list (claim_key * claim) * list string * sd_state :=
  match entries with
  | [] => ([], [], st)
  | (key, v) :: rest =>
      let (subtree_from_here, st1) := create v st in
      match key with
      | SDObj key_value =>
          let d := mk_disclosure (generate_salt env (draws st1)) key_value
                     subtree_from_here in
          let st2 := mk_sd_state (S (draws st1)) (ii_disclosures st1 ++ [d]) in
          let '(kept, digests, st3) := create_sd_entries rest st2 in
          (kept, disclosure_hash env d :: digests, st3)
      | Plain _ =>
          let '(kept, digests, st3) := create_sd_entries rest st1 in
          ((key, subtree_from_here) :: kept, digests, st3)
      end
  end.

Fixpoint create_sd_list (l : list claim) (st : sd_state) : list claim * sd_state :=
  match l with
  | [] => ([], st)
  | c :: rest =>
      let (c', st1) := create c st in
      let (rest', st2) := create_sd_list rest st1 in
      (c' :: rest', st2)
  end.
End Object.

Definition sd_object (kept : list (claim_key * claim)) (digests : list string)
  : claim :=
  match digests with
  | [] => PDict kept
  | _ => PDict ((Plain SD_DIGESTS_KEY, PList (map PStr (sort_strings digests))) :: kept)
  end.

(** [_create_sd_claims]. *)
Fixpoint create_sd_claims (user_claims : claim) (st : sd_state) : claim * sd_state :=
  match user_claims with
  | PList l =>
      let (l', st') := create_sd_list create_sd_claims l st in (PList l', st')
  | PDict entries =>
      let '(kept, digests, st1) := create_sd_entries create_sd_claims entries st in
      if add_decoy_claims then
        (sd_object kept (digests ++ decoy_digests env (draws st1)),
         mk_sd_state (S (draws st1)) (ii_disclosures st1))
      else (sd_object kept digests, st1)
  | _ => (user_claims, st)
  end.

(** [_check_for_sd_claim]: the claims may not use the key [_sd]. *)
Fixpoint has_sd_claim (c : claim) : bool :=
  match c with
  | PList l => existsb has_sd_claim l
  | PDict d =>
      existsb (fun kv => claim_key_eqb (fst kv) (Plain SD_DIGESTS_KEY)
                         || has_sd_claim (snd kv)) d
  | _ => false
  end.

(** [SDJWTIssuer(user_claims, issuer_key, holder_key, add_decoy_claims)
    .sd_jwt_issuance]: the signed body is the processed claims with
    [_sd_alg] and the holder's key under [cnf]. *)
Definition with_alg_and_cnf (c : claim) (holder : jwk) : claim :=
  match c with
  | PDict d =>
      PDict (dict_update claim_key_eqb d
               [(Plain "_sd_alg", PStr "sha-256");
                (Plain "cnf", PDict [(Plain "jwk", of_json holder)])])
  | _ => c
  end.

Definition sd_jwt_payload (user_claims : claim) (holder : jwk) : claim * sd_state :=
  let (c, st) := create_sd_claims user_claims (mk_sd_state 0 []) in
  (with_alg_and_cnf c holder, st).

Definition SDJWTIssuer (user_claims : claim) (issuer holder : jwk) : outcome string :=
  if has_sd_claim user_claims then Raise (LibraryError "SDJWTHasSDClaimException")
  else
    let (payload, st) := sd_jwt_payload user_claims holder in
    run (sign_and_combine env payload (ii_disclosures st) issuer holder).

End Issuer.

(** *** [sdjwtFormatter] *)

Definition pid_namespace : string := "eu.europa.ec.eudiw.pid.1".

(** [int(hashlib.sha256().hexdigest(), 16)]: nothing is fed to the hash
    object. *)
Definition seed : outcome Z :=
  let hash_object := sha256 in
  int16 (hexdigest hash_object).

Definition curve_map (curve_name : string) : option string :=
  if String.eqb curve_name "secp256r1" then Some "P-256"
  else if String.eqb curve_name "secp384r1" then Some "P-384"
  else if String.eqb curve_name "secp521r1" then Some "P-521"
  else None.

(** [curve_map.get(curve_name)]: [None] for a name that is not a key. *)
Definition curve_identifier_of (curve_name : string) : json :=
  match curve_map curve_name with
  | Some crv => JStr crv
  | None => JNull
  end.

Definition public_key_curve_name (k : public_key) : outcome string :=
  match k with
  | EllipticCurvePublicKey n _ _ => Return n
  | OtherPublicKey => Raise AttributeError
  end.

Definition public_numbers (k : public_key) : outcome (Z * Z) :=
  match k with
  | EllipticCurvePublicKey _ x y => Return (x, y)
  | OtherPublicKey => Raise AttributeError
  end.

(** [s.encode("utf-8")]: a method of [str]. *)
Definition str_encode (obj : json) : outcome bytes :=
  match obj with
  | JStr s => Return (encode_utf8 s)
  | _ => Raise AttributeError
  end.

Definition issuer_key_literal : json :=
  JDict [("kty", JStr "EC");
         ("d", JStr "Ur2bNKuBPOrAaxsRnbSH6hIhmNTxSGXshDSUD1a1y7g");
         ("crv", JStr "P-256");
         ("x", JStr "b28d4MwZMjw8-00CG4xfnn9SLMVMM19SlqZpVb_uNtQ");
         ("y", JStr "Xv5zWwuoaTgdS6hV43yI6gBwTnjukmFQQnJ_kCxzqk8")].

Definition b64_text (b : bytes) : json := JStr (decode_utf8 (b64encode b)).

(** Lines 183 to 199: the first and the second claim group, by position,
    every attribute of each wrapped by [DATA_sd_jwt]. *)
Definition claim_groups (pid_data : json) : outcome (list (claim_key * claim)) :=
  c1 <- getitem pid_data "claims" ;;
  ks1 <- keys_list c1 ;;
  primeira_chave <- key_at ks1 0 ;;
  c2 <- getitem pid_data "claims" ;;
  ks2 <- keys_list c2 ;;
  segunda_chave <- key_at ks2 1 ;;
  c3 <- getitem pid_data "claims" ;;
  PID_DATA <- dict_get_default c3 primeira_chave (JDict []) ;;
  c4 <- getitem pid_data "claims" ;;
  OPTIONAL_DATA <- dict_get_default c4 segunda_chave (JDict []) ;;
  let JWT_PID_DATA :=
    dict_update claim_key_eqb []
      [(Plain primeira_chave, PDict []); (Plain segunda_chave, PDict [])] in
  first <- DATA_sd_jwt PID_DATA ;;
  let JWT_PID_DATA :=
    dict_set claim_key_eqb (Plain primeira_chave)
      (PDict (dict_update claim_key_eqb [] first)) JWT_PID_DATA in
  second <- DATA_sd_jwt OPTIONAL_DATA ;;
  let JWT_PID_DATA :=
    dict_set claim_key_eqb (Plain segunda_chave)
      (PDict (dict_update claim_key_eqb [] second)) JWT_PID_DATA in
  Return JWT_PID_DATA.

Section Formatter.
Variable env : sdjwt_env.

(** Lines 143 to 204: the dictionary [claims].  The values read from
    [PID] on the way ([device_key], [doctype]) are read here as the source
    reads them, in its order. *)
Definition sdjwt_claims (PID : json) (jti : string) : outcome claim :=
  d0 <- getitem PID "data" ;;
  c0 <- getitem d0 "claims" ;;
  PID_Claims_data <- getitem c0 pid_namespace ;;
  issuance <- getitem PID_Claims_data "issuance_date" ;;
  iat <- DatestringFormatter (utcoffset env) issuance ;;
  expiry <- getitem PID_Claims_data "expiry_date" ;;
  exp <- DatestringFormatter (utcoffset env) expiry ;;
  pid_data <- dict_get_default PID "data" (JDict []) ;;
  device_key <- getitem PID "device_publickey" ;;
  doctype <- getitem PID "doctype" ;;
  ev1 <- getitem pid_data "evidence" ;;
  ev2 <- getitem0 ev1 ;;
  source <- getitem ev2 "source" ;;
  organization_name <- getitem source "organization_name" ;;
  let claims :=
    [(Plain "iss", of_json organization_name);
     (Plain "jti", PStr jti);
     (Plain "iat", PInt iat);
     (Plain "exp", PInt exp);
     (Plain "status", PStr "validation status URL");
     (Plain "type", of_json doctype)] in
  ev3 <- getitem pid_data "evidence" ;;
  evidence <- getitem0 ev3 ;;
  let verification :=
    dict_update claim_key_eqb
      [(Plain "trust_framework", PStr "eidas");
       (Plain "assurance_level", PStr "high")]
      [(SDObj (JStr "evidence"), of_json evidence)] in
  JWT_PID_DATA <- claim_groups pid_data ;;
  let datafinal :=
    [(Plain "verified_claims",
      PDict [(Plain "verification", PDict verification);
             (Plain "claims", PDict (dict_update claim_key_eqb [] JWT_PID_DATA))])] in
  Return (PDict (dict_update claim_key_eqb claims datafinal)).

(** Lines 206 to 247: the holder's key as [jwk_kwargs]. *)
Definition holder_jwk_kwargs (device_key : json) : outcome json :=
  encoded <- str_encode device_key ;;
  device_key_bytes <- urlsafe_b64decode encoded ;;
  public_key <- run (load_pem_public_key env device_key_bytes) ;;
  curve_name <- public_key_curve_name public_key ;;
  let curve_identifier := curve_identifier_of curve_name in
  xy <- public_numbers public_key ;;
  x <- to_bytes_big (fst xy) ((bit_length (fst xy) + 7) / 8) ;;
  xy' <- public_numbers public_key ;;
  y <- to_bytes_big (snd xy') ((bit_length (snd xy') + 7) / 8) ;;
  Return
    (JDict [("issuer_key", issuer_key_literal);
            ("holder_key",
             JDict [("kty", JStr "EC");
                    ("crv", curve_identifier);
                    ("x", b64_text x);
                    ("y", b64_text y)]);
            ("key_size", JInt 256);
            ("kty", JStr "EC")]).

Definition sdjwtFormatter (PID : json) : outcome string :=
  settings <- run (load_yaml_settings env "app/sd-jwt_files/settings.yml") ;;
  seed <- seed ;;
  key_settings <- getitem settings "key_settings" ;;
  demo_keys <- run (get_jwk env key_settings true seed) ;;
  example <- run (load_yaml_specification env "app/sd-jwt_files/specification.yml") ;;
  use_decoys <- dict_get_default example "add_decoy_claims" (JBool false) ;;
  let jti := uuid4 env in
  claims <- sdjwt_claims PID jti ;;
  (* [device_key], read at line 152 *)
  device_key <- getitem PID "device_publickey" ;;
  jwk_kwargs <- holder_jwk_kwargs device_key ;;
  holder_key <- run (get_jwk env jwk_kwargs true seed) ;;
  (* Produce SD-JWT and SVC for selected example *)
  SDJWTIssuer env (truthy use_decoys) claims
    (issuer_key demo_keys) (SdJwt.holder_key holder_key).

End Formatter.

(** *** A deployment to run the builder in

    The process runs in the zone given, keys and salts are fixed, the
    digest of a disclosure is its salt followed by its name, and the
    "signature" lists the digests it was given. *)
Definition name_text (j : json) : string :=
  match j with JStr s => s | _ => "?" end.

Definition demo_sign (payload : claim) (ds : list disclosure) (issuer holder : jwk)
  : call string :=
  Returned (String.concat "~" ("jws" :: map (fun d => name_text (name d)) ds)).

Definition demo_salt (n : nat) : string :=
  String (ascii_of_nat (97 + n)) EmptyString.

Definition demo_env (zone : Z -> Z) (device_curve : string) : sdjwt_env :=
  mk_sdjwt_env
    (fun _ => Returned (JDict [("key_settings", JDict [("kty", JStr "EC")])]))
    (fun _ => Returned (JDict [("add_decoy_claims", JBool false)]))
    (fun kwargs _ _ =>
       Returned (mk_jwk_keys issuer_key_literal
                   (match lookup "holder_key" (match kwargs with JDict d => d | _ => [] end)
                    with Some k => k | None => JNull end)
                   JNull))
    "5f3c2a1e-0000-4000-8000-000000000001"
    zone
    (fun _ => Returned (EllipticCurvePublicKey device_curve 1000 70000))
    demo_salt
    (fun _ => [])
    (fun d => salt d ++ name_text (name d))%string
    demo_sign.

Definition demo_evidence : json :=
  JList [JDict [("type", JStr "eu.europa.ec.eudiw.pid.1");
                ("source", JDict [("organization_name", JStr "Test PID issuer");
                                  ("country_code", JStr "FC")])]].

Definition demo_PID (claims : list (string * json)) : json :=
  JDict [("version", JStr "0.2");
         ("country", JStr "FC");
         ("doctype", JStr "eu.europa.ec.eudiw.pid.1");
         ("device_publickey", JStr "cHVibGljLWtleQ==");
         ("data", JDict [("evidence", demo_evidence); ("claims", JDict claims)])].

Definition demo_mandatory : json :=
  JDict [("family_name", JStr "Doe"); ("given_name", JStr "Jane");
         ("birth_date", JStr "1990-01-01"); ("issuance_date", JStr "2024-01-01");
         ("expiry_date", JStr "2034-01-01")].

Definition demo_optional : json :=
  JDict [("age_over_18", JBool true); ("nationality", JStr "FC")].

Definition demo_claims : list (string * json) :=
  [(pid_namespace, demo_mandatory); ("eu.europa.ec.eudiw.pid.fc.1", demo_optional)].

(** *** No step of the builder hands back a typed failure *)

Create HintDb untyped.

Ltac untyped_auto :=
  repeat first [ solve [auto with untyped] | untyped_step ].

Lemma untyped_getitem obj key : untyped (getitem obj key).
Proof. unfold getitem. untyped_auto. Qed.

Lemma untyped_getitem0 obj : untyped (getitem0 obj).
Proof. unfold getitem0. untyped_auto. Qed.

Lemma untyped_dict_get_default obj key default :
  untyped (dict_get_default obj key default).
Proof. unfold dict_get_default. untyped_auto. Qed.

Lemma untyped_keys_list obj : untyped (keys_list obj).
Proof. unfold keys_list. untyped_auto. Qed.

Lemma untyped_key_at l i : untyped (key_at l i).
Proof. unfold key_at. untyped_auto. Qed.

Lemma untyped_strptime s : untyped (strptime s).
Proof. unfold strptime. untyped_auto. Qed.

#[local] Hint Resolve untyped_getitem untyped_getitem0 untyped_dict_get_default
  untyped_keys_list untyped_key_at untyped_strptime : untyped.

Lemma untyped_local zone u : untyped (local zone u).
Proof. unfold local. cbv zeta. untyped_auto. Qed.

Lemma untyped_timestamp zone d : untyped (timestamp zone d).
Proof.
  unfold timestamp, local_to_seconds, utc_to_seconds. cbv zeta.
  repeat first [ apply untyped_local | untyped_step ].
Qed.

Lemma untyped_DatestringFormatter tz date : untyped (DatestringFormatter tz date).
Proof.
  unfold DatestringFormatter.
  repeat first [ apply untyped_timestamp | apply untyped_strptime | untyped_step ].
Qed.

Lemma untyped_json_subscript obj key : untyped (subscript obj key).
Proof. unfold subscript. untyped_auto. Qed.

Lemma untyped_iterate obj : untyped (iterate obj).
Proof. unfold iterate. untyped_auto. Qed.

#[local] Hint Resolve untyped_DatestringFormatter untyped_json_subscript
  untyped_iterate : untyped.

Lemma untyped_DATA_sd_jwt_loop PID items : forall Data,
  untyped (DATA_sd_jwt_loop PID items Data).
Proof.
  induction items as [|i items IH]; intros Data; cbn [DATA_sd_jwt_loop];
    untyped_auto.
Qed.

#[local] Hint Resolve untyped_DATA_sd_jwt_loop : untyped.

Lemma untyped_DATA_sd_jwt PID : untyped (DATA_sd_jwt PID).
Proof. unfold DATA_sd_jwt. untyped_auto. Qed.

#[local] Hint Resolve untyped_DATA_sd_jwt : untyped.

Lemma untyped_claim_groups pid_data : untyped (claim_groups pid_data).
Proof. unfold claim_groups. untyped_auto. Qed.

#[local] Hint Resolve untyped_claim_groups : untyped.

Lemma untyped_sdjwt_claims env PID jti : untyped (sdjwt_claims env PID jti).
Proof. unfold sdjwt_claims. untyped_auto. Qed.

Lemma untyped_int16_aux l : forall acc, untyped (int16_aux l acc).
Proof.
  induction l as [|c l IH]; intros acc; cbn [int16_aux]; untyped_auto.
Qed.

Lemma untyped_seed : untyped seed.
Proof.
  unfold seed, int16. destruct (hexdigest sha256); [reflexivity|].
  apply untyped_int16_aux.
Qed.

Lemma untyped_to_bytes_big n l : untyped (to_bytes_big n l).
Proof. unfold to_bytes_big. untyped_auto. Qed.

#[local] Hint Resolve untyped_sdjwt_claims untyped_to_bytes_big
  untyped_urlsafe_b64decode : untyped.

Lemma untyped_holder_jwk_kwargs env device_key :
  untyped (holder_jwk_kwargs env device_key).
Proof.
  unfold holder_jwk_kwargs, str_encode, public_key_curve_name, public_numbers.
  untyped_auto.
Qed.

Lemma untyped_SDJWTIssuer env decoys claims issuer holder :
  untyped (SDJWTIssuer env decoys claims issuer holder).
Proof.
  unfold SDJWTIssuer. destruct (has_sd_claim claims); [reflexivity|].
  destruct (sd_jwt_payload env decoys claims holder). apply untyped_run.
Qed.

#[local] Hint Resolve untyped_holder_jwk_kwargs untyped_SDJWTIssuer : untyped.

(** The builder never hands back one of the specification's typed
    failures. *)
Lemma untyped_sdjwtFormatter env PID : untyped (sdjwtFormatter env PID).
Proof.
  unfold sdjwtFormatter.
  apply untyped_bind; [apply untyped_run|intros settings].
  apply untyped_bind; [exact untyped_seed|intros s].
  untyped_auto.
Qed.

(** *** Calls that raise *)

Definition raises {A : Type} (m : outcome A) : Prop := exists e, m = Raise e.

Lemma raises_bind {A B : Type} (m : outcome A) (f : A -> outcome B) :
  untyped m -> (forall a, m = Return a -> raises (f a)) -> raises (bind m f).
Proof.
  unfold untyped, raises. destruct m as [a|e|k]; cbn; intros U H.
  - apply H. reflexivity.
  - eauto.
  - discriminate U.
Qed.

Lemma raises_bind_first {A B : Type} (m : outcome A) (f : A -> outcome B) :
  raises m -> raises (bind m f).
Proof. intros [e ->]. exists e. reflexivity. Qed.

Ltac raises_step :=
  lazymatch goal with
  | |- raises (bind _ _) =>
      apply raises_bind; [solve [untyped_auto] | intros ? ?]
  end.

(** *** The seed *)

Definition seed_value : Z :=
  0xe3b0c44298fc1c149afbf4c8996fb92427ae41e4649b934ca495991b7852b855.

Lemma seed_eq : seed = Return seed_value.
Proof. vm_compute. reflexivity. Qed.

(** *** Fewer than two claim groups *)

(** C5, as stated, fails: with the required claim group alone the builder
    raises the [IndexError] of [list(...keys())[1]], not an
    [IncompleteAttributeSetError]. *)
Lemma single_group_raises_IndexError :
  sdjwtFormatter (demo_env tz_utc "secp256r1")
    (demo_PID [(pid_namespace, demo_mandatory)])
  = Raise IndexError.
Proof. vm_compute. reflexivity. Qed.

Lemma getitem_dict_get_default obj key v default :
  getitem obj key = Return v -> dict_get_default obj key default = Return v.
Proof.
  unfold getitem, dict_get_default. destruct obj; try discriminate.
  destruct (lookup key d); cbn; congruence.
Qed.

(** C5 (amended): for every input whose [data.claims] holds fewer than two
    claim groups, the positional access to the first and second group
    raises [IndexError], and [sdjwtFormatter] produces no SD-JWT and no
    typed failure: it ends in an exception (that [IndexError], unless an
    earlier step has raised before). *)
Theorem sdjwtFormatter_fewer_than_two_groups
    (env : sdjwt_env) (PID pid_data : json) (groups : list (string * json)) :
  getitem PID "data" = Return pid_data ->
  getitem pid_data "claims" = Return (JDict groups) ->
  (List.length groups < 2)%nat ->
  claim_groups pid_data = Raise IndexError
  /\ exists e, sdjwtFormatter env PID = Raise e.
Proof.
  intros Hdata Hclaims Hlen.
  assert (claim_groups pid_data = Raise IndexError) as G.
  { unfold claim_groups. rewrite Hclaims. cbn [bind keys_list dict_keys].
    destruct groups as [|g1 [|g2 groups]]; [reflexivity|reflexivity|].
    cbn [List.length] in Hlen. lia. }
  split; [exact G|].
  change (raises (sdjwtFormatter env PID)). unfold sdjwtFormatter.
  apply raises_bind; [apply untyped_run|intros settings _].
  apply raises_bind; [exact untyped_seed|intros s _].
  do 4 raises_step.
  apply raises_bind_first. unfold sdjwt_claims.
  do 7 raises_step.
  apply raises_bind; [solve [untyped_auto]|intros pid_data' Hp].
  rewrite (getitem_dict_get_default _ _ _ _ Hdata) in Hp. injection Hp as <-.
  do 8 raises_step.
  rewrite G. exists IndexError. reflexivity.
Qed.

Lemma sdjwtFormatter_fewer_than_two_groups_witness :
  claim_groups (JDict [("evidence", demo_evidence);
                       ("claims", JDict [(pid_namespace, demo_mandatory)])])
  = Raise IndexError
  /\ exists e,
       sdjwtFormatter (demo_env tz_utc "secp256r1")
         (demo_PID [(pid_namespace, demo_mandatory)]) = Raise e.
Proof.
  apply (sdjwtFormatter_fewer_than_two_groups (demo_env tz_utc "secp256r1")
           (demo_PID [(pid_namespace, demo_mandatory)])
           (JDict [("evidence", demo_evidence);
                   ("claims", JDict [(pid_namespace, demo_mandatory)])])
           [(pid_namespace, demo_mandatory)]).
  - reflexivity.
  - reflexivity.
  - cbn. lia.
Defined.

(** *** Big-endian octets *)

Lemma to_bytes_big_minimal n :
  0 <= n ->
  to_bytes_big n ((bit_length n + 7) / 8)
  = Return (to_bytes_big_aux (Z.to_nat ((bit_length n + 7) / 8)) n []).
Proof.
  intros H. unfold to_bytes_big.
  pose proof (Cbor.bit_length_bound n H) as B. unfold Cbor.bignum_length in B.
  assert (0 <= (bit_length n + 7) / 8) as L.
  { unfold bit_length. destruct (n =? 0); [cbn; lia|].
    pose proof (Z.log2_nonneg (Z.abs n)). Z.div_mod_to_equations. lia. }
  replace (2 ^ (8 * ((bit_length n + 7) / 8))) with (256 ^ ((bit_length n + 7) / 8))
    by (change 256 with (2 ^ 8); rewrite <- Z.pow_mul_r by lia; reflexivity).
  destruct (Z.ltb_spec n 0); [lia|].
  destruct (Z.leb_spec (256 ^ ((bit_length n + 7) / 8)) n); [lia|]. reflexivity.
Qed.

(** *** Day numbers *)

Lemma days_since_epoch_iter n :
  days_since_epoch (Z.of_nat n) (Nat.iter n next_day epoch).
Proof.
  induction n as [|n IH]; [constructor|].
  rewrite Nat2Z.inj_succ. cbn [Nat.iter]. apply dse_next. exact IH.
Qed.

Lemma strptime_valid s d : strptime s = Return d -> valid_date d = true.
Proof.
  unfold strptime. intros H.
  repeat match type of H with
  | match ?x with _ => _ end = _ => destruct x eqn:?
  | (if ?c then _ else _) = _ => destruct c eqn:?
  end; try discriminate H.
  injection H as <-. assumption.
Qed.

(** In a process whose local zone is UTC, [DatestringFormatter] gives the
    number of whole days from 1970-01-01 to the date, for every date after
    0001-01-01. *)
Lemma DatestringFormatter_utc s d n :
  strptime s = Return d -> days_since_epoch n d -> - 719162 < n ->
  DatestringFormatter tz_utc (JStr s) = Return n.
Proof.
  intros Hs Hn First. unfold DatestringFormatter. rewrite Hs. cbn [bind].
  rewrite (timestamp_stable tz_utc d n 0 (strptime_valid s d Hs) Hn First)
    by (reflexivity || lia).
  cbn [bind]. f_equal. rewrite Z.sub_0_r.
  change (24 * 60 * 60) with 86400. apply Z.quot_mul. lia.
Qed.

(** C3 at a failing input: in a process whose local zone is one hour east
    of UTC (Brussels in winter), [DatestringFormatter("2024-01-01")] is
    19722, while 2024-01-01 is 19723 whole days after 1970-01-01, which is
    what the function gives at UTC. *)
Theorem DatestringFormatter_depends_on_local_zone :
  strptime "2024-01-01" = Return (mkdate 2024 1 1)
  /\ days_since_epoch 19723 (mkdate 2024 1 1)
  /\ DatestringFormatter tz_utc (JStr "2024-01-01") = Return 19723
  /\ DatestringFormatter (tz_fixed 3600) (JStr "2024-01-01") = Return 19722.
Proof.
  assert (days_since_epoch 19723 (mkdate 2024 1 1)) as D.
  { pose proof (days_since_epoch_iter (Z.to_nat 19723)) as H.
    rewrite Z2Nat.id in H by lia.
    replace (Nat.iter (Z.to_nat 19723) next_day epoch) with (mkdate 2024 1 1) in H
      by (vm_compute; reflexivity).
    exact H. }
  repeat split; try exact D; vm_compute; reflexivity.
Qed.

(** *** What the issuer does with the claims *)

(** A value that is neither a list nor a dictionary. *)
Definition scalar (j : json) : bool :=
  match j with
  | JList _ | JDict _ => false
  | _ => true
  end.

(** The claims of a JSON-like value hold no [SDObj] key: the issuer creates
    no disclosure for them, and leaves them as they are unless it mixes
    decoys into their objects. *)
Definition passes_through (env : sdjwt_env) (decoys : bool) (j : json) : Prop :=
  forall st,
    ii_disclosures (snd (create_sd_claims env decoys (of_json j) st))
    = ii_disclosures st
    /\ (draws st <= draws (snd (create_sd_claims env decoys (of_json j) st)))%nat
    /\ (decoys = false \/ scalar j = true ->
        create_sd_claims env decoys (of_json j) st = (of_json j, st)).

Lemma create_sd_list_json env decoys l :
  Forall (passes_through env decoys) l ->
  forall st,
    ii_disclosures (snd (create_sd_list (create_sd_claims env decoys) (map of_json l) st))
    = ii_disclosures st
    /\ (draws st
        <= draws (snd (create_sd_list (create_sd_claims env decoys) (map of_json l) st)))%nat
    /\ (decoys = false ->
        create_sd_list (create_sd_claims env decoys) (map of_json l) st
        = (map of_json l, st)).
Proof.
  induction 1 as [|j l Hj _ IH]; intros st; [repeat split; reflexivity|].
  cbn [map create_sd_list].
  destruct (Hj st) as (D1 & M1 & E1).
  destruct (create_sd_claims env decoys (of_json j) st) as [c st1] eqn:C.
  destruct (IH st1) as (D2 & M2 & E2).
  destruct (create_sd_list (create_sd_claims env decoys) (map of_json l) st1)
    as [l' st2] eqn:L.
  cbn [snd] in *. split; [congruence|]. split; [lia|].
  intros Hd. specialize (E1 (or_introl Hd)). specialize (E2 Hd).
  injection E1 as <- <-. injection E2 as <- <-. reflexivity.
Qed.

Definition plain_entries (d : list (string * json)) : list (claim_key * claim) :=
  map (fun kv => (Plain (fst kv), of_json (snd kv))) d.

Lemma create_sd_entries_json env decoys d :
  Forall (fun kv => passes_through env decoys (snd kv)) d ->
  forall st,
    let r := create_sd_entries env (create_sd_claims env decoys) (plain_entries d) st in
    snd (fst r) = []
    /\ map fst (fst (fst r)) = map (fun kv => Plain (fst kv)) d
    /\ ii_disclosures (snd r) = ii_disclosures st
    /\ (draws st <= draws (snd r))%nat
    /\ (decoys = false -> r = (plain_entries d, [], st)).
Proof.
  induction 1 as [|[k v] d Hj _ IH]; intros st; [repeat split; reflexivity|].
  cbn [plain_entries map create_sd_entries fst snd] in *.
  destruct (Hj st) as (D1 & M1 & E1).
  destruct (create_sd_claims env decoys (of_json v) st) as [c st1] eqn:C.
  specialize (IH st1). cbv zeta in IH. destruct IH as (G & K & D2 & M2 & E2).
  fold (plain_entries d) in *.
  destruct (create_sd_entries env (create_sd_claims env decoys) (plain_entries d) st1)
    as [[kept digests] st2] eqn:L.
  cbn [fst snd map] in *. repeat split.
  - exact G.
  - f_equal. exact K.
  - congruence.
  - lia.
  - intros Hd. specialize (E1 (or_introl Hd)). specialize (E2 Hd).
    injection E1 as <- <-. injection E2 as <- <- <-. reflexivity.
Qed.

Lemma passes_through_json env decoys j : passes_through env decoys j.
Proof.
  induction j as [| | | |l IH|d IH] using json_nested_ind;
    try (intros st; repeat split; reflexivity).
  - intros st. cbn [of_json create_sd_claims].
    destruct (create_sd_list_json env decoys l IH st) as (D & M & E).
    destruct (create_sd_list (create_sd_claims env decoys) (map of_json l) st)
      as [l' st'] eqn:L.
    cbn [snd] in *. split; [exact D|]. split; [exact M|].
    intros [Hd|Hs]; [|discriminate Hs].
    specialize (E Hd). injection E as <- <-. reflexivity.
  - intros st. cbn [of_json create_sd_claims]. fold (plain_entries d).
    pose proof (create_sd_entries_json env decoys d IH st) as S. cbv zeta in S.
    destruct S as (G & _ & D & M & E).
    destruct (create_sd_entries env (create_sd_claims env decoys) (plain_entries d) st)
      as [[kept digests] st1] eqn:L.
    cbn [fst snd] in *. subst digests. destruct decoys.
    + cbn [snd ii_disclosures draws]. split; [exact D|]. split; [lia|].
      intros [Hd|Hs]; discriminate.
    + cbn [snd]. split; [exact D|]. split; [exact M|]. intros _.
      specialize (E eq_refl). injection E as <- <-. reflexivity.
Qed.

(** The entries [DATA_sd_jwt] builds for a claim group: every attribute
    under its name wrapped in [SDObj]. *)
Definition sd_entries (attrs : list (string * json)) : list (claim_key * claim) :=
  map (fun kv => (SDObj (JStr (fst kv)), of_json (snd kv))) attrs.

(** A disclosure made for an attribute: it carries the name of the
    attribute, and its value (a list or dictionary as the issuer has
    processed it, which without decoys is the value as well). *)
Definition discloses (decoys : bool) (d : disclosure) (kv : string * json) : Prop :=
  name d = JStr (fst kv)
  /\ (decoys = false \/ scalar (snd kv) = true -> value d = of_json (snd kv)).

(** The salts of the disclosures [ds] are draws of their own: the salt of
    each is [generate_salt] at a draw number, the numbers increase along
    [ds], from [lo] on and below [hi]. *)
Fixpoint salted (env : sdjwt_env) (lo : nat) (ds : list disclosure) (hi : nat)
  : Prop :=
  match ds with
  | [] => (lo <= hi)%nat
  | d :: ds' =>
      exists n, (lo <= n)%nat /\ salt d = generate_salt env n
                /\ salted env (S n) ds' hi
  end.

Lemma salted_le env ds : forall lo hi, salted env lo ds hi -> (lo <= hi)%nat.
Proof.
  induction ds as [|d ds IH]; intros lo hi H; [exact H|].
  destruct H as (n & L & _ & H). apply IH in H. lia.
Qed.

Lemma salted_from env ds : forall lo lo' hi,
  (lo' <= lo)%nat -> salted env lo ds hi -> salted env lo' ds hi.
Proof.
  destruct ds as [|d ds]; intros lo lo' hi L H; cbn [salted] in *; [lia|].
  destruct H as (n & Ln & S & H). exists n. repeat split; [lia|exact S|exact H].
Qed.

Lemma salted_upto env ds : forall lo hi hi',
  (hi <= hi')%nat -> salted env lo ds hi -> salted env lo ds hi'.
Proof.
  induction ds as [|d ds IH]; intros lo hi hi' L H; cbn [salted] in *; [lia|].
  destruct H as (n & Ln & S & H). exists n.
  repeat split; [exact Ln|exact S|]. exact (IH _ _ _ L H).
Qed.

Lemma salted_app env ds1 : forall ds2 lo mid hi,
  salted env lo ds1 mid -> salted env mid ds2 hi -> salted env lo (ds1 ++ ds2) hi.
Proof.
  induction ds1 as [|d ds1 IH]; intros ds2 lo mid hi H1 H2; cbn [app salted] in *.
  - exact (salted_from _ _ _ _ _ H1 H2).
  - destruct H1 as (n & Ln & S & H1). exists n.
    repeat split; [exact Ln|exact S|]. exact (IH _ _ _ _ H1 H2).
Qed.


(** On such entries the issuer keeps nothing in the object and makes one
    disclosure per attribute, in order, each with a salt of its own. *)
Lemma create_sd_entries_sd env decoys attrs : forall st,
  exists ds st',
    create_sd_entries env (create_sd_claims env decoys) (sd_entries attrs) st
    = ([], map (disclosure_hash env) ds, st')
    /\ ii_disclosures st' = ii_disclosures st ++ ds
    /\ Forall2 (discloses decoys) ds attrs
    /\ salted env (draws st) ds (draws st').
Proof.
  induction attrs as [|[k v] attrs IH]; intros st.
  - exists [], st. cbn. rewrite app_nil_r. repeat split; [constructor|lia].
  - cbn [sd_entries map create_sd_entries fst snd]. fold (sd_entries attrs).
    destruct (passes_through_json env decoys v st) as (D1 & M1 & E1).
    destruct (create_sd_claims env decoys (of_json v) st) as [c st1] eqn:C.
    cbn [snd] in D1, M1.
    set (d := mk_disclosure (generate_salt env (draws st1)) (JStr k) c).
    destruct (IH (mk_sd_state (S (draws st1)) (ii_disclosures st1 ++ [d])))
      as (ds & st' & R & D2 & F & S).
    rewrite R. exists (d :: ds), st'. repeat split.
    + cbn [ii_disclosures] in D2. rewrite D2, D1, <- app_assoc. reflexivity.
    + constructor; [|exact F]. split; [reflexivity|].
      intros Hd. specialize (E1 Hd). injection E1 as Ec _. subst d c.
      reflexivity.
    + cbn [salted]. exists (draws st1). repeat split; [exact M1|exact S].
Qed.

(** *** What the builder hands to the issuer *)

Lemma lookup_fresh k (v : json) pre suf :
  ~ In k (map fst pre) -> lookup k (pre ++ (k, v) :: suf) = Some v.
Proof.
  unfold lookup. induction pre as [|[k' v'] pre IH]; intros H.
  - cbn. rewrite String.eqb_refl. reflexivity.
  - cbn [map fst In] in H. cbn [app dict_get].
    destruct (String.eqb_spec k k') as [->|_]; [tauto|]. apply IH. tauto.
Qed.

Lemma sd_entries_fresh k pre :
  ~ In k (map fst pre) ->
  existsb (claim_key_eqb (SDObj (JStr k))) (map fst (sd_entries pre)) = false.
Proof.
  induction pre as [|[k' v'] pre IH]; intros H; [reflexivity|].
  cbn [map fst In] in H. cbn [sd_entries map fst existsb claim_key_eqb json_eqb].
  destruct (String.eqb_spec k k') as [->|_]; [tauto|]. apply IH. tauto.
Qed.

Lemma sd_entries_app a b : sd_entries (a ++ b) = sd_entries a ++ sd_entries b.
Proof. apply map_app. Qed.

Lemma DATA_sd_jwt_loop_dict : forall suf pre,
  NoDup (map fst (pre ++ suf)) ->
  DATA_sd_jwt_loop (JDict (pre ++ suf)) (map JStr (map fst suf)) (sd_entries pre)
  = Return (sd_entries (pre ++ suf)).
Proof.
  induction suf as [|[k v] suf IH]; intros pre N.
  - cbn. rewrite app_nil_r. reflexivity.
  - assert (~ In k (map fst pre)) as F.
    { rewrite map_app in N. cbn [map fst] in N. apply NoDup_remove_2 in N.
      intros I. apply N, in_or_app. left. exact I. }
    cbn [map fst DATA_sd_jwt_loop subscript]. rewrite (lookup_fresh k v pre suf F).
    cbn [of_option bind dict_update fold_left fst snd].
    rewrite (dict_set_fresh claim_key_eqb) by (apply sd_entries_fresh, F).
    replace (pre ++ (k, v) :: suf) with ((pre ++ [(k, v)]) ++ suf)
      by (rewrite <- app_assoc; reflexivity).
    rewrite <- (IH (pre ++ [(k, v)])).
    + rewrite sd_entries_app. reflexivity.
    + rewrite <- app_assoc. exact N.
Qed.

(** [DATA_sd_jwt] wraps every attribute of a claim group, and nothing but
    the attributes: one [SDObj] key per attribute. *)
Lemma DATA_sd_jwt_dict attrs :
  NoDup (map fst attrs) -> DATA_sd_jwt (JDict attrs) = Return (sd_entries attrs).
Proof.
  intros N. unfold DATA_sd_jwt. cbn [iterate bind dict_keys].
  apply (DATA_sd_jwt_loop_dict attrs []). exact N.
Qed.

Lemma dict_update_sd_entries : forall attrs pre,
  NoDup (map fst (pre ++ attrs)) ->
  dict_update claim_key_eqb (sd_entries pre) (sd_entries attrs)
  = sd_entries (pre ++ attrs).
Proof.
  unfold dict_update. induction attrs as [|[k v] attrs IH]; intros pre N.
  - cbn. rewrite app_nil_r. reflexivity.
  - assert (~ In k (map fst pre)) as F.
    { rewrite map_app in N. cbn [map fst] in N. apply NoDup_remove_2 in N.
      intros I. apply N, in_or_app. left. exact I. }
    cbn [sd_entries map fold_left fst snd].
    rewrite (dict_set_fresh claim_key_eqb) by (apply sd_entries_fresh, F).
    fold (sd_entries attrs).
    change (sd_entries pre ++ [(SDObj (JStr k), of_json v)])
      with (sd_entries pre ++ sd_entries [(k, v)]).
    rewrite <- sd_entries_app, IH by (rewrite <- app_assoc; exact N).
    rewrite <- app_assoc. reflexivity.
Qed.

Lemma dict_update_sd_entries_nil attrs :
  NoDup (map fst attrs) ->
  dict_update claim_key_eqb [] (sd_entries attrs) = sd_entries attrs.
Proof. intros N. exact (dict_update_sd_entries attrs [] N). Qed.

(** The two groups as the builder lays them out. *)
Definition groups_shape (g1 : string) (a1 : list (string * json))
    (g2 : string) (a2 : list (string * json)) : list (claim_key * claim) :=
  [(Plain g1, PDict (sd_entries a1)); (Plain g2, PDict (sd_entries a2))].

Lemma claim_groups_two pid_data g1 a1 g2 a2 rest :
  getitem pid_data "claims" = Return (JDict ((g1, JDict a1) :: (g2, JDict a2) :: rest)) ->
  g1 <> g2 -> NoDup (map fst a1) -> NoDup (map fst a2) ->
  claim_groups pid_data = Return (groups_shape g1 a1 g2 a2).
Proof.
  intros Hc Hg N1 N2. unfold claim_groups. rewrite Hc.
  assert (String.eqb g2 g1 = false) as E21 by (apply String.eqb_neq; congruence).
  cbn [bind keys_list dict_keys map fst key_at nth_error of_option
       dict_get_default lookup dict_get].
  rewrite !String.eqb_refl, E21. cbn [bind].
  rewrite (DATA_sd_jwt_dict a1 N1), (DATA_sd_jwt_dict a2 N2). cbn [bind].
  rewrite (dict_update_sd_entries_nil a1 N1), (dict_update_sd_entries_nil a2 N2).
  cbn [app dict_update fold_left dict_set fst snd claim_key_eqb].
  repeat (progress (rewrite ?String.eqb_refl, ?E21; cbn [dict_set claim_key_eqb])).
  reflexivity.
Qed.

(** The dictionary [claims]: the protocol claims under plain keys, the
    evidence and every attribute of the two groups under [SDObj] keys. *)
Definition claims_shape (iss : json) (jti : string) (iat exp : Z)
    (doctype evidence : json) (groups : list (claim_key * claim)) : claim :=
  PDict
    [(Plain "iss", of_json iss);
     (Plain "jti", PStr jti);
     (Plain "iat", PInt iat);
     (Plain "exp", PInt exp);
     (Plain "status", PStr "validation status URL");
     (Plain "type", of_json doctype);
     (Plain "verified_claims",
      PDict
        [(Plain "verification",
          PDict [(Plain "trust_framework", PStr "eidas");
                 (Plain "assurance_level", PStr "high");
                 (SDObj (JStr "evidence"), of_json evidence)]);
         (Plain "claims", PDict groups)])].

Lemma sdjwt_claims_shape env PID jti claims pid_data g1 a1 g2 a2 rest :
  getitem PID "data" = Return pid_data ->
  getitem pid_data "claims" = Return (JDict ((g1, JDict a1) :: (g2, JDict a2) :: rest)) ->
  g1 <> g2 -> NoDup (map fst a1) -> NoDup (map fst a2) ->
  sdjwt_claims env PID jti = Return claims ->
  exists iss iat exp doctype evidence,
    claims = claims_shape iss jti iat exp doctype evidence (groups_shape g1 a1 g2 a2)
    /\ getitem PID "doctype" = Return doctype.
Proof.
  intros Hd Hc Hg N1 N2 H. unfold sdjwt_claims in H.
  apply bind_Return in H. destruct H as (d0 & _ & H).
  apply bind_Return in H. destruct H as (c0 & _ & H).
  apply bind_Return in H. destruct H as (PID_Claims_data & _ & H).
  apply bind_Return in H. destruct H as (issuance & _ & H).
  apply bind_Return in H. destruct H as (iat & _ & H).
  apply bind_Return in H. destruct H as (expiry & _ & H).
  apply bind_Return in H. destruct H as (exp & _ & H).
  apply bind_Return in H. destruct H as (pid_data' & Hp & H).
  rewrite (getitem_dict_get_default _ _ _ _ Hd) in Hp. injection Hp as <-.
  apply bind_Return in H. destruct H as (device_key & _ & H).
  apply bind_Return in H. destruct H as (doctype & Hdoctype & H).
  apply bind_Return in H. destruct H as (ev1 & _ & H).
  apply bind_Return in H. destruct H as (ev2 & _ & H).
  apply bind_Return in H. destruct H as (source & _ & H).
  apply bind_Return in H. destruct H as (organization_name & _ & H).
  apply bind_Return in H. destruct H as (ev3 & _ & H).
  apply bind_Return in H. destruct H as (evidence & _ & H).
  rewrite (claim_groups_two _ _ _ _ _ _ Hc Hg N1 N2) in H. cbn [bind] in H.
  injection H as <-.
  exists organization_name, iat, exp, doctype, evidence. split; [|assumption].
  unfold claims_shape, groups_shape.
  assert (String.eqb g2 g1 = false) as E21 by (apply String.eqb_neq; congruence).
  cbn [dict_update fold_left dict_set fst snd claim_key_eqb json_eqb String.eqb
       Ascii.eqb Bool.eqb].
  repeat (progress (rewrite ?String.eqb_refl, ?E21; cbn [dict_set claim_key_eqb])).
  reflexivity.
Qed.

(** *** The signed body *)

(** [body[k]] for a plain key. *)
Definition claim_get (c : claim) (k : string) : option claim :=
  match c with
  | PDict d => dict_get claim_key_eqb (Plain k) d
  | _ => None
  end.


Lemma claim_get_sd_object kept digests k :
  k <> SD_DIGESTS_KEY ->
  claim_get (sd_object kept digests) k = dict_get claim_key_eqb (Plain k) kept.
Proof.
  intros H. unfold sd_object. destruct digests; [reflexivity|].
  cbn [claim_get dict_get claim_key_eqb].
  destruct (String.eqb_spec k SD_DIGESTS_KEY); [contradiction|reflexivity].
Qed.

(** A claim group in the signed body: no attribute stays in the object,
    which holds the sorted digests of one disclosure per attribute (and
    the decoys, if any). *)
Lemma create_sd_claims_group env decoys attrs st :
  exists ds st' decoy,
    create_sd_claims env decoys (PDict (sd_entries attrs)) st
    = (sd_object [] (map (disclosure_hash env) ds ++ decoy), st')
    /\ ii_disclosures st' = ii_disclosures st ++ ds
    /\ Forall2 (discloses decoys) ds attrs
    /\ salted env (draws st) ds (draws st')
    /\ (decoys = false -> decoy = []).
Proof.
  destruct (create_sd_entries_sd env decoys attrs st) as (ds & st1 & R & D & F & Hs).
  cbn [create_sd_claims]. rewrite R. destruct decoys.
  - exists ds, (mk_sd_state (S (draws st1)) (ii_disclosures st1)),
      (decoy_digests env (draws st1)).
    repeat split; try assumption; [|discriminate].
    cbn [draws]. apply (salted_upto env ds _ (draws st1)); [lia|exact Hs].
  - exists ds, st1, []. rewrite app_nil_r. repeat split; assumption.
Qed.

(** The object of the two groups. *)
Lemma create_sd_claims_groups env decoys g1 a1 g2 a2 st :
  exists ds1 ds2 st' decoy1 decoy2 decoy,
    create_sd_claims env decoys (PDict (groups_shape g1 a1 g2 a2)) st
    = (sd_object
         [(Plain g1, sd_object [] (map (disclosure_hash env) ds1 ++ decoy1));
          (Plain g2, sd_object [] (map (disclosure_hash env) ds2 ++ decoy2))]
         decoy, st')
    /\ ii_disclosures st' = ii_disclosures st ++ ds1 ++ ds2
    /\ Forall2 (discloses decoys) ds1 a1
    /\ Forall2 (discloses decoys) ds2 a2
    /\ salted env (draws st) (ds1 ++ ds2) (draws st')
    /\ (decoys = false -> decoy1 = [] /\ decoy2 = []).
Proof.
  unfold groups_shape.
  destruct (create_sd_claims_group env decoys a1 st)
    as (ds1 & s1 & dc1 & R1 & D1 & F1 & S1 & Z1).
  destruct (create_sd_claims_group env decoys a2 s1)
    as (ds2 & s2 & dc2 & R2 & D2 & F2 & S2 & Z2).
  pose proof (salted_app env ds1 ds2 _ _ _ S1 S2) as S12.
  remember (PDict (sd_entries a1)) as G1 eqn:EG1.
  remember (PDict (sd_entries a2)) as G2 eqn:EG2.
  cbn [create_sd_claims create_sd_entries]. rewrite R1, R2.
  exists ds1, ds2. destruct decoys.
  - exists (mk_sd_state (S (draws s2)) (ii_disclosures s2)), dc1, dc2,
      (decoy_digests env (draws s2)).
    cbn [app ii_disclosures draws]. rewrite D2, D1, <- app_assoc.
    repeat split; try assumption; try discriminate.
    apply (salted_upto env _ _ (draws s2)); [lia|exact S12].
  - exists s2, dc1, dc2, []. rewrite D2, D1, <- app_assoc.
    repeat split; try assumption; auto.
Qed.

(** The claims as a whole. *)
Lemma create_sd_claims_shape env decoys iss jti iat exp doctype evidence
    g1 a1 g2 a2 :
  exists c_iss c_type verification d_ev ds1 ds2 st decoy1 decoy2 decoy_c decoy_vc decoy,
    create_sd_claims env decoys
      (claims_shape iss jti iat exp doctype evidence (groups_shape g1 a1 g2 a2))
      (mk_sd_state 0 [])
    = (sd_object
         [(Plain "iss", c_iss);
          (Plain "jti", PStr jti);
          (Plain "iat", PInt iat);
          (Plain "exp", PInt exp);
          (Plain "status", PStr "validation status URL");
          (Plain "type", c_type);
          (Plain "verified_claims",
           sd_object
             [(Plain "verification", verification);
              (Plain "claims",
               sd_object
                 [(Plain g1, sd_object [] (map (disclosure_hash env) ds1 ++ decoy1));
                  (Plain g2, sd_object [] (map (disclosure_hash env) ds2 ++ decoy2))]
                 decoy_c)]
             decoy_vc)]
         decoy, st)
    /\ ii_disclosures st = d_ev :: ds1 ++ ds2
    /\ name d_ev = JStr "evidence"
    /\ (decoys = false \/ scalar iss = true -> c_iss = of_json iss)
    /\ (decoys = false \/ scalar doctype = true -> c_type = of_json doctype)
    /\ (decoys = false \/ scalar evidence = true -> value d_ev = of_json evidence)
    /\ Forall2 (discloses decoys) ds1 a1
    /\ Forall2 (discloses decoys) ds2 a2
    /\ (exists hi, salted env 0 (d_ev :: ds1 ++ ds2) hi)
    /\ (decoys = false -> decoy1 = [] /\ decoy2 = []).
Proof.
  unfold claims_shape.
  remember (PDict (groups_shape g1 a1 g2 a2)) as G eqn:EG.
  cbn [create_sd_claims create_sd_entries].
  destruct (passes_through_json env decoys iss (mk_sd_state 0 [])) as (Di & Mi & Ei).
  destruct (create_sd_claims env decoys (of_json iss) (mk_sd_state 0 []))
    as [c_iss s1] eqn:Ci.
  destruct (passes_through_json env decoys doctype s1) as (Dt & Mt & Et).
  destruct (create_sd_claims env decoys (of_json doctype) s1) as [c_type s2] eqn:Ct.
  destruct (passes_through_json env decoys evidence s2) as (De & Me & Ee).
  destruct (create_sd_claims env decoys (of_json evidence) s2) as [c_ev s3] eqn:Ce.
  cbn [snd ii_disclosures] in Di, Dt, De.
  set (d_ev := mk_disclosure (generate_salt env (draws s3)) (JStr "evidence") c_ev).
  set (s4 := mk_sd_state (S (draws s3)) (ii_disclosures s3 ++ [d_ev])).
  assert (ii_disclosures s4 = [d_ev]) as D4.
  { unfold s4. cbn [ii_disclosures]. rewrite De, Dt, Di. reflexivity. }
  subst G.
  destruct decoys.
  - set (s5 := mk_sd_state (S (draws s4)) (ii_disclosures s4)).
    destruct (create_sd_claims_groups env true g1 a1 g2 a2 s5)
      as (ds1 & ds2 & s6 & dc1 & dc2 & dcc & R & D & F1 & F2 & Hs & Z).
    rewrite R.
    eexists c_iss, c_type, _, d_ev, ds1, ds2, _, dc1, dc2, dcc, _, _.
    split; [reflexivity|]. cbn [ii_disclosures]. rewrite D.
    unfold s5. cbn [ii_disclosures]. rewrite D4.
    split; [reflexivity|]. split; [reflexivity|].
    split; [intros Hd; specialize (Ei Hd); injection Ei as <- _; reflexivity|].
    split; [intros Hd; specialize (Et Hd); injection Et as <- _; reflexivity|].
    split; [intros Hd; specialize (Ee Hd); injection Ee as Ec _;
            unfold d_ev; cbn [value]; exact Ec|].
    split; [exact F1|]. split; [exact F2|].
    split; [|discriminate].
    exists (draws s6). cbn [salted]. exists (draws s3).
    split; [lia|]. split; [reflexivity|].
    apply (salted_from env _ (draws s5)); [unfold s5, s4; cbn [draws]; lia|exact Hs].
  - destruct (create_sd_claims_groups env false g1 a1 g2 a2 s4)
      as (ds1 & ds2 & s6 & dc1 & dc2 & dcc & R & D & F1 & F2 & Hs & Z).
    rewrite R.
    eexists c_iss, c_type, _, d_ev, ds1, ds2, _, dc1, dc2, dcc, [], [].
    split; [reflexivity|]. rewrite D, D4.
    split; [reflexivity|]. split; [reflexivity|].
    split; [intros Hd; specialize (Ei Hd); injection Ei as <- _; reflexivity|].
    split; [intros Hd; specialize (Et Hd); injection Et as <- _; reflexivity|].
    split; [intros Hd; specialize (Ee Hd); injection Ee as Ec _;
            unfold d_ev; cbn [value]; exact Ec|].
    split; [exact F1|]. split; [exact F2|].
    split; [|exact Z].
    exists (draws s6). cbn [salted]. exists (draws s3).
    split; [lia|]. split; [reflexivity|].
    apply (salted_from env _ (draws s4)); [unfold s4; cbn [draws]; lia|exact Hs].
Qed.

Lemma dict_get_set_other (d : list (claim_key * claim)) k k' v :
  k <> k' ->
  dict_get claim_key_eqb (Plain k) (dict_set claim_key_eqb (Plain k') v d)
  = dict_get claim_key_eqb (Plain k) d.
Proof.
  intros H. assert (String.eqb k k' = false) as E by (apply String.eqb_neq, H).
  induction d as [|[x vx] d IH].
  - cbn. rewrite E. reflexivity.
  - cbn [dict_set]. destruct (claim_key_eqb (Plain k') x) eqn:X.
    + destruct x as [s|j]; [|discriminate X]. cbn in X.
      apply String.eqb_eq in X. subst s. cbn [dict_get claim_key_eqb].
      rewrite E. reflexivity.
    + cbn [dict_get]. rewrite IH. reflexivity.
Qed.

(** The two claims the issuer adds leave every other plain claim of the
    body where it was. *)
Lemma claim_get_payload kept digests holder k :
  k <> SD_DIGESTS_KEY -> k <> "_sd_alg" -> k <> "cnf" ->
  claim_get (with_alg_and_cnf (sd_object kept digests) holder) k
  = dict_get claim_key_eqb (Plain k) kept.
Proof.
  intros H1 H2 H3. rewrite <- (claim_get_sd_object kept digests k H1).
  unfold sd_object. destruct digests;
    cbn [with_alg_and_cnf claim_get dict_update fold_left fst snd];
    rewrite !dict_get_set_other by assumption; reflexivity.
Qed.


(** *** Where the values of the signed body come from *)

(** [pid_data["evidence"][0]["source"]["organization_name"]] *)
Definition organization_name (pid_data : json) : outcome json :=
  ev <- getitem pid_data "evidence" ;;
  first <- getitem0 ev ;;
  source <- getitem first "source" ;;
  getitem source "organization_name".

(** The dictionary [claims], with the values it was built from. *)
Lemma sdjwt_claims_values env PID jti claims pid_data g1 a1 g2 a2 rest :
  getitem PID "data" = Return pid_data ->
  getitem pid_data "claims" = Return (JDict ((g1, JDict a1) :: (g2, JDict a2) :: rest)) ->
  g1 <> g2 -> NoDup (map fst a1) -> NoDup (map fst a2) ->
  sdjwt_claims env PID jti = Return claims ->
  exists ns issuance expiry iat exp iss doctype evidence,
    lookup pid_namespace ((g1, JDict a1) :: (g2, JDict a2) :: rest) = Some ns
    /\ getitem ns "issuance_date" = Return issuance
    /\ DatestringFormatter (utcoffset env) issuance = Return iat
    /\ getitem ns "expiry_date" = Return expiry
    /\ DatestringFormatter (utcoffset env) expiry = Return exp
    /\ claims
       = claims_shape iss jti iat exp doctype evidence (groups_shape g1 a1 g2 a2)
    /\ organization_name pid_data = Return iss
    /\ getitem PID "doctype" = Return doctype.
Proof.
  intros Hd Hc Hg N1 N2 H.
  destruct (sdjwt_claims_shape _ _ _ _ _ _ _ _ _ _ Hd Hc Hg N1 N2 H)
    as (iss & iat & exp & doctype & evidence & E & _).
  unfold sdjwt_claims in H. rewrite Hd in H. cbn [bind] in H.
  rewrite Hc in H. cbn [bind] in H.
  apply bind_Return in H. destruct H as (ns & Hns & H).
  apply bind_Return in H. destruct H as (issuance & Hi & H).
  apply bind_Return in H. destruct H as (iat' & Hiat & H).
  apply bind_Return in H. destruct H as (expiry & He & H).
  apply bind_Return in H. destruct H as (exp' & Hexp & H).
  apply bind_Return in H. destruct H as (pid_data' & Hp & H).
  rewrite (getitem_dict_get_default _ _ _ _ Hd) in Hp. injection Hp as <-.
  apply bind_Return in H. destruct H as (device_key & _ & H).
  apply bind_Return in H. destruct H as (doctype' & Hdoc & H).
  apply bind_Return in H. destruct H as (ev1 & H1 & H).
  apply bind_Return in H. destruct H as (ev2 & H2 & H).
  apply bind_Return in H. destruct H as (source & H3 & H).
  apply bind_Return in H. destruct H as (organization_name' & H4 & H).
  apply bind_Return in H. destruct H as (ev3 & _ & H).
  apply bind_Return in H. destruct H as (evidence' & _ & H).
  apply bind_Return in H. destruct H as (groups & _ & H).
  injection H as H. rewrite E in H. unfold claims_shape in H.
  cbn [dict_update fold_left dict_set fst snd claim_key_eqb String.eqb
       Ascii.eqb Bool.eqb] in H.
  injection H as Hiss Hiat' Hexp' Hdoctype _.
  exists ns, issuance, expiry, iat', exp', organization_name', doctype', evidence.
  unfold getitem in Hns at 1.
  destruct (lookup pid_namespace ((g1, JDict a1) :: (g2, JDict a2) :: rest))
    as [ns'|]; [|discriminate Hns].
  injection Hns as ->.
  repeat split; try assumption.
  - rewrite E. subst iat' exp'. unfold claims_shape. rewrite Hiss, Hdoctype.
    reflexivity.
  - unfold organization_name. rewrite H1. cbn [bind]. rewrite H2. cbn [bind].
    rewrite H3. cbn [bind]. exact H4.
Qed.

(** The steps of a run of [sdjwtFormatter] that returns. *)
Lemma sdjwtFormatter_steps env PID token :
  sdjwtFormatter env PID = Return token ->
  exists settings key_settings demo_keys example use_decoys claims device_key
         jwk_kwargs holder,
    load_yaml_settings env "app/sd-jwt_files/settings.yml" = Returned settings
    /\ getitem settings "key_settings" = Return key_settings
    /\ get_jwk env key_settings true seed_value = Returned demo_keys
    /\ load_yaml_specification env "app/sd-jwt_files/specification.yml"
       = Returned example
    /\ dict_get_default example "add_decoy_claims" (JBool false) = Return use_decoys
    /\ sdjwt_claims env PID (uuid4 env) = Return claims
    /\ getitem PID "device_publickey" = Return device_key
    /\ holder_jwk_kwargs env device_key = Return jwk_kwargs
    /\ get_jwk env jwk_kwargs true seed_value = Returned holder
    /\ SDJWTIssuer env (truthy use_decoys) claims (issuer_key demo_keys)
         (holder_key holder)
       = Return token.
Proof.
  intros H. unfold sdjwtFormatter in H. rewrite seed_eq in H.
  apply bind_Return in H. destruct H as (settings & H1 & H).
  cbn [bind] in H.
  apply bind_Return in H. destruct H as (key_settings & H2 & H).
  apply bind_Return in H. destruct H as (demo_keys & H3 & H).
  apply bind_Return in H. destruct H as (example & H4 & H).
  apply bind_Return in H. destruct H as (use_decoys & H5 & H).
  apply bind_Return in H. destruct H as (claims & H6 & H).
  apply bind_Return in H. destruct H as (device_key & H7 & H).
  apply bind_Return in H. destruct H as (jwk_kwargs & H8 & H).
  apply bind_Return in H. destruct H as (holder & H9 & H).
  apply Mdoc.run_Return in H1, H3, H4, H9.
  exists settings, key_settings, demo_keys, example, use_decoys, claims,
    device_key, jwk_kwargs, holder.
  repeat split; assumption.
Qed.

(** *** Selective disclosure *)





(** *** A holder key on another curve *)

(** The key of the demonstration deployment lies on [secp256k1], which
    [curve_map] does not list. *)
Definition k1_env : sdjwt_env := demo_env tz_utc "secp256k1".

(** C4, as stated, fails: the holder key lies on [secp256k1]; the builder
    gets [None] from [curve_map.get], raises nothing, hands [get_jwk] a
    holder key whose [crv] is [None], and returns an SD-JWT. *)
Lemma unrecognised_curve_is_passed_on :
  load_pem_public_key k1_env (encode_utf8 "public-key")
  = Returned (EllipticCurvePublicKey "secp256k1" 1000 70000)
  /\ curve_map "secp256k1" = None
  /\ holder_jwk_kwargs k1_env (JStr "cHVibGljLWtleQ==")
     = Return
         (JDict [("issuer_key", issuer_key_literal);
                 ("holder_key",
                  JDict [("kty", JStr "EC"); ("crv", JNull);
                         ("x", JStr "A+g="); ("y", JStr "ARFw")]);
                 ("key_size", JInt 256);
                 ("kty", JStr "EC")])
  /\ sdjwtFormatter k1_env (demo_PID demo_claims)
     = Return "jws~evidence~family_name~given_name~birth_date~issuance_date~expiry_date~age_over_18~nationality".
Proof.
  split; [reflexivity|]. split; [reflexivity|].
  split; vm_compute; reflexivity.
Qed.

(** C4 (amended): a holder key on a curve other than P-256, P-384 and
    P-521 does not make the builder fail with [UnsupportedCurveError]:
    [curve_map.get] yields [None] and the builder goes on.  Once the steps
    before the key have succeeded, it calls [get_jwk], with the constant
    seed, on [jwk_kwargs] whose holder key has [crv = None] beside the
    base64 texts of the coordinates of the key, each written big-endian in
    as few octets as it needs; what the builder does is then what
    [get_jwk] and [SDJWTIssuer] do with that key.  A device key that has
    no curve at all raises [AttributeError] at [public_key.curve]. *)
Theorem sdjwtFormatter_unrecognised_curve
    (env : sdjwt_env) (PID settings key_settings example use_decoys : json)
    (demo_keys : jwk_keys) (claims : claim) (device_key : string)
    (key_bytes : bytes) (key : public_key) :
  load_yaml_settings env "app/sd-jwt_files/settings.yml" = Returned settings ->
  getitem settings "key_settings" = Return key_settings ->
  get_jwk env key_settings true seed_value = Returned demo_keys ->
  load_yaml_specification env "app/sd-jwt_files/specification.yml"
  = Returned example ->
  dict_get_default example "add_decoy_claims" (JBool false) = Return use_decoys ->
  sdjwt_claims env PID (uuid4 env) = Return claims ->
  getitem PID "device_publickey" = Return (JStr device_key) ->
  urlsafe_b64decode (encode_utf8 device_key) = Return key_bytes ->
  load_pem_public_key env key_bytes = Returned key ->
  (forall curve x y,
     key = EllipticCurvePublicKey curve x y ->
     curve_map curve = None /\ 0 <= x /\ 0 <= y) ->
  match key with
  | EllipticCurvePublicKey curve x y =>
      exists bx by_,
        from_bytes_big bx = x
        /\ Z.of_nat (List.length bx) = (bit_length x + 7) / 8
        /\ from_bytes_big by_ = y
        /\ Z.of_nat (List.length by_) = (bit_length y + 7) / 8
        /\ holder_jwk_kwargs env (JStr device_key)
           = Return
               (JDict [("issuer_key", issuer_key_literal);
                       ("holder_key",
                        JDict [("kty", JStr "EC"); ("crv", JNull);
                               ("x", JStr (decode_utf8 (b64encode bx)));
                               ("y", JStr (decode_utf8 (b64encode by_)))]);
                       ("key_size", JInt 256);
                       ("kty", JStr "EC")])
        /\ sdjwtFormatter env PID
           = (holder <-
                run (get_jwk env
                       (JDict [("issuer_key", issuer_key_literal);
                               ("holder_key",
                                JDict [("kty", JStr "EC"); ("crv", JNull);
                                       ("x", JStr (decode_utf8 (b64encode bx)));
                                       ("y", JStr (decode_utf8 (b64encode by_)))]);
                               ("key_size", JInt 256);
                               ("kty", JStr "EC")])
                       true seed_value) ;;
              SDJWTIssuer env (truthy use_decoys) claims (issuer_key demo_keys)
                (holder_key holder))
  | OtherPublicKey => sdjwtFormatter env PID = Raise AttributeError
  end.
Proof.
  intros H1 H2 H3 H4 H5 H6 H7 Hb64 Hpem Hkey.
  assert (forall kw,
            holder_jwk_kwargs env (JStr device_key) = kw ->
            sdjwtFormatter env PID
            = (jwk_kwargs <- kw ;;
               holder <- run (get_jwk env jwk_kwargs true seed_value) ;;
               SDJWTIssuer env (truthy use_decoys) claims (issuer_key demo_keys)
                 (holder_key holder))) as Steps.
  { intros kw <-. unfold sdjwtFormatter. rewrite seed_eq, H1. cbn [run bind].
    rewrite H2. cbn [bind]. rewrite H3. cbn [run bind]. rewrite H4.
    cbn [run bind]. rewrite H5. cbn [bind]. rewrite H6. cbn [bind].
    rewrite H7. reflexivity. }
  destruct key as [curve x y|].
  - destruct (Hkey curve x y eq_refl) as (Hcurve & Hx & Hy).
    exists (to_bytes_big_aux (Z.to_nat ((bit_length x + 7) / 8)) x []),
           (to_bytes_big_aux (Z.to_nat ((bit_length y + 7) / 8)) y []).
    assert (forall n, 0 <= n -> 0 <= (bit_length n + 7) / 8) as L.
    { intros n Hn. unfold bit_length. destruct (n =? 0); [cbn; lia|].
      pose proof (Z.log2_nonneg (Z.abs n)). Z.div_mod_to_equations. lia. }
    assert (holder_jwk_kwargs env (JStr device_key)
            = Return
                (JDict [("issuer_key", issuer_key_literal);
                        ("holder_key",
                         JDict [("kty", JStr "EC"); ("crv", JNull);
                                ("x", JStr (decode_utf8 (b64encode
                                   (to_bytes_big_aux
                                      (Z.to_nat ((bit_length x + 7) / 8)) x []))));
                                ("y", JStr (decode_utf8 (b64encode
                                   (to_bytes_big_aux
                                      (Z.to_nat ((bit_length y + 7) / 8)) y []))))]);
                        ("key_size", JInt 256);
                        ("kty", JStr "EC")])) as K.
    { unfold holder_jwk_kwargs. cbn [str_encode bind]. rewrite Hb64. cbn [bind].
      rewrite Hpem. cbn [run bind public_key_curve_name public_numbers fst snd].
      rewrite (to_bytes_big_minimal x Hx), (to_bytes_big_minimal y Hy).
      cbn [bind]. unfold curve_identifier_of. rewrite Hcurve. reflexivity. }
    split; [exact (proj2 (Mdoc.from_bytes_big_minimal _ _ _
                            (to_bytes_big_minimal x Hx) eq_refl))|].
    split; [rewrite Cbor.to_bytes_big_aux_length; cbn [List.length];
            rewrite Nat.add_0_r; apply Z2Nat.id, L, Hx|].
    split; [exact (proj2 (Mdoc.from_bytes_big_minimal _ _ _
                            (to_bytes_big_minimal y Hy) eq_refl))|].
    split; [rewrite Cbor.to_bytes_big_aux_length; cbn [List.length];
            rewrite Nat.add_0_r; apply Z2Nat.id, L, Hy|].
    split; [exact K|].
    rewrite (Steps _ K). reflexivity.
  - rewrite (Steps (Raise AttributeError)); [reflexivity|].
    unfold holder_jwk_kwargs. cbn [str_encode bind]. rewrite Hb64. cbn [bind].
    rewrite Hpem. reflexivity.
Qed.

Lemma sdjwtFormatter_unrecognised_curve_witness :
  exists bx by_,
    from_bytes_big bx = 1000
    /\ Z.of_nat (List.length bx) = (bit_length 1000 + 7) / 8
    /\ from_bytes_big by_ = 70000
    /\ Z.of_nat (List.length by_) = (bit_length 70000 + 7) / 8
    /\ holder_jwk_kwargs k1_env (JStr "cHVibGljLWtleQ==")
       = Return
           (JDict [("issuer_key", issuer_key_literal);
                   ("holder_key",
                    JDict [("kty", JStr "EC"); ("crv", JNull);
                           ("x", JStr (decode_utf8 (b64encode bx)));
                           ("y", JStr (decode_utf8 (b64encode by_)))]);
                   ("key_size", JInt 256);
                   ("kty", JStr "EC")])
    /\ sdjwtFormatter k1_env (demo_PID demo_claims)
       = (holder <-
            run (get_jwk k1_env
                   (JDict [("issuer_key", issuer_key_literal);
                           ("holder_key",
                            JDict [("kty", JStr "EC"); ("crv", JNull);
                                   ("x", JStr (decode_utf8 (b64encode bx)));
                                   ("y", JStr (decode_utf8 (b64encode by_)))]);
                           ("key_size", JInt 256);
                           ("kty", JStr "EC")])
                   true seed_value) ;;
          SDJWTIssuer k1_env (truthy (JBool false))
            (match sdjwt_claims k1_env (demo_PID demo_claims) (uuid4 k1_env) with
             | Return c => c
             | _ => PNone
             end)
            (issuer_key (mk_jwk_keys issuer_key_literal JNull JNull))
            (holder_key holder)).
Proof.
  apply (sdjwtFormatter_unrecognised_curve k1_env (demo_PID demo_claims)
           (JDict [("key_settings", JDict [("kty", JStr "EC")])])
           (JDict [("kty", JStr "EC")])
           (JDict [("add_decoy_claims", JBool false)])
           (JBool false)
           (mk_jwk_keys issuer_key_literal JNull JNull)
           (match sdjwt_claims k1_env (demo_PID demo_claims) (uuid4 k1_env) with
            | Return c => c
            | _ => PNone
            end)
           "cHVibGljLWtleQ==" (encode_utf8 "public-key")
           (EllipticCurvePublicKey "secp256k1" 1000 70000)).
  - reflexivity.
  - reflexivity.
  - reflexivity.
  - reflexivity.
  - reflexivity.
  - vm_compute. reflexivity.
  - reflexivity.
  - vm_compute. reflexivity.
  - reflexivity.
  - intros curve x y E. injection E as <- <- <-.
    split; [reflexivity|]. split; lia.
Defined.

(** *** The seed of the keys *)

(** C10: the seed is the integer value of the SHA-256 digest of the empty
    byte string, a constant, and the keys of every SD-JWT come from it.
    Take two calls of [sdjwtFormatter] that return, on any two inputs, in
    surroundings that share the settings file and the key helper
    [get_jwk] and may differ in everything else.  Both get the issuer's
    keys from [get_jwk] at the same key settings and that seed, and sign
    with the same issuer key; each gets the holder's key from [get_jwk] at
    the [jwk_kwargs] of its device key and that same seed, and issues its
    SD-JWT to it. *)
Theorem sdjwt_keys_from_constant_seed
    (env1 env2 : sdjwt_env) (PID1 PID2 : json) (token1 token2 : string) :
  load_yaml_settings env1 = load_yaml_settings env2 ->
  get_jwk env1 = get_jwk env2 ->
  sdjwtFormatter env1 PID1 = Return token1 ->
  sdjwtFormatter env2 PID2 = Return token2 ->
  hexdigest (@nil ascii)
  = "e3b0c44298fc1c149afbf4c8996fb92427ae41e4649b934ca495991b7852b855"
  /\ int16 (hexdigest (@nil ascii)) = Return seed_value
  /\ seed = Return seed_value
  /\ exists settings key_settings demo_keys
            device_key1 jwk_kwargs1 holder1 body1 ds1
            device_key2 jwk_kwargs2 holder2 body2 ds2,
       load_yaml_settings env1 "app/sd-jwt_files/settings.yml" = Returned settings
       /\ getitem settings "key_settings" = Return key_settings
       /\ get_jwk env1 key_settings true seed_value = Returned demo_keys
       /\ getitem PID1 "device_publickey" = Return device_key1
       /\ holder_jwk_kwargs env1 device_key1 = Return jwk_kwargs1
       /\ get_jwk env1 jwk_kwargs1 true seed_value = Returned holder1
       /\ sign_and_combine env1 body1 ds1 (issuer_key demo_keys) (holder_key holder1)
          = Returned token1
       /\ getitem PID2 "device_publickey" = Return device_key2
       /\ holder_jwk_kwargs env2 device_key2 = Return jwk_kwargs2
       /\ get_jwk env2 jwk_kwargs2 true seed_value = Returned holder2
       /\ sign_and_combine env2 body2 ds2 (issuer_key demo_keys) (holder_key holder2)
          = Returned token2.
Proof.
  intros Es Ek H1 H2.
  split; [vm_compute; reflexivity|]. split; [exact seed_eq|].
  split; [exact seed_eq|].
  destruct (sdjwtFormatter_steps env1 PID1 token1 H1)
    as (settings & key_settings & demo_keys & example1 & use_decoys1 & claims1
        & device_key1 & jwk_kwargs1 & holder1 & A1 & A2 & A3 & _ & _ & _ & A7 & A8
        & A9 & I1).
  destruct (sdjwtFormatter_steps env2 PID2 token2 H2)
    as (settings' & key_settings' & demo_keys' & example2 & use_decoys2 & claims2
        & device_key2 & jwk_kwargs2 & holder2 & B1 & B2 & B3 & _ & _ & _ & B7 & B8
        & B9 & I2).
  rewrite <- Es in B1. rewrite A1 in B1. injection B1 as <-.
  rewrite A2 in B2. injection B2 as <-.
  rewrite <- Ek in B3. rewrite A3 in B3. injection B3 as <-.
  unfold SDJWTIssuer in I1, I2.
  destruct (has_sd_claim claims1); [discriminate I1|].
  destruct (has_sd_claim claims2); [discriminate I2|].
  destruct (sd_jwt_payload env1 (truthy use_decoys1) claims1 (holder_key holder1))
    as [body1 st1].
  destruct (sd_jwt_payload env2 (truthy use_decoys2) claims2 (holder_key holder2))
    as [body2 st2].
  apply Mdoc.run_Return in I1, I2.
  exists settings, key_settings, demo_keys,
    device_key1, jwk_kwargs1, holder1, body1, (ii_disclosures st1),
    device_key2, jwk_kwargs2, holder2, body2, (ii_disclosures st2).
  repeat split; assumption.
Qed.

Lemma sdjwt_keys_from_constant_seed_witness :
  hexdigest (@nil ascii)
  = "e3b0c44298fc1c149afbf4c8996fb92427ae41e4649b934ca495991b7852b855"
  /\ int16 (hexdigest (@nil ascii)) = Return seed_value
  /\ seed = Return seed_value
  /\ exists settings key_settings demo_keys
            device_key1 jwk_kwargs1 holder1 body1 ds1
            device_key2 jwk_kwargs2 holder2 body2 ds2,
       load_yaml_settings (demo_env tz_utc "secp256r1")
         "app/sd-jwt_files/settings.yml" = Returned settings
       /\ getitem settings "key_settings" = Return key_settings
       /\ get_jwk (demo_env tz_utc "secp256r1") key_settings true seed_value
          = Returned demo_keys
       /\ getitem (demo_PID demo_claims) "device_publickey" = Return device_key1
       /\ holder_jwk_kwargs (demo_env tz_utc "secp256r1") device_key1
          = Return jwk_kwargs1
       /\ get_jwk (demo_env tz_utc "secp256r1") jwk_kwargs1 true seed_value
          = Returned holder1
       /\ sign_and_combine (demo_env tz_utc "secp256r1") body1 ds1
            (issuer_key demo_keys) (holder_key holder1)
          = Returned "jws~evidence~family_name~given_name~birth_date~issuance_date~expiry_date~age_over_18~nationality"
       /\ getitem (demo_PID (rev demo_claims)) "device_publickey"
          = Return device_key2
       /\ holder_jwk_kwargs (demo_env (tz_fixed 3600) "secp384r1") device_key2
          = Return jwk_kwargs2
       /\ get_jwk (demo_env (tz_fixed 3600) "secp384r1") jwk_kwargs2 true seed_value
          = Returned holder2
       /\ sign_and_combine (demo_env (tz_fixed 3600) "secp384r1") body2 ds2
            (issuer_key demo_keys) (holder_key holder2)
          = Returned "jws~evidence~age_over_18~nationality~family_name~given_name~birth_date~issuance_date~expiry_date".
Proof.
  apply (sdjwt_keys_from_constant_seed
           (demo_env tz_utc "secp256r1") (demo_env (tz_fixed 3600) "secp384r1")
           (demo_PID demo_claims) (demo_PID (rev demo_claims))
           "jws~evidence~family_name~given_name~birth_date~issuance_date~expiry_date~age_over_18~nationality"
           "jws~evidence~age_over_18~nationality~family_name~given_name~birth_date~issuance_date~expiry_date").
  - reflexivity.
  - reflexivity.
  - vm_compute. reflexivity.
  - vm_compute. reflexivity.
Defined.

(** ** Further properties of the SD-JWT builder *)

(** *** [DatestringFormatter] in zones away from UTC *)

Lemma days_since_epoch_2024 : days_since_epoch 19723 (mkdate 2024 1 1).
Proof.
  pose proof (days_since_epoch_iter (Z.to_nat 19723)) as H.
  rewrite Z2Nat.id in H by lia.
  replace (Nat.iter (Z.to_nat 19723) next_day epoch) with (mkdate 2024 1 1) in H
    by (vm_compute; reflexivity).
  exact H.
Qed.

(** The offset of the zone is [o] from two days before the date [n] days
    after 1970-01-01 to one day after it. *)
Definition offset_around (zone : Z -> Z) (n o : Z) : Prop :=
  forall u, (n - 2) * 86400 <= u <= (n + 1) * 86400 -> zone u = o.

Lemma DatestringFormatter_stable zone s d n o :
  strptime s = Return d -> days_since_epoch n d -> - 719162 < n ->
  - 86400 < o < 86400 -> offset_around zone n o ->
  DatestringFormatter zone (JStr s) = Return (Z.quot (n * 86400 - o) 86400).
Proof.
  intros Hs Hn First Ho Hz. unfold DatestringFormatter. rewrite Hs. cbn [bind].
  rewrite (timestamp_stable zone d n o (strptime_valid s d Hs) Hn First Ho Hz).
  reflexivity.
Qed.

(** X1: in a process whose local zone is east of UTC around the date
    (a constant offset between 0 and 24 hours), [DatestringFormatter]
    gives, for a date after 0001-01-01, one day less than the number of
    days from 1970-01-01 if the date is after 1970-01-01, and that number
    itself for 1970-01-01 and the dates before it. *)
Theorem DatestringFormatter_east_of_UTC
    (zone : Z -> Z) (s : string) (d : date) (n o : Z) :
  strptime s = Return d -> days_since_epoch n d -> - 719162 < n ->
  0 < o < 86400 -> offset_around zone n o ->
  DatestringFormatter zone (JStr s) = Return (if 0 <? n then n - 1 else n).
Proof.
  intros Hs Hn First Ho Hz.
  rewrite (DatestringFormatter_stable zone s d n o Hs Hn First) by (lia || exact Hz).
  f_equal. destruct (Z.ltb_spec 0 n) as [P|P].
  - rewrite Z.quot_div_nonneg by lia.
    symmetry. apply Z.div_unique with (r := 86400 - o). { lia. } lia.
  - replace (n * 86400 - o) with (- ((- n) * 86400 + o)) by lia.
    rewrite Z.quot_opp_l by lia.
    rewrite Z.quot_div_nonneg by lia.
    rewrite <- (Z.div_unique ((- n) * 86400 + o) 86400 (- n) o) by lia. lia.
Qed.

Lemma DatestringFormatter_east_of_UTC_witness :
  DatestringFormatter (tz_fixed 3600) (JStr "2024-01-01")
  = Return (if 0 <? 19723 then 19723 - 1 else 19723).
Proof.
  apply (DatestringFormatter_east_of_UTC (tz_fixed 3600) "2024-01-01"
           (mkdate 2024 1 1) 19723 3600).
  - reflexivity.
  - exact days_since_epoch_2024.
  - lia.
  - lia.
  - intros u _. reflexivity.
Defined.

(** X2: in a process whose local zone is west of UTC around the date
    (a constant offset between 0 and minus 24 hours),
    [DatestringFormatter] gives, for a date after 0001-01-01, the number of
    days from 1970-01-01 if the date is 1970-01-01 or after it, and one
    day more for the dates before 1970-01-01. *)
Theorem DatestringFormatter_west_of_UTC
    (zone : Z -> Z) (s : string) (d : date) (n o : Z) :
  strptime s = Return d -> days_since_epoch n d -> - 719162 < n ->
  - 86400 < o < 0 -> offset_around zone n o ->
  DatestringFormatter zone (JStr s) = Return (if n <? 0 then n + 1 else n).
Proof.
  intros Hs Hn First Ho Hz.
  rewrite (DatestringFormatter_stable zone s d n o Hs Hn First) by (lia || exact Hz).
  f_equal. destruct (Z.ltb_spec n 0) as [P|P].
  - replace (n * 86400 - o) with (- ((- n - 1) * 86400 + (86400 + o))) by lia.
    rewrite Z.quot_opp_l by lia.
    rewrite Z.quot_div_nonneg by lia.
    rewrite <- (Z.div_unique ((- n - 1) * 86400 + (86400 + o)) 86400 (- n - 1)
                  (86400 + o)) by lia.
    lia.
  - rewrite Z.quot_div_nonneg by lia.
    symmetry. apply Z.div_unique with (r := - o). { lia. } lia.
Qed.

Lemma DatestringFormatter_west_of_UTC_witness :
  DatestringFormatter (tz_fixed (- 18000)) (JStr "2024-01-01")
  = Return (if 19723 <? 0 then 19723 + 1 else 19723).
Proof.
  apply (DatestringFormatter_west_of_UTC (tz_fixed (- 18000)) "2024-01-01"
           (mkdate 2024 1 1) 19723 (- 18000)).
  - reflexivity.
  - exact days_since_epoch_2024.
  - lia.
  - lia.
  - intros u _. reflexivity.
Defined.

(** X21: in a process whose local zone has no offset from UTC around the
    date, [DatestringFormatter] gives, for a date after 0001-01-01, the
    number of days from 1970-01-01 to the date, for the dates before
    1970-01-01 (a negative number) as for those after it. *)
Theorem DatestringFormatter_at_UTC
    (zone : Z -> Z) (s : string) (d : date) (n : Z) :
  strptime s = Return d -> days_since_epoch n d -> - 719162 < n ->
  offset_around zone n 0 ->
  DatestringFormatter zone (JStr s) = Return n.
Proof.
  intros Hs Hn First Hz.
  rewrite (DatestringFormatter_stable zone s d n 0 Hs Hn First) by (lia || exact Hz).
  f_equal. rewrite Z.sub_0_r. apply Z.quot_mul. lia.
Qed.

Lemma days_since_epoch_1969 : days_since_epoch (- 1) (mkdate 1969 12 31).
Proof.
  apply dse_prev; [reflexivity|]. exact dse_epoch.
Qed.

Lemma DatestringFormatter_at_UTC_witness :
  DatestringFormatter tz_utc (JStr "1969-12-31") = Return (- 1).
Proof.
  apply (DatestringFormatter_at_UTC tz_utc "1969-12-31" (mkdate 1969 12 31) (- 1)).
  - reflexivity.
  - exact days_since_epoch_1969.
  - lia.
  - intros u _. reflexivity.
Defined.

(** X22: the first day of the calendar has no day number.  For every
    string that [strptime] reads as 0001-01-01 and in every zone of
    constant offset (less than 24 hours either way), [DatestringFormatter]
    raises [ValueError]: [timestamp()] comes upon a local time of the
    year 0. *)
Theorem DatestringFormatter_first_day (o : Z) (s : string) :
  - 86400 < o < 86400 ->
  strptime s = Return (mkdate 1 1 1) ->
  DatestringFormatter (tz_fixed o) (JStr s) = Raise ValueError.
Proof.
  intros Ho Hs. unfold DatestringFormatter. rewrite Hs. cbn [bind].
  unfold tz_fixed. rewrite (timestamp_first_day o Ho). reflexivity.
Qed.

Lemma DatestringFormatter_first_day_witness :
  DatestringFormatter (tz_fixed 3600) (JStr "0001-01-01") = Raise ValueError.
Proof.
  apply (DatestringFormatter_first_day 3600 "0001-01-01").
  - lia.
  - reflexivity.
Defined.

(** *** [DATA_sd_jwt] on a claim group *)

(** X3: for a claim group (a dictionary of attributes), [DATA_sd_jwt]
    returns one entry per attribute, in the order of the group: the
    attribute's name wrapped as [SDObj(value=name)], with the attribute's
    value unchanged; no attribute is dropped, none stays under a plain
    key. *)
Theorem DATA_sd_jwt_wraps_every_attribute (attrs : list (string * json)) :
  NoDup (map fst attrs) ->
  DATA_sd_jwt (JDict attrs)
  = Return (map (fun kv => (SDObj (JStr (fst kv)), of_json (snd kv))) attrs).
Proof. intros N. exact (DATA_sd_jwt_dict attrs N). Qed.

Lemma DATA_sd_jwt_wraps_every_attribute_witness :
  DATA_sd_jwt (JDict [("age_over_18", JBool true); ("nationality", JStr "FC")])
  = Return [(SDObj (JStr "age_over_18"), PBool true);
            (SDObj (JStr "nationality"), PStr "FC")].
Proof.
  apply (DATA_sd_jwt_wraps_every_attribute
           [("age_over_18", JBool true); ("nationality", JStr "FC")]).
  repeat constructor; cbn; intuition discriminate.
Defined.

(** *** The namespace the dates are read from *)

(** X4: [iat] and [exp] are read from the claim group named
    [eu.europa.ec.eudiw.pid.1], whatever the position of that group.  For
    an input whose [data.claims] has no group of that name -- however many
    groups it has -- the lookup at line 143 raises [KeyError], and
    [sdjwtFormatter] ends in an exception: it builds no SD-JWT. *)
Theorem sdjwtFormatter_without_pid_namespace
    (env : sdjwt_env) (PID pid_data : json) (groups : list (string * json))
    (jti : string) :
  getitem PID "data" = Return pid_data ->
  getitem pid_data "claims" = Return (JDict groups) ->
  lookup pid_namespace groups = None ->
  sdjwt_claims env PID jti = Raise KeyError
  /\ exists e, sdjwtFormatter env PID = Raise e.
Proof.
  intros Hd Hc Hn.
  assert (forall j, sdjwt_claims env PID j = Raise KeyError) as C.
  { intros j. unfold sdjwt_claims. rewrite Hd. cbn [bind]. rewrite Hc. cbn [bind].
    unfold getitem at 1. rewrite Hn. reflexivity. }
  split; [apply C|].
  change (raises (sdjwtFormatter env PID)). unfold sdjwtFormatter.
  apply raises_bind; [apply untyped_run|intros settings _].
  apply raises_bind; [exact untyped_seed|intros s _].
  do 4 raises_step.
  apply raises_bind_first. exists KeyError. apply C.
Qed.

Lemma sdjwtFormatter_without_pid_namespace_witness :
  sdjwt_claims (demo_env tz_utc "secp256r1")
    (demo_PID [("eu.europa.ec.eudiw.pid.2", demo_mandatory);
               ("eu.europa.ec.eudiw.pid.fc.1", demo_optional)])
    "5f3c2a1e-0000-4000-8000-000000000001"
  = Raise KeyError
  /\ exists e,
       sdjwtFormatter (demo_env tz_utc "secp256r1")
         (demo_PID [("eu.europa.ec.eudiw.pid.2", demo_mandatory);
                    ("eu.europa.ec.eudiw.pid.fc.1", demo_optional)])
       = Raise e.
Proof.
  apply (sdjwtFormatter_without_pid_namespace (demo_env tz_utc "secp256r1")
           (demo_PID [("eu.europa.ec.eudiw.pid.2", demo_mandatory);
                      ("eu.europa.ec.eudiw.pid.fc.1", demo_optional)])
           (JDict [("evidence", demo_evidence);
                   ("claims",
                    JDict [("eu.europa.ec.eudiw.pid.2", demo_mandatory);
                           ("eu.europa.ec.eudiw.pid.fc.1", demo_optional)])])
           [("eu.europa.ec.eudiw.pid.2", demo_mandatory);
            ("eu.europa.ec.eudiw.pid.fc.1", demo_optional)]).
  - reflexivity.
  - reflexivity.
  - reflexivity.
Defined.

(** *** The dates of the signed body *)

(** The body the issuer signs for the claims of [sdjwtFormatter]: the
    protocol claims under their names, then [verified_claims]. *)
Lemma SDJWTIssuer_signs env decoys iss jti iat exp doctype evidence
    g1 a1 g2 a2 issuer holder token :
  SDJWTIssuer env decoys
    (claims_shape iss jti iat exp doctype evidence (groups_shape g1 a1 g2 a2))
    issuer holder
  = Return token ->
  exists c_iss c_type verified digests ds,
    sign_and_combine env
      (with_alg_and_cnf
         (sd_object
            [(Plain "iss", c_iss);
             (Plain "jti", PStr jti);
             (Plain "iat", PInt iat);
             (Plain "exp", PInt exp);
             (Plain "status", PStr "validation status URL");
             (Plain "type", c_type);
             (Plain "verified_claims", verified)]
            digests)
         holder)
      ds issuer holder
    = Returned token.
Proof.
  intros H. unfold SDJWTIssuer in H.
  destruct (has_sd_claim _); [discriminate H|].
  unfold sd_jwt_payload in H.
  destruct (create_sd_claims_shape env decoys iss jti iat exp doctype evidence
              g1 a1 g2 a2)
    as (c_iss & c_type & verification & d_ev & ds1 & ds2 & st & dc1 & dc2 & dcc
        & dcv & dct & R & _).
  rewrite R in H. apply Mdoc.run_Return in H. eauto 10.
Qed.

(** X5: in the body that [sdjwtFormatter] has signed, [iat] and [exp] are
    the day numbers [DatestringFormatter] gives for [issuance_date] and
    [expiry_date] of the claim group [eu.europa.ec.eudiw.pid.1], [status]
    is the fixed text "validation status URL", and there is no [nbf]. *)
Theorem sdjwt_body_dates
    (env : sdjwt_env) (PID pid_data : json) (token : string)
    (g1 g2 : string) (a1 a2 : list (string * json)) (rest : list (string * json)) :
  getitem PID "data" = Return pid_data ->
  getitem pid_data "claims"
  = Return (JDict ((g1, JDict a1) :: (g2, JDict a2) :: rest)) ->
  g1 <> g2 -> NoDup (map fst a1) -> NoDup (map fst a2) ->
  sdjwtFormatter env PID = Return token ->
  exists body ds issuer holder ns issuance expiry iat exp,
    sign_and_combine env body ds issuer holder = Returned token
    /\ lookup pid_namespace ((g1, JDict a1) :: (g2, JDict a2) :: rest) = Some ns
    /\ getitem ns "issuance_date" = Return issuance
    /\ DatestringFormatter (utcoffset env) issuance = Return iat
    /\ getitem ns "expiry_date" = Return expiry
    /\ DatestringFormatter (utcoffset env) expiry = Return exp
    /\ claim_get body "iat" = Some (PInt iat)
    /\ claim_get body "exp" = Some (PInt exp)
    /\ claim_get body "status" = Some (PStr "validation status URL")
    /\ claim_get body "nbf" = None.
Proof.
  intros Hd Hc Hg N1 N2 H.
  destruct (sdjwtFormatter_steps env PID token H)
    as (settings & key_settings & demo_keys & example & use_decoys & claims
        & device_key & jwk_kwargs & holder & _ & _ & _ & _ & _ & C & _ & _ & _ & I).
  destruct (sdjwt_claims_values _ _ _ _ _ _ _ _ _ _ Hd Hc Hg N1 N2 C)
    as (ns & issuance & expiry & iat & exp & iss & doctype & evidence
        & Hns & Hi & Hiat & He & Hexp & -> & _).
  destruct (SDJWTIssuer_signs _ _ _ _ _ _ _ _ _ _ _ _ _ _ _ I)
    as (c_iss & c_type & verified & digests & ds & Hs).
  eexists _, ds, _, _, ns, issuance, expiry, iat, exp.
  split; [exact Hs|].
  repeat (split; [assumption|]).
  rewrite !claim_get_payload by discriminate.
  repeat split; reflexivity.
Qed.

Lemma sdjwt_body_dates_witness :
  exists body ds issuer holder ns issuance expiry iat exp,
    sign_and_combine (demo_env tz_utc "secp256r1") body ds issuer holder
    = Returned "jws~evidence~family_name~given_name~birth_date~issuance_date~expiry_date~age_over_18~nationality"
    /\ lookup pid_namespace
         [(pid_namespace,
           JDict [("family_name", JStr "Doe"); ("given_name", JStr "Jane");
                  ("birth_date", JStr "1990-01-01");
                  ("issuance_date", JStr "2024-01-01");
                  ("expiry_date", JStr "2034-01-01")]);
          ("eu.europa.ec.eudiw.pid.fc.1",
           JDict [("age_over_18", JBool true); ("nationality", JStr "FC")])]
       = Some ns
    /\ getitem ns "issuance_date" = Return issuance
    /\ DatestringFormatter (utcoffset (demo_env tz_utc "secp256r1")) issuance
       = Return iat
    /\ getitem ns "expiry_date" = Return expiry
    /\ DatestringFormatter (utcoffset (demo_env tz_utc "secp256r1")) expiry
       = Return exp
    /\ claim_get body "iat" = Some (PInt iat)
    /\ claim_get body "exp" = Some (PInt exp)
    /\ claim_get body "status" = Some (PStr "validation status URL")
    /\ claim_get body "nbf" = None.
Proof.
  apply (sdjwt_body_dates (demo_env tz_utc "secp256r1") (demo_PID demo_claims)
           (JDict [("evidence", demo_evidence); ("claims", JDict demo_claims)])
           "jws~evidence~family_name~given_name~birth_date~issuance_date~expiry_date~age_over_18~nationality"
           pid_namespace "eu.europa.ec.eudiw.pid.fc.1"
           [("family_name", JStr "Doe"); ("given_name", JStr "Jane");
            ("birth_date", JStr "1990-01-01"); ("issuance_date", JStr "2024-01-01");
            ("expiry_date", JStr "2034-01-01")]
           [("age_over_18", JBool true); ("nationality", JStr "FC")]
           []).
  - reflexivity.
  - reflexivity.
  - discriminate.
  - repeat constructor; cbn; intuition discriminate.
  - repeat constructor; cbn; intuition discriminate.
  - vm_compute. reflexivity.
Defined.

(** X6: the SD-JWT that [sdjwtFormatter] returns is signed with the issuer
    key that [get_jwk] derives from [settings["key_settings"]] -- not with
    the [issuer_key] written out in [jwk_kwargs] -- and is issued to the
    holder key that [get_jwk] derives from the [jwk_kwargs] built from the
    device's public key; both calls of [get_jwk] get the constant seed. *)
Theorem sdjwt_keys (env : sdjwt_env) (PID : json) (token : string) :
  sdjwtFormatter env PID = Return token ->
  exists settings key_settings demo_keys device_key jwk_kwargs holder body ds,
    load_yaml_settings env "app/sd-jwt_files/settings.yml" = Returned settings
    /\ getitem settings "key_settings" = Return key_settings
    /\ get_jwk env key_settings true seed_value = Returned demo_keys
    /\ getitem PID "device_publickey" = Return device_key
    /\ holder_jwk_kwargs env device_key = Return jwk_kwargs
    /\ lookup "issuer_key" (match jwk_kwargs with JDict d => d | _ => [] end)
       = Some issuer_key_literal
    /\ get_jwk env jwk_kwargs true seed_value = Returned holder
    /\ sign_and_combine env body ds (issuer_key demo_keys) (holder_key holder)
       = Returned token.
Proof.
  intros H.
  destruct (sdjwtFormatter_steps env PID token H)
    as (settings & key_settings & demo_keys & example & use_decoys & claims
        & device_key & jwk_kwargs & holder & S1 & S2 & S3 & _ & _ & C & S7 & S8
        & S9 & I).
  unfold SDJWTIssuer in I.
  destruct (has_sd_claim claims); [discriminate I|].
  destruct (sd_jwt_payload env (truthy use_decoys) claims (holder_key holder))
    as [body st].
  apply Mdoc.run_Return in I.
  exists settings, key_settings, demo_keys, device_key, jwk_kwargs, holder, body,
    (ii_disclosures st).
  repeat (split; [assumption|]).
  split; [|split; assumption].
  unfold holder_jwk_kwargs in S8.
  repeat (apply bind_Return in S8; destruct S8 as (? & _ & S8)).
  injection S8 as <-. reflexivity.
Qed.

Lemma sdjwt_keys_witness :
  exists settings key_settings demo_keys device_key jwk_kwargs holder body ds,
    load_yaml_settings (demo_env tz_utc "secp256r1") "app/sd-jwt_files/settings.yml"
    = Returned settings
    /\ getitem settings "key_settings" = Return key_settings
    /\ get_jwk (demo_env tz_utc "secp256r1") key_settings true seed_value
       = Returned demo_keys
    /\ getitem (demo_PID demo_claims) "device_publickey" = Return device_key
    /\ holder_jwk_kwargs (demo_env tz_utc "secp256r1") device_key = Return jwk_kwargs
    /\ lookup "issuer_key" (match jwk_kwargs with JDict d => d | _ => [] end)
       = Some issuer_key_literal
    /\ get_jwk (demo_env tz_utc "secp256r1") jwk_kwargs true seed_value
       = Returned holder
    /\ sign_and_combine (demo_env tz_utc "secp256r1") body ds
         (issuer_key demo_keys) (holder_key holder)
       = Returned "jws~evidence~family_name~given_name~birth_date~issuance_date~expiry_date~age_over_18~nationality".
Proof.
  apply (sdjwt_keys (demo_env tz_utc "secp256r1") (demo_PID demo_claims)
           "jws~evidence~family_name~given_name~birth_date~issuance_date~expiry_date~age_over_18~nationality").
  vm_compute. reflexivity.
Defined.

(** *** The holder's key *)

(** X7: for a device public key on any elliptic curve, the [jwk_kwargs]
    that [sdjwtFormatter] builds describe the holder's key by the JOSE
    name of the curve ([P-256], [P-384], [P-521] for [secp256r1],
    [secp384r1], [secp521r1]; [None] for any other curve) and by the
    standard (padded, not URL-safe) base64 texts of the coordinates, each
    written big-endian in as few octets as it needs: decoding the text and
    reading the octets as an integer gives back the coordinate.
    [key_size] is 256 whatever the curve. *)
Theorem holder_jwk_kwargs_carries_device_key
    (env : sdjwt_env) (device_key : string) (key_bytes : bytes)
    (curve : string) (x y : Z) :
  urlsafe_b64decode (encode_utf8 device_key) = Return key_bytes ->
  load_pem_public_key env key_bytes = Returned (EllipticCurvePublicKey curve x y) ->
  0 <= x -> 0 <= y ->
  exists bx by_,
    holder_jwk_kwargs env (JStr device_key)
    = Return
        (JDict [("issuer_key", issuer_key_literal);
                ("holder_key",
                 JDict [("kty", JStr "EC");
                        ("crv",
                         if String.eqb curve "secp256r1" then JStr "P-256"
                         else if String.eqb curve "secp384r1" then JStr "P-384"
                         else if String.eqb curve "secp521r1" then JStr "P-521"
                         else JNull);
                        ("x", JStr (decode_utf8 (b64encode bx)));
                        ("y", JStr (decode_utf8 (b64encode by_)))]);
                ("key_size", JInt 256);
                ("kty", JStr "EC")])
    /\ b64decode (encode_utf8 (decode_utf8 (b64encode bx))) = Return bx
    /\ b64decode (encode_utf8 (decode_utf8 (b64encode by_))) = Return by_
    /\ from_bytes_big bx = x
    /\ from_bytes_big by_ = y.
Proof.
  intros Hb64 Hpem Hx Hy.
  exists (to_bytes_big_aux (Z.to_nat ((bit_length x + 7) / 8)) x []),
         (to_bytes_big_aux (Z.to_nat ((bit_length y + 7) / 8)) y []).
  split.
  - unfold holder_jwk_kwargs. cbn [str_encode bind]. rewrite Hb64. cbn [bind].
    rewrite Hpem. cbn [run bind public_key_curve_name public_numbers fst snd].
    rewrite (to_bytes_big_minimal x Hx), (to_bytes_big_minimal y Hy).
    cbn [bind]. unfold curve_identifier_of, curve_map, b64_text.
    destruct (String.eqb curve "secp256r1"); [reflexivity|].
    destruct (String.eqb curve "secp384r1"); [reflexivity|].
    destruct (String.eqb curve "secp521r1"); reflexivity.
  - unfold encode_utf8, decode_utf8.
    rewrite !list_ascii_of_string_of_list_ascii, !b64decode_b64encode.
    repeat split; try reflexivity.
    + exact (proj2 (Mdoc.from_bytes_big_minimal _ _ _ (to_bytes_big_minimal x Hx)
                      eq_refl)).
    + exact (proj2 (Mdoc.from_bytes_big_minimal _ _ _ (to_bytes_big_minimal y Hy)
                      eq_refl)).
Qed.

Lemma holder_jwk_kwargs_carries_device_key_witness :
  exists bx by_,
    holder_jwk_kwargs (demo_env tz_utc "secp384r1") (JStr "cHVibGljLWtleQ==")
    = Return
        (JDict [("issuer_key", issuer_key_literal);
                ("holder_key",
                 JDict [("kty", JStr "EC");
                        ("crv",
                         if String.eqb "secp384r1" "secp256r1" then JStr "P-256"
                         else if String.eqb "secp384r1" "secp384r1" then JStr "P-384"
                         else if String.eqb "secp384r1" "secp521r1" then JStr "P-521"
                         else JNull);
                        ("x", JStr (decode_utf8 (b64encode bx)));
                        ("y", JStr (decode_utf8 (b64encode by_)))]);
                ("key_size", JInt 256);
                ("kty", JStr "EC")])
    /\ b64decode (encode_utf8 (decode_utf8 (b64encode bx))) = Return bx
    /\ b64decode (encode_utf8 (decode_utf8 (b64encode by_))) = Return by_
    /\ from_bytes_big bx = 1000
    /\ from_bytes_big by_ = 70000.
Proof.
  apply (holder_jwk_kwargs_carries_device_key (demo_env tz_utc "secp384r1")
           "cHVibGljLWtleQ==" (encode_utf8 "public-key") "secp384r1" 1000 70000).
  - vm_compute. reflexivity.
  - reflexivity.
  - lia.
  - lia.
Defined.

(** *** The strings [DatestringFormatter] accepts *)

Lemma two_digits_length lo1 hi1 lo2 hi2 s v r :
  two_digits lo1 hi1 lo2 hi2 s = Some (v, r) ->
  String.length s = (2 + String.length r)%nat.
Proof.
  unfold two_digits. destruct s as [|c1 [|c2 s]]; try discriminate.
  destruct (digit_in lo1 hi1 c1); [|discriminate].
  destruct (digit_in lo2 hi2 c2); [|discriminate].
  intros H. injection H as _ <-. reflexivity.
Qed.

Lemma one_digit_length lo hi s v r :
  one_digit lo hi s = Some (v, r) -> String.length s = (1 + String.length r)%nat.
Proof.
  unfold one_digit. destruct s as [|c s]; try discriminate.
  destruct (digit_in lo hi c); [|discriminate].
  intros H. injection H as _ <-. reflexivity.
Qed.

Lemma match_dash_length s r :
  match_dash s = Some r -> String.length s = (1 + String.length r)%nat.
Proof.
  unfold match_dash. destruct s as [|c s]; try discriminate.
  destruct c as [[] [] [] [] [] [] [] []]; try discriminate.
  intros H. injection H as <-. reflexivity.
Qed.

Lemma match_day_length s d r :
  match_day s = Some (d, r) ->
  (1 + String.length r <= String.length s <= 2 + String.length r)%nat.
Proof.
  unfold match_day, orelse, space_digit. intros H.
  destruct (two_digits 3 3 0 1 s) as [[? ?]|] eqn:E1.
  { injection H as -> ->. apply two_digits_length in E1. lia. }
  destruct (two_digits 1 2 0 9 s) as [[? ?]|] eqn:E2.
  { injection H as -> ->. apply two_digits_length in E2. lia. }
  destruct (two_digits 0 0 1 9 s) as [[? ?]|] eqn:E3.
  { injection H as -> ->. apply two_digits_length in E3. lia. }
  destruct (one_digit 1 9 s) as [[? ?]|] eqn:E4.
  { injection H as -> ->. apply one_digit_length in E4. lia. }
  destruct s as [|c s]; try discriminate.
  destruct c as [[] [] [] [] [] [] [] []]; try discriminate.
  apply one_digit_length in H. cbn [String.length]. lia.
Qed.

Lemma month_then_day_length alt m d rest n s :
  month_then_day alt = Some (m, (d, rest)) ->
  (forall v r, alt = Some (v, r) -> String.length s = (n + String.length r)%nat) ->
  (n + 2 + String.length rest <= String.length s <= n + 3 + String.length rest)%nat.
Proof.
  unfold month_then_day. intros H A.
  destruct alt as [[v r]|]; [|discriminate H].
  specialize (A v r eq_refl).
  destruct (match_dash r) as [r'|] eqn:D; [|discriminate H].
  destruct (match_day r') as [[d' rest']|] eqn:Y; [|discriminate H].
  injection H as _ -> ->.
  apply match_dash_length in D. apply match_day_length in Y. lia.
Qed.

Lemma match_month_day_length s m d rest :
  match_month_day s = Some (m, (d, rest)) ->
  (3 + String.length rest <= String.length s <= 5 + String.length rest)%nat.
Proof.
  unfold match_month_day, orelse. intros H.
  destruct (month_then_day (two_digits 1 1 0 2 s)) as [[? [? ?]]|] eqn:E1.
  { injection H as -> -> ->.
    apply (month_then_day_length _ _ _ _ 2%nat s) in E1; [lia|].
    intros v r. apply two_digits_length. }
  destruct (month_then_day (two_digits 0 0 1 9 s)) as [[? [? ?]]|] eqn:E2.
  { injection H as -> -> ->.
    apply (month_then_day_length _ _ _ _ 2%nat s) in E2; [lia|].
    intros v r. apply two_digits_length. }
  apply (month_then_day_length _ _ _ _ 1%nat s) in H; [lia|].
  intros v r. apply one_digit_length.
Qed.

Lemma strptime_accepts s d :
  strptime s = Return d ->
  valid_date d = true /\ (8 <= String.length s <= 10)%nat.
Proof.
  unfold strptime, match_year. intros H.
  destruct (two_digits 0 9 0 9 s) as [[hi r]|] eqn:E1; [|discriminate H].
  destruct (two_digits 0 9 0 9 r) as [[lo r']|] eqn:E2; [|discriminate H].
  destruct (match_dash r') as [r''|] eqn:D; [|discriminate H].
  destruct (match_month_day r'') as [[m [dd rest]]|] eqn:M; [|discriminate H].
  destruct rest; [|discriminate H].
  destruct (valid_date (mkdate (100 * hi + lo) m dd)) eqn:V; [|discriminate H].
  injection H as <-. split; [exact V|].
  apply two_digits_length in E1, E2. apply match_dash_length in D.
  apply match_month_day_length in M. cbn [String.length] in M. lia.
Qed.

Lemma strptime_rejects s e : strptime s = Raise e -> e = ValueError.
Proof.
  unfold strptime. intros H.
  repeat match type of H with
  | match ?x with _ => _ end = _ => destruct x
  | (if ?c then _ else _) = _ => destruct c
  | (let (_, _) := ?x in _) = _ => destruct x
  end; try discriminate H; injection H as <-; reflexivity.
Qed.

Lemma bind_Raise {A B : Type} (m : outcome A) (f : A -> outcome B) e :
  bind m f = Raise e -> m = Raise e \/ exists a, m = Return a /\ f a = Raise e.
Proof.
  destruct m as [a|e'|k]; cbn; intros H; [eauto| |discriminate H].
  injection H as ->. left. reflexivity.
Qed.

Lemma local_rejects zone u e : local zone u = Raise e -> e = ValueError.
Proof.
  unfold local. cbv zeta. destruct (_ || _); intros H; [|discriminate H].
  injection H as <-. reflexivity.
Qed.

Lemma timestamp_rejects zone d e : timestamp zone d = Raise e -> e = ValueError.
Proof.
  unfold timestamp, local_to_seconds, utc_to_seconds. cbv zeta. intros H.
  repeat match type of H with
  | bind _ _ = Raise _ =>
      apply bind_Raise in H; destruct H as [H|(? & ? & H)]
  | local _ _ = Raise _ => exact (local_rejects _ _ _ H)
  | (if ?c then _ else _) = Raise _ => destruct c
  | match ?x with _ => _ end = Raise _ => destruct x
  | Return _ = Raise _ => discriminate H
  | Raise _ = Raise _ => injection H as <-; reflexivity
  end.
Qed.

(** X18: on a string of ASCII characters [DatestringFormatter] accepts a
    date and nothing but a date.  When it returns, the string has 8 to 10
    characters -- a year of four digits, a month and a day of one or two
    -- and names a day of the calendar: year 1 to 9999, month 1 to 12, a
    day the month has in that year (29 February only in leap years).  On
    every other string it raises [ValueError], so a date followed by a
    time of day is refused. *)
Theorem DatestringFormatter_accepts_only_dates (zone : Z -> Z) (s : string) :
  forallb is_ascii (list_ascii_of_string s) = true ->
  (forall n, DatestringFormatter zone (JStr s) = Return n ->
             exists d,
               strptime s = Return d
               /\ (8 <= String.length s <= 10)%nat
               /\ 1 <= year d <= 9999 /\ 1 <= month d <= 12
               /\ 1 <= day d <= days_in_month (year d) (month d))
  /\ (forall e, DatestringFormatter zone (JStr s) = Raise e -> e = ValueError)
  /\ ((10 < String.length s)%nat ->
      DatestringFormatter zone (JStr s) = Raise ValueError).
Proof.
  intros _.
  assert (forall e, DatestringFormatter zone (JStr s) = Raise e -> e = ValueError)
    as R.
  { intros e H. unfold DatestringFormatter in H.
    destruct (strptime s) as [d| |] eqn:E; cbn [bind] in H; try discriminate H.
    - apply bind_Raise in H. destruct H as [H|(? & _ & H)]; [|discriminate H].
      exact (timestamp_rejects _ _ _ H).
    - injection H as <-. apply (strptime_rejects s _ E). }
  split; [|split; [exact R|]].
  - intros n H. unfold DatestringFormatter in H.
    destruct (strptime s) as [d| |] eqn:E; cbn [bind] in H; try discriminate H.
    clear H. destruct (strptime_accepts s d E) as [V L].
    exists d. split; [reflexivity|]. split; [exact L|].
    unfold valid_date, valid_month_day in V.
    rewrite !andb_true_iff, !Z.leb_le in V. lia.
  - intros L. destruct (DatestringFormatter zone (JStr s)) as [n|e|k] eqn:H.
    + unfold DatestringFormatter in H.
      destruct (strptime s) as [d| |] eqn:E; cbn [bind] in H; try discriminate H.
      destruct (strptime_accepts s d E) as [_ L']. lia.
    + rewrite (R e eq_refl). reflexivity.
    + pose proof (untyped_DatestringFormatter zone (JStr s)) as U.
      unfold untyped in U. rewrite H in U. discriminate U.
Qed.

Lemma DatestringFormatter_accepts_only_dates_witness :
  (forall n, DatestringFormatter tz_utc (JStr "2024-01-01T00:00:00") = Return n ->
             exists d,
               strptime "2024-01-01T00:00:00" = Return d
               /\ (8 <= String.length "2024-01-01T00:00:00" <= 10)%nat
               /\ 1 <= year d <= 9999 /\ 1 <= month d <= 12
               /\ 1 <= day d <= days_in_month (year d) (month d))
  /\ (forall e, DatestringFormatter tz_utc (JStr "2024-01-01T00:00:00") = Raise e ->
                e = ValueError)
  /\ ((10 < String.length "2024-01-01T00:00:00")%nat ->
      DatestringFormatter tz_utc (JStr "2024-01-01T00:00:00") = Raise ValueError).
Proof.
  apply (DatestringFormatter_accepts_only_dates tz_utc "2024-01-01T00:00:00").
  reflexivity.
Defined.

End SdJwt.

(** * The route [/eidasnode/lightresponse] ([route_eidasnode.py])

    [getlightresponse] receives the answer of the eIDAS node, has the two
    formatter routes build the mdoc and the SD-JWT, and redirects the
    result to the return URL of the session.  Flask's [request.form] and
    [session] are arguments; the functions imported from the rest of the
    service ([handle_response], [validate_mandatory_args], [format_pid_data],
    [format_sd_jwt_pid_data], [json_post], [eccEnc], [pubkeyDER],
    [redirect_getpid]) and the values of [cfgservice] are fields of the
    environment. *)
Module Route.

Import Base64.
Open Scope string_scope.
Open Scope list_scope.
Open Scope Z_scope.

(** What [eccEnc] puts in the tuple it returns: byte strings, and the
    ephemeral public key, an object with the attributes [x] and [y]. *)
Inductive object : Type :=
| BytesObject (b : bytes)
| PublicKeyObject (x y : Z)
| NoneObject.

(** [t[i]] on a tuple. *)
Definition item (t : list object) (i : nat) : outcome object :=
  of_option IndexError (nth_error t i).

(** [o.x] and [o.y]. *)
Definition attr_x (o : object) : outcome Z :=
  match o with PublicKeyObject x _ => Return x | _ => Raise AttributeError end.

Definition attr_y (o : object) : outcome Z :=
  match o with PublicKeyObject _ y => Return y | _ => Raise AttributeError end.

(** [base64.urlsafe_b64encode(o).decode('utf-8')]: the argument has to be
    bytes-like. *)
Definition urlsafe_b64encode_text (o : object) : outcome json :=
  match o with
  | BytesObject b => Return (JStr (decode_utf8 (urlsafe_b64encode b)))
  | _ => Raise TypeError
  end.

(** [base64.urlsafe_b64decode(j)] on a value taken from a JSON body or from
    the session: a [str] is decoded, anything else of JSON is not
    bytes-like. *)
Definition urlsafe_b64decode_json (j : json) : outcome bytes :=
  match j with
  | JStr s => urlsafe_b64decode_str s
  | _ => Raise TypeError
  end.

(** [request.form.get(key)]; [None] stands for a key that is not in
    [request.form.keys()]. *)
Definition form_get (key : string) (form : list (string * string)) : option string :=
  dict_get String.eqb key form.

Record route_env (response : Type) : Type := mk_route_env {
  eidasnode_pid_attributes : list string;
  service_url : string;
  pid_doctype : string;
  pid_namespace : string;
  handle_response : string -> call (bool * json);
  validate_mandatory_args : json -> list string -> call (bool * list string);
  format_pid_data : json -> json -> call json;
  format_sd_jwt_pid_data : json -> json -> call json;
  (** [json_post(url, payload).json()] *)
  json_post : string -> json -> call json;
  eccEnc : bytes -> string -> call (list object);
  pubkeyDER : Z -> Z -> call bytes;
  redirect_getpid : json -> json -> json -> list (string * json) -> call response
}.

Arguments eidasnode_pid_attributes {response} _.
Arguments service_url {response} _.
Arguments pid_doctype {response} _.
Arguments pid_namespace {response} _.
Arguments handle_response {response} _ _.
Arguments validate_mandatory_args {response} _ _ _.
Arguments format_pid_data {response} _ _ _.
Arguments format_sd_jwt_pid_data {response} _ _ _.
Arguments json_post {response} _ _ _.
Arguments eccEnc {response} _ _ _.
Arguments pubkeyDER {response} _ _ _.
Arguments redirect_getpid {response} _ _ _ _ _.

Section Lightresponse.

Context {response : Type}.
Variable env : route_env response.
Variable form : list (string * string).
Variable session : list (string * json).

(** [session[key]] *)
Definition session_item (key : string) : outcome json :=
  getitem (JDict session) key.

(** [redirect_getpid(session['version'], session['returnURL'], code, l)] *)
Definition redirect (error_code : json) (l : list (string * json)) : outcome response :=
  version <- session_item "version" ;;
  returnURL <- session_item "returnURL" ;;
  run (redirect_getpid env version returnURL error_code l).

(** The body posted to a formatter route. *)
Definition formatter_request (data : json) : outcome json :=
  version <- session_item "version" ;;
  country <- session_item "country" ;;
  device_publickey <- session_item "device_publickey" ;;
  Return (JDict [("version", version); ("country", country);
                 ("doctype", JStr (pid_doctype env));
                 ("device_publickey", device_publickey); ("data", data)]).

Definition getlightresponse : outcome response :=
  match form_get "token" form with
  | None => redirect (JInt 302) []
  | Some token =>
      be <- run (handle_response env token) ;;
      let (b, e) := be : bool * json in
      if negb b then redirect (JInt 303) [("error_str", e)] else
      vl <- run (validate_mandatory_args env e (eidasnode_pid_attributes env)) ;;
      if negb (fst vl) then redirect (JInt 304) [] else
      country <- session_item "country" ;;
      pdata <- run (format_pid_data env e country) ;;
      country <- session_item "country" ;;
      pdata1 <- run (format_sd_jwt_pid_data env e country) ;;
      request <- formatter_request (JDict [(pid_namespace env, pdata)]) ;;
      r <- run (json_post env (service_url env ++ "formatter/cbor") request) ;;
      error_code <- getitem r "error_code" ;;
      if negb (SdJwt.json_eqb error_code (JInt 0)) then
        error_code <- getitem r "error_code" ;; redirect error_code []
      else
      request <- formatter_request pdata1 ;;
      r1 <- run (json_post env (service_url env ++ "formatter/sd-jwt") request) ;;
      error_code <- getitem r1 "error_code" ;;
      if negb (SdJwt.json_eqb error_code (JInt 0)) then
        error_code <- getitem r1 "error_code" ;; redirect error_code []
      else
      encoded <- getitem r "mdoc" ;;
      raw <- urlsafe_b64decode_json encoded ;;
      let mdoc := b64encode raw in
      sd_jwt <- getitem r1 "sd-jwt" ;;
      version <- session_item "version" ;;
      if SdJwt.json_eqb version (JStr "0.1") then
        redirect (JInt 0)
          [("mdoc", JStr (decode_utf8 (urlsafe_b64encode mdoc)));
           ("nonce", JStr ""); ("authTag", JStr ""); ("ciphertextPubKey", JStr "");
           ("sd_jwt", sd_jwt)]
      else
      certificate <- session_item "certificate" ;;
      certificate <- urlsafe_b64decode_json certificate ;;
      encryptedMsg <- run (eccEnc env certificate (decode_utf8 mdoc)) ;;
      ciphertext <- bind (item encryptedMsg 0) urlsafe_b64encode_text ;;
      nonce <- bind (item encryptedMsg 1) urlsafe_b64encode_text ;;
      authTag <- bind (item encryptedMsg 2) urlsafe_b64encode_text ;;
      x <- bind (item encryptedMsg 3) attr_x ;;
      y <- bind (item encryptedMsg 3) attr_y ;;
      der <- run (pubkeyDER env x y) ;;
      let pub64 := JStr (decode_utf8 (urlsafe_b64encode der)) in
      redirect (JInt 0)
        [("mdoc", ciphertext); ("nonce", nonce); ("authTag", authTag);
         ("ciphertextPubKey", pub64); ("sd_jwt", sd_jwt)]
  end.

End Lightresponse.

(** *** A service to run the route on

    The response is the list of the arguments [redirect_getpid] got.  The
    formatter routes answer with the mdoc of [Mdoc.demo_mdoc] and a fixed
    SD-JWT; [eccEnc] "encrypts" by reversing the message. *)
Definition demo_response : Type := json * json * json * list (string * json).

Definition demo_attributes : json :=
  JDict [("CurrentFamilyName", JStr "Doe"); ("CurrentGivenName", JStr "Jane");
         ("DateOfBirth", JStr "1990-01-01")].

Definition demo_env : route_env demo_response :=
  mk_route_env demo_response
    ["CurrentFamilyName"; "CurrentGivenName"; "DateOfBirth"]
    "https://issuer.example/"
    "eu.europa.ec.eudiw.pid.1"
    "eu.europa.ec.eudiw.pid.1"
    (fun _ => Returned (true, demo_attributes))
    (fun _ _ => Returned (true, []))
    (fun e _ => Returned e)
    (fun e _ => Returned (JDict [("claims", e)]))
    (fun url _ =>
       if String.eqb url "https://issuer.example/formatter/cbor"
       then Returned (JDict [("error_code", JInt 0); ("mdoc", JStr Mdoc.demo_mdoc)])
       else Returned (JDict [("error_code", JInt 0); ("sd-jwt", JStr "jws~d1~d2")]))
    (fun _ message =>
       Returned [BytesObject (rev (encode_utf8 message));
                 BytesObject (encode_utf8 "nonce-nonce-");
                 BytesObject (encode_utf8 "tag-tag-tag-tag-");
                 PublicKeyObject 1000 70000])
    (fun x y => Returned [byte_of_Z (x mod 256); byte_of_Z (y mod 256)])
    (fun version returnURL error_code l => Returned (version, returnURL, error_code, l)).

Definition demo_form : list (string * string) := [("token", "light-token")].

Definition demo_session (version : string) : list (string * json) :=
  [("version", JStr version); ("returnURL", JStr "https://wallet.example/cb");
   ("country", JStr "FC"); ("device_publickey", JStr "cHVibGljLWtleQ==");
   ("certificate", JStr "Y2VydGlmaWNhdGU=")].

(** *** Delivery of an issued credential *)

Lemma redirect_session {response : Type} (env : route_env response) session
    version returnURL error_code l :
  lookup "version" session = Some version ->
  lookup "returnURL" session = Some returnURL ->
  redirect env session error_code l
  = run (redirect_getpid env version returnURL error_code l).
Proof.
  intros Hv Hr. unfold redirect, session_item, getitem. rewrite Hv, Hr. reflexivity.
Qed.

Lemma session_item_lookup session key v :
  lookup key session = Some v -> session_item session key = Return v.
Proof. intros H. unfold session_item, getitem. rewrite H. reflexivity. Qed.

Section Delivery.

Context {response : Type}.
Variable env : route_env response.
Variable form : list (string * string).
Variable session : list (string * json).

(** The eIDAS node has answered with a token and with all the attributes
    of the PID. *)
Variables (token : string) (e : json) (l : list string).
Hypothesis Htoken : form_get "token" form = Some token.
Hypothesis Hresponse : handle_response env token = Returned (true, e).
Hypothesis Hattributes :
  validate_mandatory_args env e (eidasnode_pid_attributes env) = Returned (true, l).

(** The session of the device. *)
Variables version returnURL country device_publickey : json.
Hypothesis Hversion : lookup "version" session = Some version.
Hypothesis HreturnURL : lookup "returnURL" session = Some returnURL.
Hypothesis Hcountry : lookup "country" session = Some country.
Hypothesis Hdevice : lookup "device_publickey" session = Some device_publickey.

(** Both formatter routes have answered without an error. *)
Variables pdata pdata1 r r1 : json.
Hypothesis Hpdata : format_pid_data env e country = Returned pdata.
Hypothesis Hpdata1 : format_sd_jwt_pid_data env e country = Returned pdata1.
Hypothesis Hcbor :
  json_post env (service_url env ++ "formatter/cbor")
    (JDict [("version", version); ("country", country);
            ("doctype", JStr (pid_doctype env));
            ("device_publickey", device_publickey);
            ("data", JDict [(pid_namespace env, pdata)])])
  = Returned r.
Hypothesis Hsdjwt :
  json_post env (service_url env ++ "formatter/sd-jwt")
    (JDict [("version", version); ("country", country);
            ("doctype", JStr (pid_doctype env));
            ("device_publickey", device_publickey);
            ("data", pdata1)])
  = Returned r1.
Variables error_code error_code1 : json.
Hypothesis Hcode : getitem r "error_code" = Return error_code.
Hypothesis Hcode0 : SdJwt.json_eqb error_code (JInt 0) = true.
Hypothesis Hcode1 : getitem r1 "error_code" = Return error_code1.
Hypothesis Hcode10 : SdJwt.json_eqb error_code1 (JInt 0) = true.

(** The credential in its two formats: [raw] are the bytes of the mdoc. *)
Variables (encoded : string) (raw : bytes) (sd_jwt : json).
Hypothesis Hmdoc : getitem r "mdoc" = Return (JStr encoded).
Hypothesis Hraw : urlsafe_b64decode_str encoded = Return raw.
Hypothesis Hsd : getitem r1 "sd-jwt" = Return sd_jwt.

(** C9: how [getlightresponse] delivers an issued credential depends on the
    version of the session.  With version "0.1" it redirects with the mdoc
    in the clear -- the base64url text (of the base64 text) of its bytes --
    and with [nonce], [authTag] and [ciphertextPubKey] empty.  With any
    other version it redirects with the base64url texts of the ciphertext,
    nonce and authentication tag that [eccEnc] returns for the base64 text
    of the mdoc under the certificate of the session, and of the DER
    encoding of the ephemeral public key.  In both cases [sd_jwt] is the
    SD-JWT as the formatter returned it. *)
Theorem getlightresponse_delivery :
  (SdJwt.json_eqb version (JStr "0.1") = true ->
   getlightresponse env form session
   = run (redirect_getpid env version returnURL (JInt 0)
            [("mdoc", JStr (decode_utf8 (urlsafe_b64encode (b64encode raw))));
             ("nonce", JStr ""); ("authTag", JStr ""); ("ciphertextPubKey", JStr "");
             ("sd_jwt", sd_jwt)]))
  /\ (SdJwt.json_eqb version (JStr "0.1") = false ->
      forall certificate cert ciphertext nonce authTag x y more der,
        lookup "certificate" session = Some (JStr certificate) ->
        urlsafe_b64decode_str certificate = Return cert ->
        eccEnc env cert (decode_utf8 (b64encode raw))
        = Returned (BytesObject ciphertext :: BytesObject nonce
                    :: BytesObject authTag :: PublicKeyObject x y :: more) ->
        pubkeyDER env x y = Returned der ->
        getlightresponse env form session
        = run (redirect_getpid env version returnURL (JInt 0)
                 [("mdoc", JStr (decode_utf8 (urlsafe_b64encode ciphertext)));
                  ("nonce", JStr (decode_utf8 (urlsafe_b64encode nonce)));
                  ("authTag", JStr (decode_utf8 (urlsafe_b64encode authTag)));
                  ("ciphertextPubKey", JStr (decode_utf8 (urlsafe_b64encode der)));
                  ("sd_jwt", sd_jwt)])).
Proof.
  pose proof (session_item_lookup session) as S.
  assert (forall data,
            formatter_request env session data
            = Return (JDict [("version", version); ("country", country);
                             ("doctype", JStr (pid_doctype env));
                             ("device_publickey", device_publickey);
                             ("data", data)])) as Request.
  { intros data. unfold formatter_request.
    rewrite (S _ _ Hversion), (S _ _ Hcountry), (S _ _ Hdevice). reflexivity. }
  unfold getlightresponse.
  rewrite Htoken, Hresponse. cbn [run bind negb fst].
  rewrite Hattributes. cbn [run bind negb fst].
  rewrite (S _ _ Hcountry). cbn [bind].
  rewrite Hpdata. cbn [run bind].
  rewrite Hpdata1. cbn [run bind].
  rewrite !Request. cbn [bind].
  rewrite Hcbor. cbn [run bind]. rewrite Hcode. cbn [bind].
  rewrite Hcode0. cbn [negb].
  rewrite Hsdjwt. cbn [run bind]. rewrite Hcode1. cbn [bind].
  rewrite Hcode10. cbn [negb].
  rewrite Hmdoc. cbn [bind urlsafe_b64decode_json]. rewrite Hraw, Hsd. cbn [bind].
  rewrite (S _ _ Hversion). cbn [bind].
  split; intros V; rewrite V.
  - apply redirect_session; assumption.
  - intros certificate cert ciphertext nonce authTag x y more der Hc Hcert Henc Hder.
    rewrite (S _ _ Hc). cbn [bind urlsafe_b64decode_json]. rewrite Hcert. cbn [bind].
    rewrite Henc. cbn [run bind item nth_error of_option urlsafe_b64encode_text
                        attr_x attr_y].
    rewrite Hder. cbn [run bind]. apply redirect_session; assumption.
Qed.

End Delivery.

Definition demo_raw : bytes :=
  match urlsafe_b64decode_str Mdoc.demo_mdoc with
  | Return b => b
  | _ => []
  end.

Lemma getlightresponse_delivery_witness :
  getlightresponse demo_env demo_form (demo_session "0.1")
  = Return (JStr "0.1", JStr "https://wallet.example/cb", JInt 0,
            [("mdoc", JStr (decode_utf8 (urlsafe_b64encode (b64encode demo_raw))));
             ("nonce", JStr ""); ("authTag", JStr ""); ("ciphertextPubKey", JStr "");
             ("sd_jwt", JStr "jws~d1~d2")])
  /\ getlightresponse demo_env demo_form (demo_session "0.2")
     = Return (JStr "0.2", JStr "https://wallet.example/cb", JInt 0,
               [("mdoc",
                 JStr (decode_utf8
                         (urlsafe_b64encode
                            (rev (encode_utf8 (decode_utf8 (b64encode demo_raw)))))));
                ("nonce", JStr "bm9uY2Utbm9uY2Ut");
                ("authTag", JStr "dGFnLXRhZy10YWctdGFnLQ==");
                ("ciphertextPubKey", JStr "6HA="); ("sd_jwt", JStr "jws~d1~d2")]).
Proof.
  split.
  - refine (proj1 (getlightresponse_delivery demo_env demo_form (demo_session "0.1")
                     "light-token" demo_attributes [] _ _ _
                     (JStr "0.1") (JStr "https://wallet.example/cb") (JStr "FC")
                     (JStr "cHVibGljLWtleQ==") _ _ _ _
                     demo_attributes (JDict [("claims", demo_attributes)])
                     (JDict [("error_code", JInt 0); ("mdoc", JStr Mdoc.demo_mdoc)])
                     (JDict [("error_code", JInt 0); ("sd-jwt", JStr "jws~d1~d2")])
                     _ _ _ _ (JInt 0) (JInt 0) _ _ _ _
                     Mdoc.demo_mdoc demo_raw (JStr "jws~d1~d2") _ _ _) _);
      vm_compute; reflexivity.
  - refine (proj2 (getlightresponse_delivery demo_env demo_form (demo_session "0.2")
                     "light-token" demo_attributes [] _ _ _
                     (JStr "0.2") (JStr "https://wallet.example/cb") (JStr "FC")
                     (JStr "cHVibGljLWtleQ==") _ _ _ _
                     demo_attributes (JDict [("claims", demo_attributes)])
                     (JDict [("error_code", JInt 0); ("mdoc", JStr Mdoc.demo_mdoc)])
                     (JDict [("error_code", JInt 0); ("sd-jwt", JStr "jws~d1~d2")])
                     _ _ _ _ (JInt 0) (JInt 0) _ _ _ _
                     Mdoc.demo_mdoc demo_raw (JStr "jws~d1~d2") _ _ _) _
                  "Y2VydGlmaWNhdGU=" (encode_utf8 "certificate")
                  (rev (encode_utf8 (decode_utf8 (b64encode demo_raw))))
                  (encode_utf8 "nonce-nonce-") (encode_utf8 "tag-tag-tag-tag-")
                  1000 70000 [] [byte_of_Z 232; byte_of_Z 112] _ _ _ _);
      vm_compute; reflexivity.
Defined.

(** ** Further properties of the routes *)

(** *** The errors [getlightresponse] redirects *)

Section Errors.

Context {response : Type}.
Variable env : route_env response.
Variable form : list (string * string).
Variable session : list (string * json).
Variables version returnURL : json.
Hypothesis Hversion : lookup "version" session = Some version.
Hypothesis HreturnURL : lookup "returnURL" session = Some returnURL.

(** X13: [getlightresponse] answers the three failures of the eIDAS step
    with an error redirect that carries no credential: code 302 when the
    form has no [token]; code 303, with the error text under [error_str],
    when [handle_response] reports an error; code 304 when
    [validate_mandatory_args] finds a PID attribute missing. *)
Theorem getlightresponse_eidas_errors :
  (form_get "token" form = None ->
   getlightresponse env form session
   = run (redirect_getpid env version returnURL (JInt 302) []))
  /\ (forall token e,
        form_get "token" form = Some token ->
        handle_response env token = Returned (false, e) ->
        getlightresponse env form session
        = run (redirect_getpid env version returnURL (JInt 303) [("error_str", e)]))
  /\ (forall token e l,
        form_get "token" form = Some token ->
        handle_response env token = Returned (true, e) ->
        validate_mandatory_args env e (eidasnode_pid_attributes env)
        = Returned (false, l) ->
        getlightresponse env form session
        = run (redirect_getpid env version returnURL (JInt 304) [])).
Proof.
  unfold getlightresponse. repeat split.
  - intros ->. apply redirect_session; assumption.
  - intros token e -> ->. cbn [run bind negb]. apply redirect_session; assumption.
  - intros token e l -> -> Hl. cbn [run bind negb]. rewrite Hl.
    cbn [run bind negb fst]. apply redirect_session; assumption.
Qed.

(** The eIDAS step has succeeded. *)
Variables (token : string) (e : json) (l : list string).
Hypothesis Htoken : form_get "token" form = Some token.
Hypothesis Hresponse : handle_response env token = Returned (true, e).
Hypothesis Hattributes :
  validate_mandatory_args env e (eidasnode_pid_attributes env) = Returned (true, l).
Variables country device_publickey pdata pdata1 : json.
Hypothesis Hcountry : lookup "country" session = Some country.
Hypothesis Hdevice : lookup "device_publickey" session = Some device_publickey.
Hypothesis Hpdata : format_pid_data env e country = Returned pdata.
Hypothesis Hpdata1 : format_sd_jwt_pid_data env e country = Returned pdata1.

(** X14: an error of a formatter route is passed on.  When the answer of
    [formatter/cbor] has an [error_code] other than 0, [getlightresponse]
    redirects with that code and no credential, whatever
    [formatter/sd-jwt] would answer; when [formatter/cbor] answers 0 and
    the answer of [formatter/sd-jwt] has an [error_code] other than 0, it
    redirects with that one, and the mdoc already built is not delivered. *)
Theorem getlightresponse_formatter_errors (r : json) (error_code : json) :
  json_post env (service_url env ++ "formatter/cbor")
    (JDict [("version", version); ("country", country);
            ("doctype", JStr (pid_doctype env));
            ("device_publickey", device_publickey);
            ("data", JDict [(pid_namespace env, pdata)])])
  = Returned r ->
  getitem r "error_code" = Return error_code ->
  (SdJwt.json_eqb error_code (JInt 0) = false ->
   getlightresponse env form session
   = run (redirect_getpid env version returnURL error_code []))
  /\ (forall r1 error_code1,
        SdJwt.json_eqb error_code (JInt 0) = true ->
        json_post env (service_url env ++ "formatter/sd-jwt")
          (JDict [("version", version); ("country", country);
                  ("doctype", JStr (pid_doctype env));
                  ("device_publickey", device_publickey);
                  ("data", pdata1)])
        = Returned r1 ->
        getitem r1 "error_code" = Return error_code1 ->
        SdJwt.json_eqb error_code1 (JInt 0) = false ->
        getlightresponse env form session
        = run (redirect_getpid env version returnURL error_code1 [])).
Proof.
  intros Hcbor Hcode.
  pose proof (session_item_lookup session) as S.
  assert (forall data,
            formatter_request env session data
            = Return (JDict [("version", version); ("country", country);
                             ("doctype", JStr (pid_doctype env));
                             ("device_publickey", device_publickey);
                             ("data", data)])) as Request.
  { intros data. unfold formatter_request.
    rewrite (S _ _ Hversion), (S _ _ Hcountry), (S _ _ Hdevice). reflexivity. }
  unfold getlightresponse.
  rewrite Htoken, Hresponse. cbn [run bind negb fst].
  rewrite Hattributes. cbn [run bind negb fst].
  rewrite (S _ _ Hcountry). cbn [bind].
  rewrite Hpdata. cbn [run bind].
  rewrite Hpdata1. cbn [run bind].
  rewrite !Request. cbn [bind].
  rewrite Hcbor. cbn [run bind]. rewrite Hcode. cbn [bind].
  split.
  - intros ->. cbn [negb]. apply redirect_session; assumption.
  - intros r1 error_code1 -> Hsd Hcode1 E1. cbn [negb].
    rewrite Hsd. cbn [run bind]. rewrite Hcode1. cbn [bind]. rewrite E1.
    cbn [negb]. apply redirect_session; assumption.
Qed.

End Errors.

(** A service whose eIDAS step and formatter routes are told what to
    answer. *)
Definition failing_env (eidas_ok attributes_ok : bool) (cbor_code sdjwt_code : Z)
  : route_env demo_response :=
  mk_route_env demo_response
    ["CurrentFamilyName"; "CurrentGivenName"; "DateOfBirth"]
    "https://issuer.example/"
    "eu.europa.ec.eudiw.pid.1"
    "eu.europa.ec.eudiw.pid.1"
    (fun _ => Returned (eidas_ok,
                        if eidas_ok then demo_attributes
                        else JStr "authentication failed"))
    (fun _ _ => Returned (attributes_ok, []))
    (fun e _ => Returned e)
    (fun e _ => Returned (JDict [("claims", e)]))
    (fun url _ =>
       if String.eqb url "https://issuer.example/formatter/cbor"
       then Returned (JDict [("error_code", JInt cbor_code);
                             ("mdoc", JStr Mdoc.demo_mdoc)])
       else Returned (JDict [("error_code", JInt sdjwt_code);
                             ("sd-jwt", JStr "jws~d1~d2")]))
    (eccEnc demo_env)
    (pubkeyDER demo_env)
    (fun version returnURL error_code l => Returned (version, returnURL, error_code, l)).

Lemma getlightresponse_eidas_errors_witness :
  getlightresponse (failing_env false true 0 0) [] (demo_session "0.2")
  = Return (JStr "0.2", JStr "https://wallet.example/cb", JInt 302, [])
  /\ getlightresponse (failing_env false true 0 0) demo_form (demo_session "0.2")
     = Return (JStr "0.2", JStr "https://wallet.example/cb", JInt 303,
               [("error_str", JStr "authentication failed")])
  /\ getlightresponse (failing_env true false 0 0) demo_form (demo_session "0.2")
     = Return (JStr "0.2", JStr "https://wallet.example/cb", JInt 304, []).
Proof.
  split; [|split].
  - refine (proj1 (getlightresponse_eidas_errors (failing_env false true 0 0) []
                     (demo_session "0.2") (JStr "0.2")
                     (JStr "https://wallet.example/cb") _ _) _); reflexivity.
  - refine (proj1 (proj2 (getlightresponse_eidas_errors (failing_env false true 0 0)
                            demo_form (demo_session "0.2") (JStr "0.2")
                            (JStr "https://wallet.example/cb") _ _))
              "light-token" (JStr "authentication failed") _ _); reflexivity.
  - refine (proj2 (proj2 (getlightresponse_eidas_errors (failing_env true false 0 0)
                            demo_form (demo_session "0.2") (JStr "0.2")
                            (JStr "https://wallet.example/cb") _ _))
              "light-token" demo_attributes [] _ _ _); reflexivity.
Defined.

Lemma getlightresponse_formatter_errors_witness :
  getlightresponse (failing_env true true 401 0) demo_form (demo_session "0.2")
  = Return (JStr "0.2", JStr "https://wallet.example/cb", JInt 401, [])
  /\ getlightresponse (failing_env true true 0 402) demo_form (demo_session "0.2")
     = Return (JStr "0.2", JStr "https://wallet.example/cb", JInt 402, []).
Proof.
  split.
  - refine (proj1 (getlightresponse_formatter_errors (failing_env true true 401 0)
                     demo_form (demo_session "0.2") (JStr "0.2")
                     (JStr "https://wallet.example/cb") _ _
                     "light-token" demo_attributes [] _ _ _
                     (JStr "FC") (JStr "cHVibGljLWtleQ==")
                     demo_attributes (JDict [("claims", demo_attributes)]) _ _ _ _
                     (JDict [("error_code", JInt 401); ("mdoc", JStr Mdoc.demo_mdoc)])
                     (JInt 401) _ _) _); reflexivity.
  - refine (proj2 (getlightresponse_formatter_errors (failing_env true true 0 402)
                     demo_form (demo_session "0.2") (JStr "0.2")
                     (JStr "https://wallet.example/cb") _ _
                     "light-token" demo_attributes [] _ _ _
                     (JStr "FC") (JStr "cHVibGljLWtleQ==")
                     demo_attributes (JDict [("claims", demo_attributes)]) _ _ _ _
                     (JDict [("error_code", JInt 0); ("mdoc", JStr Mdoc.demo_mdoc)])
                     (JInt 0) _ _)
              (JDict [("error_code", JInt 402); ("sd-jwt", JStr "jws~d1~d2")])
              (JInt 402) _ _ _ _); reflexivity.
Defined.

(** *** What a delivered credential went through *)

(** A service whose [redirect_getpid] is observed: the response is the
    tuple of the arguments it was called with. *)
Definition redirection : Type := (json * json * json * list (string * json))%type.

Definition records_redirects (env : route_env redirection) : Prop :=
  forall version returnURL error_code l,
    redirect_getpid env version returnURL error_code l
    = Returned (version, returnURL, error_code, l).

Lemma redirect_recorded env session error_code l version returnURL code fields :
  records_redirects env ->
  redirect env session error_code l = Return (version, returnURL, code, fields) ->
  lookup "version" session = Some version /\ code = error_code /\ fields = l.
Proof.
  intros Rec H. unfold redirect in H.
  apply bind_Return in H. destruct H as (v & Hv & H).
  apply bind_Return in H. destruct H as (u & Hu & H).
  rewrite Rec in H. injection H as -> -> -> ->.
  unfold session_item, getitem in Hv.
  destruct (lookup "version" session); [|discriminate Hv].
  injection Hv as ->. repeat split.
Qed.

Ltac no_credential H Rec :=
  apply (redirect_recorded _ _ _ _ _ _ _ _ Rec) in H;
  destruct H as (_ & _ & ->); cbn in *; intuition discriminate.

(** The run behind a redirect that carries an [mdoc] field. *)
Lemma getlightresponse_credential env form session version returnURL code fields :
  records_redirects env ->
  getlightresponse env form session = Return (version, returnURL, code, fields) ->
  In "mdoc" (map fst fields) ->
  exists token e l request r error_code request1 r1 error_code1 encoded raw sd_jwt,
    form_get "token" form = Some token
    /\ handle_response env token = Returned (true, e)
    /\ validate_mandatory_args env e (eidasnode_pid_attributes env)
       = Returned (true, l)
    /\ json_post env (service_url env ++ "formatter/cbor") request = Returned r
    /\ getitem r "error_code" = Return error_code
    /\ SdJwt.json_eqb error_code (JInt 0) = true
    /\ json_post env (service_url env ++ "formatter/sd-jwt") request1 = Returned r1
    /\ getitem r1 "error_code" = Return error_code1
    /\ SdJwt.json_eqb error_code1 (JInt 0) = true
    /\ getitem r "mdoc" = Return encoded
    /\ urlsafe_b64decode_json encoded = Return raw
    /\ getitem r1 "sd-jwt" = Return sd_jwt
    /\ lookup "version" session = Some version
    /\ code = JInt 0
    /\ (if SdJwt.json_eqb version (JStr "0.1")
        then fields
             = [("mdoc", JStr (decode_utf8 (urlsafe_b64encode (b64encode raw))));
                ("nonce", JStr ""); ("authTag", JStr ""); ("ciphertextPubKey", JStr "");
                ("sd_jwt", sd_jwt)]
        else exists certificate cert encryptedMsg ciphertext nonce authTag x y der,
               lookup "certificate" session = Some certificate
               /\ urlsafe_b64decode_json certificate = Return cert
               /\ eccEnc env cert (decode_utf8 (b64encode raw)) = Returned encryptedMsg
               /\ bind (item encryptedMsg 0) urlsafe_b64encode_text = Return ciphertext
               /\ bind (item encryptedMsg 1) urlsafe_b64encode_text = Return nonce
               /\ bind (item encryptedMsg 2) urlsafe_b64encode_text = Return authTag
               /\ bind (item encryptedMsg 3) attr_x = Return x
               /\ bind (item encryptedMsg 3) attr_y = Return y
               /\ pubkeyDER env x y = Returned der
               /\ fields
                  = [("mdoc", ciphertext); ("nonce", nonce); ("authTag", authTag);
                     ("ciphertextPubKey", JStr (decode_utf8 (urlsafe_b64encode der)));
                     ("sd_jwt", sd_jwt)]).
Proof.
  intros Rec H Hm. unfold getlightresponse in H.
  destruct (form_get "token" form) as [token|]; [|no_credential H Rec].
  apply bind_Return in H. destruct H as ([b e] & H1 & H).
  destruct b; cbn [negb] in H; [|no_credential H Rec].
  apply bind_Return in H. destruct H as ([ok l] & H2 & H).
  destruct ok; cbn [negb fst] in H; [|no_credential H Rec].
  apply bind_Return in H. destruct H as (country & _ & H).
  apply bind_Return in H. destruct H as (pdata & _ & H).
  apply bind_Return in H. destruct H as (country' & _ & H).
  apply bind_Return in H. destruct H as (pdata1 & _ & H).
  apply bind_Return in H. destruct H as (request & _ & H).
  apply bind_Return in H. destruct H as (r & H3 & H).
  apply bind_Return in H. destruct H as (error_code & H4 & H).
  destruct (SdJwt.json_eqb error_code (JInt 0)) eqn:E0; cbn [negb] in H.
  2:{ apply bind_Return in H. destruct H as (c' & _ & H). no_credential H Rec. }
  apply bind_Return in H. destruct H as (request1 & _ & H).
  apply bind_Return in H. destruct H as (r1 & H5 & H).
  apply bind_Return in H. destruct H as (error_code1 & H6 & H).
  destruct (SdJwt.json_eqb error_code1 (JInt 0)) eqn:E1; cbn [negb] in H.
  2:{ apply bind_Return in H. destruct H as (c' & _ & H). no_credential H Rec. }
  apply bind_Return in H. destruct H as (encoded & H7 & H).
  apply bind_Return in H. destruct H as (raw & H8 & H).
  apply bind_Return in H. destruct H as (sd_jwt & H9 & H).
  apply bind_Return in H. destruct H as (version' & H10 & H).
  apply Mdoc.run_Return in H1, H2, H3, H5.
  assert (lookup "version" session = Some version'
          /\ (if SdJwt.json_eqb version' (JStr "0.1")
              then version = version' /\ code = JInt 0
                   /\ fields
                      = [("mdoc",
                          JStr (decode_utf8 (urlsafe_b64encode (b64encode raw))));
                         ("nonce", JStr ""); ("authTag", JStr "");
                         ("ciphertextPubKey", JStr ""); ("sd_jwt", sd_jwt)]
              else version = version' /\ code = JInt 0
                   /\ exists certificate cert encryptedMsg ciphertext nonce authTag
                             x y der,
                        lookup "certificate" session = Some certificate
                        /\ urlsafe_b64decode_json certificate = Return cert
                        /\ eccEnc env cert (decode_utf8 (b64encode raw))
                           = Returned encryptedMsg
                        /\ bind (item encryptedMsg 0) urlsafe_b64encode_text
                           = Return ciphertext
                        /\ bind (item encryptedMsg 1) urlsafe_b64encode_text
                           = Return nonce
                        /\ bind (item encryptedMsg 2) urlsafe_b64encode_text
                           = Return authTag
                        /\ bind (item encryptedMsg 3) attr_x = Return x
                        /\ bind (item encryptedMsg 3) attr_y = Return y
                        /\ pubkeyDER env x y = Returned der
                        /\ fields
                           = [("mdoc", ciphertext); ("nonce", nonce);
                              ("authTag", authTag);
                              ("ciphertextPubKey",
                               JStr (decode_utf8 (urlsafe_b64encode der)));
                              ("sd_jwt", sd_jwt)])) as [V F].
  { assert (lookup "version" session = Some version') as V.
    { unfold session_item, getitem in H10.
      destruct (lookup "version" session); [|discriminate H10].
      injection H10 as ->. reflexivity. }
    split; [exact V|].
    destruct (SdJwt.json_eqb version' (JStr "0.1")).
    - apply (redirect_recorded _ _ _ _ _ _ _ _ Rec) in H.
      destruct H as (V' & -> & ->). rewrite V in V'. injection V' as ->.
      repeat split.
    - apply bind_Return in H. destruct H as (certificate & C1 & H).
      apply bind_Return in H. destruct H as (cert & C2 & H).
      apply bind_Return in H. destruct H as (encryptedMsg & C3 & H).
      apply bind_Return in H. destruct H as (ciphertext & C4 & H).
      apply bind_Return in H. destruct H as (nonce & C5 & H).
      apply bind_Return in H. destruct H as (authTag & C6 & H).
      apply bind_Return in H. destruct H as (x & C7 & H).
      apply bind_Return in H. destruct H as (y & C8 & H).
      apply bind_Return in H. destruct H as (der & C9 & H).
      apply (redirect_recorded _ _ _ _ _ _ _ _ Rec) in H.
      destruct H as (V' & -> & ->). rewrite V in V'. injection V' as ->.
      apply Mdoc.run_Return in C3, C9.
      unfold session_item, getitem in C1. apply Mdoc.of_option_Return in C1.
      repeat split.
      exists certificate, cert, encryptedMsg, ciphertext, nonce, authTag, x, y, der.
      repeat split; assumption. }
  exists token, e, l, request, r, error_code, request1, r1, error_code1, encoded,
    raw, sd_jwt.
  destruct (SdJwt.json_eqb version' (JStr "0.1")) eqn:E;
    destruct F as (<- & -> & F); rewrite E; repeat split; assumption.
Qed.

(** X15: [getlightresponse] redirects a credential only after everything
    before has succeeded.  Whenever the redirect it returns carries an
    [mdoc] field, the form held a token, [handle_response] and
    [validate_mandatory_args] answered [True], both formatter routes
    answered with an [error_code] equal to 0, and the redirect's error
    code is 0. *)
Theorem getlightresponse_delivers_only_after_success
    (env : route_env redirection) (form : list (string * string))
    (session : list (string * json))
    (version returnURL code : json) (fields : list (string * json)) :
  records_redirects env ->
  getlightresponse env form session = Return (version, returnURL, code, fields) ->
  In "mdoc" (map fst fields) ->
  code = JInt 0
  /\ exists token e l request r error_code request1 r1 error_code1,
       form_get "token" form = Some token
       /\ handle_response env token = Returned (true, e)
       /\ validate_mandatory_args env e (eidasnode_pid_attributes env)
          = Returned (true, l)
       /\ json_post env (service_url env ++ "formatter/cbor") request = Returned r
       /\ getitem r "error_code" = Return error_code
       /\ SdJwt.json_eqb error_code (JInt 0) = true
       /\ json_post env (service_url env ++ "formatter/sd-jwt") request1 = Returned r1
       /\ getitem r1 "error_code" = Return error_code1
       /\ SdJwt.json_eqb error_code1 (JInt 0) = true.
Proof.
  intros Rec H Hm.
  destruct (getlightresponse_credential _ _ _ _ _ _ _ Rec H Hm)
    as (token & e & l & request & r & error_code & request1 & r1 & error_code1
        & encoded & raw & sd_jwt & H1 & H2 & H3 & H4 & H5 & H6 & H7 & H8 & H9 & _
        & _ & _ & _ & C & _).
  split; [exact C|].
  exists token, e, l, request, r, error_code, request1, r1, error_code1.
  repeat split; assumption.
Qed.

Lemma demo_env_records_redirects : records_redirects demo_env.
Proof. intros version returnURL error_code l. reflexivity. Qed.

Lemma getlightresponse_delivers_only_after_success_witness :
  JInt 0 = JInt 0
  /\ exists token e l request r error_code request1 r1 error_code1,
       form_get "token" demo_form = Some token
       /\ handle_response demo_env token = Returned (true, e)
       /\ validate_mandatory_args demo_env e (eidasnode_pid_attributes demo_env)
          = Returned (true, l)
       /\ json_post demo_env (service_url demo_env ++ "formatter/cbor") request
          = Returned r
       /\ getitem r "error_code" = Return error_code
       /\ SdJwt.json_eqb error_code (JInt 0) = true
       /\ json_post demo_env (service_url demo_env ++ "formatter/sd-jwt") request1
          = Returned r1
       /\ getitem r1 "error_code" = Return error_code1
       /\ SdJwt.json_eqb error_code1 (JInt 0) = true.
Proof.
  apply (getlightresponse_delivers_only_after_success demo_env demo_form
           (demo_session "0.1") (JStr "0.1") (JStr "https://wallet.example/cb")
           (JInt 0)
           [("mdoc", JStr (decode_utf8 (urlsafe_b64encode (b64encode demo_raw))));
            ("nonce", JStr ""); ("authTag", JStr ""); ("ciphertextPubKey", JStr "");
            ("sd_jwt", JStr "jws~d1~d2")]).
  - exact demo_env_records_redirects.
  - vm_compute. reflexivity.
  - cbn. tauto.
Defined.

(** X16: with version "0.1" the device gets back the very mdoc the cbor
    formatter built.  The [mdoc] field of the redirect is a text which,
    decoded as URL-safe base64 and then as standard base64, gives the
    octets that the formatter's answer holds (in URL-safe base64) under
    [mdoc]; and the [sd_jwt] field is the formatter's [sd-jwt]. *)
Theorem getlightresponse_plaintext_round_trip
    (env : route_env redirection) (form : list (string * string))
    (session : list (string * json))
    (version returnURL code : json) (fields : list (string * json)) :
  records_redirects env ->
  getlightresponse env form session = Return (version, returnURL, code, fields) ->
  In "mdoc" (map fst fields) ->
  SdJwt.json_eqb version (JStr "0.1") = true ->
  exists request r encoded raw text request1 r1 sd_jwt,
    json_post env (service_url env ++ "formatter/cbor") request = Returned r
    /\ getitem r "mdoc" = Return (JStr encoded)
    /\ urlsafe_b64decode_str encoded = Return raw
    /\ lookup "mdoc" fields = Some (JStr text)
    /\ (once <- urlsafe_b64decode_str text ;; b64decode once) = Return raw
    /\ json_post env (service_url env ++ "formatter/sd-jwt") request1 = Returned r1
    /\ getitem r1 "sd-jwt" = Return sd_jwt
    /\ lookup "sd_jwt" fields = Some sd_jwt.
Proof.
  intros Rec H Hm V.
  destruct (getlightresponse_credential _ _ _ _ _ _ _ Rec H Hm)
    as (token & e & l & request & r & error_code & request1 & r1 & error_code1
        & encoded & raw & sd_jwt & _ & _ & _ & H4 & _ & _ & H7 & _ & _ & H10
        & H11 & H12 & _ & _ & F).
  rewrite V in F. subst fields.
  destruct encoded as [| | |encoded| |]; try discriminate H11.
  cbn [urlsafe_b64decode_json] in H11.
  exists request, r, encoded, raw,
    (decode_utf8 (urlsafe_b64encode (b64encode raw))), request1, r1, sd_jwt.
  repeat split; try assumption.
  rewrite urlsafe_b64decode_str_b64encode. cbn [bind].
  apply b64decode_b64encode.
Qed.

Lemma getlightresponse_plaintext_round_trip_witness :
  exists request r encoded raw text request1 r1 sd_jwt,
    json_post demo_env (service_url demo_env ++ "formatter/cbor") request = Returned r
    /\ getitem r "mdoc" = Return (JStr encoded)
    /\ urlsafe_b64decode_str encoded = Return raw
    /\ lookup "mdoc"
         [("mdoc", JStr (decode_utf8 (urlsafe_b64encode (b64encode demo_raw))));
          ("nonce", JStr ""); ("authTag", JStr ""); ("ciphertextPubKey", JStr "");
          ("sd_jwt", JStr "jws~d1~d2")]
       = Some (JStr text)
    /\ (once <- urlsafe_b64decode_str text ;; b64decode once) = Return raw
    /\ json_post demo_env (service_url demo_env ++ "formatter/sd-jwt") request1
       = Returned r1
    /\ getitem r1 "sd-jwt" = Return sd_jwt
    /\ lookup "sd_jwt"
         [("mdoc", JStr (decode_utf8 (urlsafe_b64encode (b64encode demo_raw))));
          ("nonce", JStr ""); ("authTag", JStr ""); ("ciphertextPubKey", JStr "");
          ("sd_jwt", JStr "jws~d1~d2")]
       = Some sd_jwt.
Proof.
  apply (getlightresponse_plaintext_round_trip demo_env demo_form
           (demo_session "0.1") (JStr "0.1") (JStr "https://wallet.example/cb")
           (JInt 0)
           [("mdoc", JStr (decode_utf8 (urlsafe_b64encode (b64encode demo_raw))));
            ("nonce", JStr ""); ("authTag", JStr ""); ("ciphertextPubKey", JStr "");
            ("sd_jwt", JStr "jws~d1~d2")]).
  - exact demo_env_records_redirects.
  - vm_compute. reflexivity.
  - cbn. tauto.
  - reflexivity.
Defined.

(** X20: with any other version the device gets the mdoc the cbor
    formatter built, encrypted.  What [eccEnc] is given to encrypt is the
    standard base64 text of the octets that the formatter's answer holds
    under [mdoc], and the key it is given is the certificate of the
    session, decoded; the [mdoc], [nonce] and [authTag] fields of the
    redirect are the URL-safe base64 texts of the first three components
    of what [eccEnc] returned, and [sd_jwt] is the formatter's [sd-jwt],
    not encrypted. *)
Theorem getlightresponse_encrypts_the_formatter_mdoc
    (env : route_env redirection) (form : list (string * string))
    (session : list (string * json))
    (version returnURL code : json) (fields : list (string * json)) :
  records_redirects env ->
  getlightresponse env form session = Return (version, returnURL, code, fields) ->
  In "mdoc" (map fst fields) ->
  SdJwt.json_eqb version (JStr "0.1") = false ->
  exists request r encoded raw certificate cert message encryptedMsg
         ciphertext nonce authTag request1 r1 sd_jwt,
    json_post env (service_url env ++ "formatter/cbor") request = Returned r
    /\ getitem r "mdoc" = Return (JStr encoded)
    /\ urlsafe_b64decode_str encoded = Return raw
    /\ lookup "certificate" session = Some certificate
    /\ urlsafe_b64decode_json certificate = Return cert
    /\ eccEnc env cert message = Returned encryptedMsg
    /\ b64decode (encode_utf8 message) = Return raw
    /\ bind (item encryptedMsg 0) urlsafe_b64encode_text = Return ciphertext
    /\ bind (item encryptedMsg 1) urlsafe_b64encode_text = Return nonce
    /\ bind (item encryptedMsg 2) urlsafe_b64encode_text = Return authTag
    /\ lookup "mdoc" fields = Some ciphertext
    /\ lookup "nonce" fields = Some nonce
    /\ lookup "authTag" fields = Some authTag
    /\ json_post env (service_url env ++ "formatter/sd-jwt") request1 = Returned r1
    /\ getitem r1 "sd-jwt" = Return sd_jwt
    /\ lookup "sd_jwt" fields = Some sd_jwt.
Proof.
  intros Rec H Hm V.
  destruct (getlightresponse_credential _ _ _ _ _ _ _ Rec H Hm)
    as (token & e & l & request & r & error_code & request1 & r1 & error_code1
        & encoded & raw & sd_jwt & _ & _ & _ & H4 & _ & _ & H7 & _ & _ & H10
        & H11 & H12 & _ & _ & F).
  rewrite V in F.
  destruct F as (certificate & cert & encryptedMsg & ciphertext & nonce & authTag
                 & x & y & der & C1 & C2 & C3 & C4 & C5 & C6 & _ & _ & _ & ->).
  destruct encoded as [| | |encoded| |]; try discriminate H11.
  cbn [urlsafe_b64decode_json] in H11.
  exists request, r, encoded, raw, certificate, cert,
    (decode_utf8 (b64encode raw)), encryptedMsg, ciphertext, nonce, authTag,
    request1, r1, sd_jwt.
  repeat split; try assumption.
  unfold encode_utf8, decode_utf8. rewrite list_ascii_of_string_of_list_ascii.
  apply b64decode_b64encode.
Qed.

Lemma getlightresponse_encrypts_the_formatter_mdoc_witness :
  exists request r encoded raw certificate cert message encryptedMsg
         ciphertext nonce authTag request1 r1 sd_jwt,
    json_post demo_env (service_url demo_env ++ "formatter/cbor") request = Returned r
    /\ getitem r "mdoc" = Return (JStr encoded)
    /\ urlsafe_b64decode_str encoded = Return raw
    /\ lookup "certificate" (demo_session "0.2") = Some certificate
    /\ urlsafe_b64decode_json certificate = Return cert
    /\ eccEnc demo_env cert message = Returned encryptedMsg
    /\ b64decode (encode_utf8 message) = Return raw
    /\ bind (item encryptedMsg 0) urlsafe_b64encode_text = Return ciphertext
    /\ bind (item encryptedMsg 1) urlsafe_b64encode_text = Return nonce
    /\ bind (item encryptedMsg 2) urlsafe_b64encode_text = Return authTag
    /\ lookup "mdoc"
         [("mdoc",
           JStr (decode_utf8
                   (urlsafe_b64encode
                      (rev (encode_utf8 (decode_utf8 (b64encode demo_raw)))))));
          ("nonce", JStr "bm9uY2Utbm9uY2Ut");
          ("authTag", JStr "dGFnLXRhZy10YWctdGFnLQ==");
          ("ciphertextPubKey", JStr "6HA="); ("sd_jwt", JStr "jws~d1~d2")]
       = Some ciphertext
    /\ lookup "nonce"
         [("mdoc",
           JStr (decode_utf8
                   (urlsafe_b64encode
                      (rev (encode_utf8 (decode_utf8 (b64encode demo_raw)))))));
          ("nonce", JStr "bm9uY2Utbm9uY2Ut");
          ("authTag", JStr "dGFnLXRhZy10YWctdGFnLQ==");
          ("ciphertextPubKey", JStr "6HA="); ("sd_jwt", JStr "jws~d1~d2")]
       = Some nonce
    /\ lookup "authTag"
         [("mdoc",
           JStr (decode_utf8
                   (urlsafe_b64encode
                      (rev (encode_utf8 (decode_utf8 (b64encode demo_raw)))))));
          ("nonce", JStr "bm9uY2Utbm9uY2Ut");
          ("authTag", JStr "dGFnLXRhZy10YWctdGFnLQ==");
          ("ciphertextPubKey", JStr "6HA="); ("sd_jwt", JStr "jws~d1~d2")]
       = Some authTag
    /\ json_post demo_env (service_url demo_env ++ "formatter/sd-jwt") request1
       = Returned r1
    /\ getitem r1 "sd-jwt" = Return sd_jwt
    /\ lookup "sd_jwt"
         [("mdoc",
           JStr (decode_utf8
                   (urlsafe_b64encode
                      (rev (encode_utf8 (decode_utf8 (b64encode demo_raw)))))));
          ("nonce", JStr "bm9uY2Utbm9uY2Ut");
          ("authTag", JStr "dGFnLXRhZy10YWctdGFnLQ==");
          ("ciphertextPubKey", JStr "6HA="); ("sd_jwt", JStr "jws~d1~d2")]
       = Some sd_jwt.
Proof.
  apply (getlightresponse_encrypts_the_formatter_mdoc demo_env demo_form
           (demo_session "0.2") (JStr "0.2") (JStr "https://wallet.example/cb")
           (JInt 0)
           [("mdoc",
             JStr (decode_utf8
                     (urlsafe_b64encode
                        (rev (encode_utf8 (decode_utf8 (b64encode demo_raw)))))));
            ("nonce", JStr "bm9uY2Utbm9uY2Ut");
            ("authTag", JStr "dGFnLXRhZy10YWctdGFnLQ==");
            ("ciphertextPubKey", JStr "6HA="); ("sd_jwt", JStr "jws~d1~d2")]).
  - exact demo_env_records_redirects.
  - vm_compute. reflexivity.
  - cbn. tauto.
  - reflexivity.
Defined.

(** *** The route [/eidasnode/lightrequest]

    [getlightrequest] starts the exchange with the eIDAS node.  Beside
    what [getlightresponse] uses it takes [create_request] and the
    configured countries ([ConfCountries.supported_countries]) from its
    surroundings; [request.args] is an argument. *)
Record request_env (response : Type) : Type := mk_request_env {
  route : route_env response;
  create_request : json -> json -> call response;
  supported_countries : json
}.

Arguments route {response} _.
Arguments create_request {response} _ _ _.
Arguments supported_countries {response} _.

(** [request.args.get(key)]: [None] for a parameter that is not given. *)
Definition args_get (key : string) (args : list (string * string)) : json :=
  match form_get key args with
  | Some v => JStr v
  | None => JNull
  end.

(** [request.args] as the dictionary a callee sees. *)
Definition args_dict (args : list (string * string)) : json :=
  JDict (map (fun kv => (fst kv, JStr (snd kv))) args).

Definition getlightrequest {response : Type} (env : request_env response)
    (args : list (string * string)) : outcome response :=
  bl <- run (validate_mandatory_args (route env) (args_dict args) ["country"]) ;;
  let (b, l) := bl : bool * list string in
  if negb b then
    run (redirect_getpid (route env) (args_get "version" args)
           (args_get "returnURL" args) (JInt 301) [])
  else
    let country := args_get "country" args in
    cfg <- SdJwt.subscript (supported_countries env) country ;;
    loa <- getitem cfg "loa" ;;
    run (create_request env country loa).

(** X17: [getlightrequest] answers a request that fails the check of its
    mandatory arguments with the error redirect 301, the version and the
    return URL being those of the query ([None] where the query gives
    none).  A request that passes the check is handed to [create_request]
    with the level of assurance configured for its country -- if the
    country is configured: for a country that is not among the supported
    countries the lookup raises [KeyError], and no redirect is made. *)
Theorem getlightrequest_answers
    {response : Type} (env : request_env response) (args : list (string * string))
    (b : bool) (l : list string) (countries : list (string * json)) :
  validate_mandatory_args (route env) (args_dict args) ["country"] = Returned (b, l) ->
  supported_countries env = JDict countries ->
  (b = false ->
   getlightrequest env args
   = run (redirect_getpid (route env) (args_get "version" args)
            (args_get "returnURL" args) (JInt 301) []))
  /\ (forall country cfg loa,
        b = true ->
        form_get "country" args = Some country ->
        lookup country countries = Some cfg ->
        getitem cfg "loa" = Return loa ->
        getlightrequest env args = run (create_request env (JStr country) loa))
  /\ (forall country,
        b = true ->
        form_get "country" args = Some country ->
        lookup country countries = None ->
        getlightrequest env args = Raise KeyError).
Proof.
  intros Hv Hc. unfold getlightrequest. rewrite Hv, Hc. cbn [run bind].
  repeat split.
  - intros ->. reflexivity.
  - intros country cfg loa -> Hcountry Hcfg Hloa. cbn [negb].
    unfold args_get. rewrite Hcountry. cbn [SdJwt.subscript].
    rewrite Hcfg. cbn [of_option bind]. rewrite Hloa. reflexivity.
  - intros country -> Hcountry Hcfg. cbn [negb].
    unfold args_get. rewrite Hcountry. cbn [SdJwt.subscript].
    rewrite Hcfg. reflexivity.
Qed.

(** A service with one configured country, whose check of the mandatory
    arguments looks for them in the query. *)
Definition demo_request_env : request_env demo_response :=
  mk_request_env demo_response
    (mk_route_env demo_response
       (eidasnode_pid_attributes demo_env) (service_url demo_env)
       (pid_doctype demo_env) (pid_namespace demo_env)
       (handle_response demo_env)
       (fun given mandatory =>
          Returned
            (forallb (fun k => match getitem given k with
                               | Return _ => true
                               | _ => false
                               end) mandatory, []))
       (format_pid_data demo_env) (format_sd_jwt_pid_data demo_env)
       (json_post demo_env) (eccEnc demo_env) (pubkeyDER demo_env)
       (redirect_getpid demo_env))
    (fun country loa => Returned (JStr "lightrequest", country, loa, []))
    (JDict [("FC", JDict [("name", JStr "Form Country");
                          ("loa", JStr "http://eidas.europa.eu/LoA/high")])]).

Lemma getlightrequest_answers_witness :
  getlightrequest demo_request_env [("version", "0.2")]
  = Return (JStr "0.2", JNull, JInt 301, [])
  /\ getlightrequest demo_request_env [("country", "FC")]
     = Return (JStr "lightrequest", JStr "FC",
               JStr "http://eidas.europa.eu/LoA/high", [])
  /\ getlightrequest demo_request_env [("country", "XX")] = Raise KeyError.
Proof.
  split; [|split].
  - refine (proj1 (getlightrequest_answers demo_request_env [("version", "0.2")]
                     false []
                     [("FC", JDict [("name", JStr "Form Country");
                                    ("loa", JStr "http://eidas.europa.eu/LoA/high")])]
                     _ _) _); reflexivity.
  - refine (proj1 (proj2 (getlightrequest_answers demo_request_env
                            [("country", "FC")] true []
                            [("FC",
                              JDict [("name", JStr "Form Country");
                                     ("loa", JStr "http://eidas.europa.eu/LoA/high")])]
                            _ _))
              "FC"
              (JDict [("name", JStr "Form Country");
                      ("loa", JStr "http://eidas.europa.eu/LoA/high")])
              (JStr "http://eidas.europa.eu/LoA/high") _ _ _ _); reflexivity.
  - refine (proj2 (proj2 (getlightrequest_answers demo_request_env
                            [("country", "XX")] true []
                            [("FC",
                              JDict [("name", JStr "Form Country");
                                     ("loa", JStr "http://eidas.europa.eu/LoA/high")])]
                            _ _))
              "XX" _ _ _); reflexivity.
Defined.

End Route.
